(** * Order-book synchronisation of the Binance and PoloniexFutures feeds

    A shallow embedding of [cryptofeed/exchange/binance.py] and
    [cryptofeed/exchanges/poloniex_futures.py], and the properties of their
    sequence checks, snapshot bootstrap, address sharding, level updates,
    message dispatch and trade normalisation. *)

From Stdlib Require Import ZArith QArith Qcanon Lia Ascii String.
From stdpp Require Import base option list gmap strings pretty.

Local Open Scope Z_scope.
Set Warnings "-register-all".


(** ** Python values and control flow *)

Module Py.

(** Exceptions that the modelled code can raise. *)
Inductive Exn :=
| KeyError (key : string)
| ValueError
| TypeError
| AttributeError
| InvalidOperation
| ConnectionError.

(** A decoded JSON document, as [json.loads(_, parse_float=Decimal)] returns
    it: numbers without a fraction are [int], the others are [Decimal]. A
    [dict] keeps its keys in order; the first binding of a key is the live
    one. *)
Inductive JSON :=
| JNull
| JBool (b : bool)
| JInt (n : Z)
| JDec (d : Qc)
| JStr (s : string)
| JList (l : list JSON)
| JDict (d : list (string * JSON)).

(** Result of running a piece of code: a value or a raised exception. *)
Inductive Res (A : Type) :=
| Ok (a : A)
| Raise (e : Exn).
Arguments Ok {A} a.
Arguments Raise {A} e.

(** Code that reads and writes an object of type [S] and may raise. An
    exception does not roll the object back: the state reached when it was
    raised is returned with it. *)
Definition M (S A : Type) : Type := S -> Res A * S.

Definition pure {S A} (a : A) : M S A := fun s => (Ok a, s).

Definition raise {S A} (e : Exn) : M S A := fun s => (Raise e, s).

Definition bind {S A B} (m : M S A) (k : A -> M S B) : M S B :=
  fun s => match m s with
           | (Ok a, s') => k a s'
           | (Raise e, s') => (Raise e, s')
           end.

Definition gets {S A} (f : S -> A) : M S A := fun s => (Ok (f s), s).

Definition modify {S} (f : S -> S) : M S unit := fun s => (Ok tt, f s).

Definition lift {S A} (r : Res A) : M S A := fun s => (r, s).

Declare Scope py_scope.
Delimit Scope py_scope with py.
Notation "x <- c1 ;; c2" := (bind c1 (fun x => c2))
  (at level 100, c1 at next level, right associativity) : py_scope.
Notation "c1 ;; c2" := (bind c1 (fun _ => c2))
  (at level 100, right associativity) : py_scope.

(** [for x in l: body x] *)
Fixpoint for_each {S A} (l : list A) (body : A -> M S unit) : M S unit :=
  match l with
  | [] => pure tt
  | x :: r => bind (body x) (fun _ => for_each r body)
  end.

(** *** dict and JSON access *)

Fixpoint dict_get {V} (k : string) (d : list (string * V)) : option V :=
  match d with
  | [] => None
  | (k', v) :: r => if String.eqb k k' then Some v else dict_get k r
  end.

(** [d[k] = v]: an existing key keeps its place, a new one goes last. *)
Fixpoint dict_set {V} (k : string) (v : V) (d : list (string * V))
  : list (string * V) :=
  match d with
  | [] => [(k, v)]
  | (k', v') :: r =>
      if String.eqb k k' then (k, v) :: r else (k', v') :: dict_set k v r
  end.

(** [k in v] *)
Definition contains (v : JSON) (k : string) : Res bool :=
  match v with
  | JDict d => Ok (bool_decide (is_Some (dict_get k d)))
  | JList l => Ok (existsb (fun x => match x with
                                     | JStr s => String.eqb s k
                                     | _ => false
                                     end) l)
  | JStr s => Ok (bool_decide (is_Some (String.index 0 k s)))
  | _ => Raise TypeError
  end.

(** [v[k]] with a string key. *)
Definition getitem (v : JSON) (k : string) : Res JSON :=
  match v with
  | JDict d => match dict_get k d with
               | Some x => Ok x
               | None => Raise (KeyError k)
               end
  | _ => Raise TypeError
  end.

(** [v.get(k)], [None] when the key is missing. *)
Definition get (v : JSON) (k : string) : Res JSON :=
  match v with
  | JDict d => Ok (default JNull (dict_get k d))
  | _ => Raise AttributeError
  end.

(** [v[i]] with a position. *)
Definition index (v : JSON) (i : nat) : Res JSON :=
  match v with
  | JList l => match l !! i with
               | Some x => Ok x
               | None => Raise (KeyError "index")
               end
  | _ => Raise TypeError
  end.

(** [v == s] for a string literal [s]. *)
Definition eq_str (v : JSON) (s : string) : bool :=
  match v with
  | JStr t => String.eqb t s
  | _ => false
  end.

(** Truth value of a document, as [if v] tests it. *)
Definition truthy (v : JSON) : bool :=
  match v with
  | JNull => false
  | JBool b => b
  | JInt n => negb (n =? 0)
  | JDec d => negb (bool_decide (d = 0%Qc))
  | JStr s => negb (String.eqb s "")
  | JList l => negb (bool_decide (l = []))
  | JDict d => negb (bool_decide (d = []))
  end.

(** Update identifiers and sequence numbers are JSON integers; any other
    value is refused where the number is read. *)
Definition as_int (v : JSON) : Res Z :=
  match v with
  | JInt n => Ok n
  | _ => Raise TypeError
  end.

Definition as_str (v : JSON) : Res string :=
  match v with
  | JStr s => Ok s
  | _ => Raise TypeError
  end.

Definition as_list (v : JSON) : Res (list JSON) :=
  match v with
  | JList l => Ok l
  | _ => Raise TypeError
  end.

Definition res_bind {A B} (r : Res A) (k : A -> Res B) : Res B :=
  match r with
  | Ok a => k a
  | Raise e => Raise e
  end.

(** *** str methods

    A [str] is held as the bytes of its UTF-8 form. The separators that the
    code splits on and appends (["@"], [":"], [","] and ["/"]) are single
    bytes that occur in the form of no other character, so [split] and
    [drop_last] on the bytes are what [str.split] and [s[:-1]] are on the
    text that the code applies them to. *)

(** [s[:-1]] *)
Fixpoint drop_last (s : string) : string :=
  match s with
  | EmptyString => EmptyString
  | String c EmptyString => EmptyString
  | String c r => String c (drop_last r)
  end.

(** [s.split(sep)] for a one-character separator. *)
Fixpoint split (sep : ascii) (s : string) : list string :=
  match s with
  | EmptyString => [EmptyString]
  | String c r =>
      if Ascii.eqb c sep then EmptyString :: split sep r
      else match split sep r with
           | h :: t => String c h :: t
           | [] => [String c EmptyString]
           end
  end.

(** [s.split(sep, 1)] *)
Fixpoint split1 (sep : ascii) (s : string) : list string :=
  match s with
  | EmptyString => [EmptyString]
  | String c r =>
      if Ascii.eqb c sep then [EmptyString; r]
      else match split1 sep r with
           | h :: t => String c h :: t
           | [] => [String c EmptyString]
           end
  end.

End Py.

(** ** Names imported by both feeds *)

(** [cryptofeed.defines]: the two sides of a book and of a trade. *)
Inductive BookSide := BID | ASK.
Inductive TradeSide := BUY | SELL.

(** A value per book side, as the dicts [{BID: _, ASK: _}]. *)
Record Sided (A : Type) := mkSided { bid : A; ask : A }.
Arguments mkSided {A} bid ask.
Arguments bid {A} s.
Arguments ask {A} s.

Definition side_get {A} (side : BookSide) (s : Sided A) : A :=
  match side with BID => bid s | ASK => ask s end.

Definition side_set {A} (side : BookSide) (a : A) (s : Sided A) : Sided A :=
  match side with
  | BID => mkSided a (ask s)
  | ASK => mkSided (bid s) a
  end.

(** Price levels of one side, price to size, and the changes of one update. *)
Abbreviation Levels := (gmap Qc Qc).
Abbreviation Delta := (Sided (list (Qc * Qc))).

(** What the feeds take from outside the two modules: [decimal.Decimal] on
    text, the symbol table of the package ([None] when the symbol is not in
    it, where the lookup raises), and the channel name [OPEN_INTEREST] of
    [cryptofeed.defines].

    [lower] and [upper] are [str.lower] and [str.upper], which follow the
    case tables of Unicode: no property of them is assumed.

    [timestamp_normalize] is [timestamp_normalize(self.id, ts)] of
    [cryptofeed.standards], which the Binance feed calls, and
    [self_timestamp_normalize] is the method [self.timestamp_normalize(ts)]
    that the PoloniexFutures feed inherits; both may raise, on a time stamp
    that is no number for one. [truediv] is Python's [x / n] on the value
    that the method returned, whose type and rounding are those of that
    value. *)
Class Imports := {
  decimal_of_text : string -> option Qc;
  std_symbol : string -> option string;
  OPEN_INTEREST : string;
  lower : string -> string;
  upper : string -> string;
  timestamp_normalize : Py.JSON -> Py.Res Py.JSON;
  self_timestamp_normalize : Py.JSON -> Py.Res Py.JSON;
  truediv : Py.JSON -> Z -> Py.Res Py.JSON;
}.

Section Decimal.
Context `{Imports}.
Import Py.

(** [Decimal(v)]: exact, a [bool] counts as the integer it is. *)
Definition Decimal (v : JSON) : Res Qc :=
  match v with
  | JStr s => match decimal_of_text s with
              | Some d => Ok d
              | None => Raise InvalidOperation
              end
  | JInt n => Ok (Q2Qc (inject_Z n))
  | JDec d => Ok d
  | JBool b => Ok (if b then 1%Qc else 0%Qc)
  | _ => Raise TypeError
  end.

Definition to_std (pair : string) : Res string :=
  match std_symbol pair with
  | Some s => Ok s
  | None => Raise (KeyError pair)
  end.

End Decimal.

(** ** cryptofeed/exchange/binance.py *)

Module Binance.
Import Py.
Local Open Scope py_scope.

Definition valid_depths : list Z := [5; 10; 20; 50; 100; 500; 1000; 5000].

Definition ws_endpoint : string := "wss://stream.binance.com:9443".
Definition rest_endpoint : string := "https://www.binance.com/api/v1".

(** A call of a callback of the feed, with the arguments of the call. A
    time stamp [ts] is the value that [timestamp_normalize] returned; the
    receipt time is left out. *)
Inductive Event :=
| TradeEvent (order_id : JSON) (symbol : string) (side : TradeSide)
    (amount price : Qc) (ts : JSON)
| TickerEvent (symbol : string) (bid_price ask_price : Qc) (ts : option JSON)
| LiquidationEvent (symbol : string) (side : JSON) (leaves_qty price : Qc)
    (ts : JSON)
| FundingEvent (symbol : string) (ts : JSON) (mark_price rate : JSON)
    (next_funding_time : JSON)
| BookEvent (book : Sided Levels) (symbol : string) (forced : bool)
    (delta : Delta) (ts : JSON).

(** The feed object. [max_depth] is its configuration; [forced], [l2_book],
    [last_update_id] and [open_interest] are the attributes that [_reset]
    creates. The last four fields are the outside of the feed: the replies
    that the REST connection will give to the next requests, the requests
    made (symbol and limit of [/depth?symbol=_&limit=_]), the callbacks
    called and the warnings logged, oldest first. *)
Record Feed := mkFeed {
  max_depth : option Z;
  forced : gmap string bool;
  l2_book : gmap string (Sided Levels);
  last_update_id : gmap string Z;
  open_interest : gmap string JSON;
  rest : list JSON;
  requests : list (string * Z);
  events : list Event;
  warnings : list JSON;
}.

Definition set_forced (f : gmap string bool) (st : Feed) : Feed :=
  mkFeed (max_depth st) f (l2_book st) (last_update_id st) (open_interest st)
    (rest st) (requests st) (events st) (warnings st).

Definition set_l2_book (b : gmap string (Sided Levels)) (st : Feed) : Feed :=
  mkFeed (max_depth st) (forced st) b (last_update_id st) (open_interest st)
    (rest st) (requests st) (events st) (warnings st).

Definition set_last_update_id (l : gmap string Z) (st : Feed) : Feed :=
  mkFeed (max_depth st) (forced st) (l2_book st) l (open_interest st)
    (rest st) (requests st) (events st) (warnings st).

Definition callback (e : Event) : M Feed unit :=
  modify (fun st =>
    mkFeed (max_depth st) (forced st) (l2_book st) (last_update_id st)
      (open_interest st) (rest st) (requests st) (events st ++ [e])
      (warnings st)).

(** [LOG.warning("...: %s", self.id, msg)], the logged document kept. *)
Definition warning (msg : JSON) : M Feed unit :=
  modify (fun st =>
    mkFeed (max_depth st) (forced st) (l2_book st) (last_update_id st)
      (open_interest st) (rest st) (requests st) (events st)
      (warnings st ++ [msg])).

(** [await conn.get(url)] then [json.loads]: the request is recorded and the
    next reply is taken; with no reply left the request fails. *)
Definition conn_get (pair : string) (limit : Z) : M Feed JSON :=
  fun st =>
    let sent := requests st ++ [(pair, limit)] in
    match rest st with
    | [] => (Raise ConnectionError,
             mkFeed (max_depth st) (forced st) (l2_book st)
               (last_update_id st) (open_interest st) [] sent (events st)
               (warnings st))
    | r :: tl => (Ok r,
                  mkFeed (max_depth st) (forced st) (l2_book st)
                    (last_update_id st) (open_interest st) tl sent
                    (events st) (warnings st))
    end.

(** [_reset]: every per-symbol attribute is replaced by an empty one. *)
Definition _reset : M Feed unit :=
  modify (fun st =>
    mkFeed (max_depth st) ∅ ∅ ∅ ∅ (rest st) (requests st) (events st)
      (warnings st)).

(** [self.forced[pair]] on a [defaultdict(bool)]: a missing key is created
    with [False]. *)
Definition forced_getitem (pair : string) : M Feed bool :=
  fun st => match forced st !! pair with
            | Some b => (Ok b, st)
            | None => (Ok false, set_forced (<[pair := false]> (forced st)) st)
            end.

Definition forced_setitem (pair : string) (b : bool) : M Feed unit :=
  modify (fun st => set_forced (<[pair := b]> (forced st)) st).

(** [self.last_update_id[pair]] *)
Definition last_update_id_getitem (pair : string) : M Feed Z :=
  fun st => match last_update_id st !! pair with
            | Some n => (Ok n, st)
            | None => (Raise (KeyError pair), st)
            end.

Definition last_update_id_setitem (pair : string) (n : Z) : M Feed unit :=
  modify (fun st => set_last_update_id (<[pair := n]> (last_update_id st)) st).

(** [self.l2_book[pair]] *)
Definition l2_book_getitem (pair : string) : M Feed (Sided Levels) :=
  fun st => match l2_book st !! pair with
            | Some b => (Ok b, st)
            | None => (Raise (KeyError pair), st)
            end.

(** [self.l2_book[pair][side]] *)
Definition levels_getitem (pair : string) (side : BookSide) : M Feed Levels :=
  fun st => match l2_book st !! pair with
            | Some b => (Ok (side_get side b), st)
            | None => (Raise (KeyError pair), st)
            end.

(** [self.l2_book[pair][side][price] = amount] *)
Definition level_setitem (pair : string) (side : BookSide) (price amount : Qc)
  : M Feed unit :=
  fun st => match l2_book st !! pair with
            | Some b =>
                (Ok tt,
                 set_l2_book
                   (<[pair := side_set side (<[price := amount]> (side_get side b)) b]>
                      (l2_book st)) st)
            | None => (Raise (KeyError pair), st)
            end.

(** [del self.l2_book[pair][side][price]] *)
Definition level_delitem (pair : string) (side : BookSide) (price : Qc)
  : M Feed unit :=
  fun st => match l2_book st !! pair with
            | Some b =>
                match side_get side b !! price with
                | Some _ =>
                    (Ok tt,
                     set_l2_book
                       (<[pair := side_set side (delete price (side_get side b)) b]>
                          (l2_book st)) st)
                | None => (Raise (KeyError "price"), st)
                end
            | None => (Raise (KeyError pair), st)
            end.

Section Code.
Context `{Imports}.

(** What [_address] reads of the feed: [self.channels], [self.symbols] and
    the dict [self.subscription], channel to symbols. *)
Record Config := mkConfig {
  channels : list string;
  symbols : list string;
  subscription : list (string * list string);
}.

(** The result of [_address]: [None], one address, or a dict of addresses
    keyed by the last stream of each. *)
Inductive Address :=
| NoAddress
| OneAddress (a : string)
| Addresses (d : list (string * string)).

Definition stream_base : string := ws_endpoint +:+ "/stream?streams=".

(** The variables of the loop of [_address]. [stream] is unbound before the
    first stream is built; it is read only after one has been. *)
Record AddressLoop := mkLoop {
  ret : list (string * string);
  counter : nat;
  address : string;
  stream : string;
}.

(** The channels and, for a channel, the symbols that the loops run over. *)
Definition loop_channels (cfg : Config) : list string :=
  match subscription cfg with
  | [] => channels cfg
  | sub => map fst sub
  end.

Definition loop_symbols (cfg : Config) (chan : string) : list string :=
  match subscription cfg with
  | [] => symbols cfg
  | sub => default [] (dict_get chan sub)
  end.

Definition stream_of (chan pair : string) : string :=
  lower pair +:+ "@" +:+ chan +:+ "/".

Definition address_pair (chan : string) (st : AddressLoop) (pair : string)
  : AddressLoop :=
  let stream := stream_of chan pair in
  let address := address st +:+ stream in
  let counter := S (counter st) in
  if (counter =? 200)%nat then
    mkLoop (dict_set stream (drop_last address) (ret st)) 0 stream_base stream
  else mkLoop (ret st) counter address stream.

Definition address_chan (cfg : Config) (st : AddressLoop) (chan : string)
  : AddressLoop :=
  if String.eqb chan OPEN_INTEREST then st
  else fold_left (address_pair chan) (loop_symbols cfg chan) st.

Definition _address (cfg : Config) : Address :=
  let st := fold_left (address_chan cfg) (loop_channels cfg)
              (mkLoop [] 0 stream_base "") in
  if (length (ret st) =? 0)%nat then
    if String.eqb (address st) stream_base then NoAddress
    else OneAddress (drop_last (address st))
  else if (0 <? counter st)%nat then
    Addresses (dict_set (stream st) (drop_last (address st)) (ret st))
  else Addresses (ret st).

(** The first lines of [_snapshot]: the depth asked for. *)
Definition snapshot_depth (max_depth : option Z) : Z :=
  let max_depth := match max_depth with
                   | Some d => if d =? 0 then 1000 else d
                   | None => 1000
                   end in
  if bool_decide (max_depth ∈ valid_depths) then max_depth
  else fold_left (fun m d => if m <? d then d else m) valid_depths max_depth.

(** The two conversions made on an [update] of a list of levels:
    [Decimal(update[0])] and [Decimal(update[1])]. *)
Definition level_of (update : JSON) : Res (Qc * Qc) :=
  res_bind (index update 0) (fun p =>
  res_bind (Decimal p) (fun price =>
  res_bind (index update 1) (fun a =>
  res_bind (Decimal a) (fun amount =>
  Ok (price, amount))))).

Definition load_level (std_pair : string) (side : BookSide) (update : JSON)
  : M Feed unit :=
  l <- lift (level_of update) ;;
  level_setitem std_pair side (fst l) (snd l).

Definition _snapshot (pair : string) : M Feed unit :=
  max_depth <- gets (fun st => snapshot_depth (max_depth st)) ;;
  resp <- conn_get pair max_depth ;;
  std_pair <- lift (to_std pair) ;;
  v <- lift (getitem resp "lastUpdateId") ;;
  n <- lift (as_int v) ;;
  last_update_id_setitem std_pair n ;;
  modify (fun st =>
    set_l2_book (<[std_pair := mkSided ∅ ∅]> (l2_book st)) st) ;;
  for_each [("bids"%string, BID); ("asks"%string, ASK)] (fun '(s, side) =>
    v <- lift (getitem resp s) ;;
    updates <- lift (as_list v) ;;
    for_each updates (load_level std_pair side)).

(** [_check_update_id]: the pair (skip_update, forced). *)
Definition _check_update_id (pair : string) (msg : JSON)
  : M Feed (bool * bool) :=
  f <- forced_getitem pair ;;
  let forced := negb f in
  stale <- (if forced then
              v <- lift (getitem msg "u") ;;
              u <- lift (as_int v) ;;
              last <- last_update_id_getitem pair ;;
              pure (u <=? last)
            else pure false) ;;
  if stale then pure (true, forced)
  else
    window <- (if forced then
                 v <- lift (getitem msg "U") ;;
                 U <- lift (as_int v) ;;
                 last <- last_update_id_getitem pair ;;
                 if U <=? last + 1 then
                   v <- lift (getitem msg "u") ;;
                   u <- lift (as_int v) ;;
                   pure (last + 1 <=? u)
                 else pure false
               else pure false) ;;
    if window then
      v <- lift (getitem msg "u") ;;
      u <- lift (as_int v) ;;
      last_update_id_setitem pair u ;;
      forced_setitem pair true ;;
      pure (false, forced)
    else
      next <- (if negb forced then
                 last <- last_update_id_getitem pair ;;
                 v <- lift (getitem msg "U") ;;
                 U <- lift (as_int v) ;;
                 pure (last + 1 =? U)
               else pure false) ;;
      if next then
        v <- lift (getitem msg "u") ;;
        u <- lift (as_int v) ;;
        last_update_id_setitem pair u ;;
        pure (false, forced)
      else
        _reset ;;
        warning (JStr "Missing book update detected, resetting book") ;;
        pure (true, forced).

(** One [update] of the loop of [_book]: the level is removed, when there
    is one, or written, and what was done is added to [delta]. *)
Definition apply_level (pair : string) (side : BookSide) (delta : Delta)
    (update : JSON) : M Feed Delta :=
  l <- lift (level_of update) ;;
  let price := fst l in
  let amount := snd l in
  if bool_decide (amount = 0%Qc) then
    levels <- levels_getitem pair side ;;
    if bool_decide (is_Some (levels !! price)) then
      level_delitem pair side price ;;
      pure (side_set side (side_get side delta ++ [(price, amount)]) delta)
    else pure delta
  else
    level_setitem pair side price amount ;;
    pure (side_set side (side_get side delta ++ [(price, amount)]) delta).

(** [for x in l: acc = body acc x] *)
Fixpoint fold_each {A B} (body : B -> A -> M Feed B) (l : list A) (acc : B)
  : M Feed B :=
  match l with
  | [] => pure acc
  | x :: r => acc' <- body acc x ;; fold_each body r acc'
  end.

Definition apply_side (pair : string) (msg : JSON) (delta : Delta)
    (s : string * BookSide) : M Feed Delta :=
  v <- lift (getitem msg (fst s)) ;;
  updates <- lift (as_list v) ;;
  fold_each (apply_level pair (snd s)) updates delta.

Definition _book (msg : JSON) (pair : string) : M Feed unit :=
  let exchange_pair := pair in
  pair <- lift (to_std pair) ;;
  known <- gets (fun st => bool_decide (is_Some (l2_book st !! pair))) ;;
  (if known then pure tt else _snapshot exchange_pair) ;;
  r <- _check_update_id pair msg ;;
  let skip_update := fst r in
  let forced := snd r in
  if skip_update then pure tt
  else
    let delta := mkSided [] [] in
    ts <- lift (getitem msg "E") ;;
    delta <- fold_each (apply_side pair msg) [("b"%string, BID); ("a"%string, ASK)]
               delta ;;
    book <- l2_book_getitem pair ;;
    ts <- lift (timestamp_normalize ts) ;;
    callback (BookEvent book pair forced delta ts).

Definition _trade (msg : JSON) : M Feed unit :=
  p <- lift (getitem msg "p") ;;
  price <- lift (Decimal p) ;;
  q <- lift (getitem msg "q") ;;
  amount <- lift (Decimal q) ;;
  a <- lift (getitem msg "a") ;;
  s <- lift (getitem msg "s") ;;
  s <- lift (as_str s) ;;
  symbol <- lift (to_std s) ;;
  m <- lift (getitem msg "m") ;;
  let side := if truthy m then SELL else BUY in
  E <- lift (getitem msg "E") ;;
  ts <- lift (timestamp_normalize E) ;;
  callback (TradeEvent a symbol side amount price ts).

Definition _ticker (msg : JSON) : M Feed unit :=
  s <- lift (getitem msg "s") ;;
  s <- lift (as_str s) ;;
  pair <- lift (to_std s) ;;
  b <- lift (getitem msg "b") ;;
  bid <- lift (Decimal b) ;;
  a <- lift (getitem msg "a") ;;
  ask <- lift (Decimal a) ;;
  has_E <- lift (contains msg "E") ;;
  ts <- (if has_E : bool then
           E <- lift (getitem msg "E") ;;
           ts <- lift (timestamp_normalize E) ;;
           pure (Some ts)
         else pure None) ;;
  callback (TickerEvent pair bid ask ts).

Definition _liquidations (msg : JSON) : M Feed unit :=
  o <- lift (getitem msg "o") ;;
  s <- lift (getitem o "s") ;;
  s <- lift (as_str s) ;;
  pair <- lift (to_std s) ;;
  o <- lift (getitem msg "o") ;;
  S <- lift (getitem o "S") ;;
  o <- lift (getitem msg "o") ;;
  q <- lift (getitem o "q") ;;
  leaves_qty <- lift (Decimal q) ;;
  o <- lift (getitem msg "o") ;;
  p <- lift (getitem o "p") ;;
  price <- lift (Decimal p) ;;
  E <- lift (getitem msg "E") ;;
  ts <- lift (timestamp_normalize E) ;;
  callback (LiquidationEvent pair S leaves_qty price ts).

Definition _funding (msg : JSON) : M Feed unit :=
  s <- lift (getitem msg "s") ;;
  s <- lift (as_str s) ;;
  symbol <- lift (to_std s) ;;
  E <- lift (getitem msg "E") ;;
  ts <- lift (timestamp_normalize E) ;;
  p <- lift (getitem msg "p") ;;
  r <- lift (getitem msg "r") ;;
  T <- lift (getitem msg "T") ;;
  next_funding_time <- lift (timestamp_normalize T) ;;
  callback (FundingEvent symbol ts p r next_funding_time).

(** [message_handler] on the decoded frame. *)
Definition message_handler (msg : JSON) : M Feed unit :=
  stream <- lift (getitem msg "stream") ;;
  stream <- lift (as_str stream) ;;
  pair <- lift (match split1 "@" stream with
                | [p; _] => Ok p
                | _ => Raise ValueError
                end) ;;
  msg <- lift (getitem msg "data") ;;
  let pair := upper pair in
  has_e <- lift (contains msg "e") ;;
  if has_e : bool then
    e <- lift (getitem msg "e") ;;
    if eq_str e "depthUpdate" then _book msg pair
    else if eq_str e "aggTrade" then _trade msg
    else if eq_str e "forceOrder" then _liquidations msg
    else if eq_str e "markPriceUpdate" then _funding msg
    else warning msg
  else
    has_A <- lift (contains msg "A") ;;
    if has_A : bool then _ticker msg
    else warning msg.

(** [subscribe]: nothing is sent; the feed is reset unless the connection is
    the REST one. *)
Definition subscribe (conn_type : string) : M Feed unit :=
  if String.eqb conn_type "https" then pure tt else _reset.

End Code.

End Binance.

(** ** cryptofeed/exchanges/poloniex_futures.py *)

Module PoloniexFutures.
Import Py.
Local Open Scope py_scope.

Definition valid_depths : list Z := [5; 10; 20; 30; 50; 100].

(** [cryptofeed.types.OrderBook] as this module uses it: the two sides of
    [book], and the attributes [sequence_number], [delta] and [timestamp],
    [None] on a new object. *)
Record OrderBook := mkOrderBook {
  book : Sided Levels;
  sequence_number : option Z;
  delta : option Delta;
  timestamp : option JSON;
}.

(** A call of a callback of the feed, with the arguments of the call. The
    time stamp of a trade is the value that [self.timestamp_normalize]
    returned, divided; the receipt time is left out. A book without [delta]
    is a snapshot. *)
Inductive Event :=
| TradeEvent (trade_id : JSON) (symbol : string) (side : TradeSide)
    (amount price : Qc) (ts : JSON)
| BookEvent (symbol : string) (ob : OrderBook).

Inductive Level := ERROR | WARNING.

(** The feed object: [max_depth] is its configuration, [_l2_book] and
    [seq_no] the attributes that [__reset] creates. The other fields are the
    outside of the feed: the replies that the REST connection will give, the
    requests made (symbol and depth of the [l2book] route), the callbacks
    called and the records logged, oldest first. *)
Record Feed := mkFeed {
  max_depth : option Z;
  _l2_book : gmap string OrderBook;
  seq_no : gmap string Z;
  rest : list JSON;
  requests : list (string * option Z);
  events : list Event;
  logged : list (Level * JSON);
}.

Definition set_l2_book (b : gmap string OrderBook) (st : Feed) : Feed :=
  mkFeed (max_depth st) b (seq_no st) (rest st) (requests st) (events st)
    (logged st).

Definition set_seq_no (n : gmap string Z) (st : Feed) : Feed :=
  mkFeed (max_depth st) (_l2_book st) n (rest st) (requests st) (events st)
    (logged st).

Definition callback (e : Event) : M Feed unit :=
  modify (fun st =>
    mkFeed (max_depth st) (_l2_book st) (seq_no st) (rest st) (requests st)
      (events st ++ [e]) (logged st)).

Definition log (l : Level) (msg : JSON) : M Feed unit :=
  modify (fun st =>
    mkFeed (max_depth st) (_l2_book st) (seq_no st) (rest st) (requests st)
      (events st) (logged st ++ [(l, msg)])).

(** [await self.http_conn.read(url)] then [json.loads]. *)
Definition http_read (symbol : string) (depth : option Z) : M Feed JSON :=
  fun st =>
    let sent := requests st ++ [(symbol, depth)] in
    match rest st with
    | [] => (Raise ConnectionError,
             mkFeed (max_depth st) (_l2_book st) (seq_no st) [] sent
               (events st) (logged st))
    | r :: tl => (Ok r,
                  mkFeed (max_depth st) (_l2_book st) (seq_no st) tl sent
                    (events st) (logged st))
    end.

(** [__reset] *)
Definition __reset : M Feed unit :=
  modify (fun st =>
    mkFeed (max_depth st) ∅ ∅ (rest st) (requests st) (events st)
      (logged st)).

(** [self._l2_book[symbol]] *)
Definition l2_book_getitem (symbol : string) : M Feed OrderBook :=
  fun st => match _l2_book st !! symbol with
            | Some ob => (Ok ob, st)
            | None => (Raise (KeyError symbol), st)
            end.

(** [self.seq_no[symbol]] *)
Definition seq_no_getitem (symbol : string) : M Feed Z :=
  fun st => match seq_no st !! symbol with
            | Some n => (Ok n, st)
            | None => (Raise (KeyError symbol), st)
            end.

(** An attribute of the object [self._l2_book[symbol]] is replaced. *)
Definition l2_book_update (symbol : string) (f : OrderBook -> OrderBook)
  : M Feed unit :=
  fun st => match _l2_book st !! symbol with
            | Some ob =>
                (Ok tt, set_l2_book (<[symbol := f ob]> (_l2_book st)) st)
            | None => (Raise (KeyError symbol), st)
            end.

Definition with_side (side : BookSide) (l : Levels) (ob : OrderBook)
  : OrderBook :=
  mkOrderBook (side_set side l (book ob)) (sequence_number ob) (delta ob)
    (timestamp ob).

(** Modelled from the spec: the inherited [Feed.book_callback], which is not
    in the module. It delivers the book to the consumers (the "EventDispatcher
    sink" of the specification); the sequence number, the delta and the
    exchange time stamp that the caller passes by keyword ([None] for one
    that it does not pass) are written on the book object before it is
    delivered. *)
Definition book_callback (symbol : string) (timestamp : option JSON)
    (delta : option Delta) (sequence_number : Z) : M Feed unit :=
  l2_book_update symbol (fun ob =>
    mkOrderBook (book ob) (Some sequence_number) delta timestamp) ;;
  ob <- l2_book_getitem symbol ;;
  callback (BookEvent symbol ob).

Section Code.
Context `{Imports}.

(** [self._reset], called when a gap is found. The module defines no
    [_reset]: its own reset is [__reset], which Python keeps under the name
    [_PoloniexFutures__reset]. The call does what the attribute found in the
    base classes does, and these are not in the module; when none of them
    has it, the call raises [AttributeError] and changes nothing. *)
Variable _reset : M Feed unit.

(** The dict comprehension [{Decimal(price): Decimal(amount) for price,
    amount in levels}]. *)
Fixpoint levels_of (levels : list JSON) (acc : Levels) : Res Levels :=
  match levels with
  | [] => Ok acc
  | JList [p; a] :: r =>
      res_bind (Decimal p) (fun price =>
      res_bind (Decimal a) (fun amount =>
      levels_of r (<[price := amount]> acc)))
  | JList _ :: _ => Raise ValueError
  | _ :: _ => Raise TypeError
  end.

Definition _snapshot (symbol : string) : M Feed unit :=
  depth <- gets max_depth ;;
  res <- http_read symbol depth ;;
  data <- lift (getitem res "data") ;;
  symbol <- lift (to_std symbol) ;;
  modify (fun st =>
    set_l2_book
      (<[symbol := mkOrderBook (mkSided ∅ ∅) None None None]> (_l2_book st))
      st) ;;
  v <- lift (getitem data "sequence") ;;
  n <- lift (as_int v) ;;
  modify (fun st => set_seq_no (<[symbol := n]> (seq_no st)) st) ;;
  v <- lift (getitem data "bids") ;;
  l <- lift (as_list v) ;;
  bids <- lift (levels_of l ∅) ;;
  l2_book_update symbol (with_side BID bids) ;;
  v <- lift (getitem data "asks") ;;
  l <- lift (as_list v) ;;
  asks <- lift (levels_of l ∅) ;;
  l2_book_update symbol (with_side ASK asks) ;;
  v <- lift (getitem data "sequence") ;;
  n <- lift (as_int v) ;;
  book_callback symbol None None n.

(** [_check_update_id]: the value returned is skip_update. *)
Definition _check_update_id (symbol : string) (msg : JSON) : M Feed bool :=
  ob <- l2_book_getitem symbol ;;
  stale <- (match sequence_number ob with
            | None => pure true
            | Some _ =>
                v <- lift (getitem msg "sequence") ;;
                seq <- lift (as_int v) ;;
                last <- seq_no_getitem symbol ;;
                pure (seq <=? last)
            end) ;;
  if stale then pure true
  else
    v <- lift (getitem msg "sequence") ;;
    seq <- lift (as_int v) ;;
    last <- seq_no_getitem symbol ;;
    if seq =? last + 1 then
      v <- lift (getitem msg "sequence") ;;
      seq <- lift (as_int v) ;;
      modify (fun st => set_seq_no (<[symbol := seq]> (seq_no st)) st) ;;
      pure false
    else
      _reset ;;
      log WARNING (JStr "Missing book update detected, resetting book") ;;
      pure true.

(** The level change of [_book], after [change] was split and converted. *)
Definition apply_change (symbol : string) (side : BookSide)
    (price amount : Qc) : M Feed Delta :=
  let delta := mkSided [] [] in
  if bool_decide (amount = 0%Qc) then
    ob <- l2_book_getitem symbol ;;
    if bool_decide (is_Some (side_get side (book ob) !! price)) then
      ob <- l2_book_getitem symbol ;;
      l2_book_update symbol
        (with_side side (delete price (side_get side (book ob)))) ;;
      pure (side_set side (side_get side delta ++ [(price, amount)]) delta)
    else pure delta
  else
    ob <- l2_book_getitem symbol ;;
    l2_book_update symbol
      (with_side side (<[price := amount]> (side_get side (book ob)))) ;;
    pure (side_set side (side_get side delta ++ [(price, amount)]) delta).

Definition _book (msg : JSON) : M Feed unit :=
  topic <- lift (getitem msg "topic") ;;
  topic <- lift (as_str topic) ;;
  let exchange_symbol := List.last (split ":" topic) "" in
  symbol <- lift (to_std exchange_symbol) ;;
  known <- gets (fun st => bool_decide (is_Some (_l2_book st !! symbol))) ;;
  (if known then pure tt else _snapshot exchange_symbol) ;;
  data <- lift (getitem msg "data") ;;
  skip_update <- _check_update_id symbol data ;;
  if skip_update then pure tt
  else
    ts <- lift (getitem data "timestamp") ;;
    ts <- lift (self_timestamp_normalize ts) ;;
    change <- lift (getitem data "change") ;;
    change <- lift (as_str change) ;;
    match split "," change with
    | [price; side; amount] =>
        price <- lift (Decimal (JStr price)) ;;
        amount <- lift (Decimal (JStr amount)) ;;
        let side := if String.eqb side "buy" then BID else ASK in
        delta <- apply_change symbol side price amount ;;
        v <- lift (getitem data "sequence") ;;
        n <- lift (as_int v) ;;
        book_callback symbol (Some ts) (Some delta) n
    | _ => raise ValueError
    end.

Definition _trade (msg : JSON) : M Feed unit :=
  d <- lift (getitem msg "data") ;;
  p <- lift (getitem d "price") ;;
  price <- lift (Decimal p) ;;
  d <- lift (getitem msg "data") ;;
  s <- lift (getitem d "size") ;;
  amount <- lift (Decimal s) ;;
  d <- lift (getitem msg "data") ;;
  ts <- lift (getitem d "ts") ;;
  ts <- lift (self_timestamp_normalize ts) ;;
  trade_timestamp <- lift (truediv ts 1000000) ;;
  d <- lift (getitem msg "data") ;;
  trade_id <- lift (getitem d "tradeId") ;;
  d <- lift (getitem msg "data") ;;
  s <- lift (getitem d "symbol") ;;
  s <- lift (as_str s) ;;
  symbol <- lift (to_std s) ;;
  d <- lift (getitem msg "data") ;;
  sd <- lift (getitem d "side") ;;
  let side := if eq_str sd "sell" then SELL else BUY in
  callback (TradeEvent trade_id symbol side amount price trade_timestamp).

(** [message_handler] on the decoded frame. *)
Definition message_handler (msg : JSON) : M Feed unit :=
  event <- lift (get msg "type") ;;
  if eq_str event "error" then log ERROR msg
  else if eq_str event "welcome" then pure tt
  else if eq_str event "ack" then pure tt
  else if eq_str event "subscribe" then pure tt
  else
    channel <- lift (get msg "subject") ;;
    if eq_str channel "match" then _trade msg
    else if eq_str channel "level2" then _book msg
    else log WARNING msg.

End Code.

End PoloniexFutures.

(** ** Properties of the Binance feed *)

Module BinanceFacts.
Import Py Binance.
Local Open Scope py_scope.

(** The value that [self.forced[pair]] reads. *)
Definition forced_of (st : Feed) (pair : string) : bool :=
  default false (forced st !! pair).

(** No update has been accepted for [pair] since its snapshot: the next one
    is the first update after the snapshot. *)
Definition first_pending (st : Feed) (pair : string) : bool :=
  negb (forced_of st pair).

(** The state seen from outside the [defaultdict]: same attributes, and the
    same value read for every key of [forced]. *)
Definition same_state (a b : Feed) : Prop :=
  max_depth a = max_depth b ∧
  (∀ p, forced_of a p = forced_of b p) ∧
  l2_book a = l2_book b ∧
  last_update_id a = last_update_id b ∧
  open_interest a = open_interest b ∧
  rest a = rest b ∧
  requests a = requests b ∧
  events a = events b ∧
  warnings a = warnings b.

(** [b] is [a] after an update of [pair] ending at [u] was accepted. *)
Definition adopted (pair : string) (u : Z) (a b : Feed) : Prop :=
  last_update_id b = <[pair := u]> (last_update_id a) ∧
  forced_of b pair = true ∧
  (∀ p, p ≠ pair → forced_of b p = forced_of a p) ∧
  max_depth b = max_depth a ∧
  l2_book b = l2_book a ∧
  open_interest b = open_interest a ∧
  rest b = rest a ∧
  requests b = requests a ∧
  events b = events a ∧
  warnings b = warnings a.

(** [b] is [a] after a gap: every symbol has lost its book, its update
    identifier and its flag, and one warning was logged. *)
Definition was_reset (a b : Feed) : Prop :=
  forced b = ∅ ∧
  l2_book b = ∅ ∧
  last_update_id b = ∅ ∧
  open_interest b = ∅ ∧
  max_depth b = max_depth a ∧
  rest b = rest a ∧
  requests b = requests a ∧
  events b = events a ∧
  warnings b =
    warnings a ++ [JStr "Missing book update detected, resetting book"].

Ltac run :=
  unfold bind, lift, pure, gets, modify, forced_getitem, forced_setitem,
    last_update_id_getitem, last_update_id_setitem, warning, callback,
    _reset, as_int, as_list, as_str; simpl.

Section Window.
Context `{Imports}.
Variables (pair : string) (msg : JSON) (U u last : Z) (st : Feed).
Hypothesis HU : getitem msg "U" = Ok (JInt U).
Hypothesis Hu : getitem msg "u" = Ok (JInt u).
Hypothesis Hlast : last_update_id st !! pair = Some last.

Lemma forced_getitem_run :
  ∃ st0, forced_getitem pair st = (Ok (forced_of st pair), st0) ∧
         same_state st0 st ∧ forced st0 !! pair = Some (forced_of st pair).
Proof.
  unfold forced_getitem, forced_of.
  destruct (forced st !! pair) as [b|] eqn:E; simpl.
  - exists st. repeat split; auto.
  - eexists. split; [reflexivity|]. split.
    + repeat split; simpl; auto.
      intros p. unfold forced_of. simpl.
      destruct (decide (pair = p)) as [->|Hne].
      * rewrite lookup_insert_eq, E. reflexivity.
      * rewrite lookup_insert_ne by done. reflexivity.
    + simpl. apply lookup_insert_eq.
Qed.

Ltac pick :=
  repeat match goal with
         | |- _ ∧ _ => split
         end;
  first [reflexivity | lia | assumption].

Ltac flag_cases E :=
  unfold first_pending, forced_of in *;
  destruct (forced st !! pair) as [[|]|] eqn:E; simpl in *; try discriminate.

Ltac step_check :=
  unfold _check_update_id; run;
  repeat (first [ rewrite Hu | rewrite HU | rewrite Hlast
                | match goal with
                  | E : forced st !! pair = _ |- _ => rewrite E
                  | B : (_ <=? _) = _ |- _ => rewrite B
                  | B : (_ =? _) = _ |- _ => rewrite B
                  end ]; simpl).

Ltac other_flags :=
  let p := fresh "p" in let Hp := fresh "Hp" in
  intros p Hp; unfold forced_of; simpl;
  rewrite ?lookup_insert_ne by congruence; try reflexivity.

(** A stale first update: skipped, nothing changes. *)
Lemma check_first_stale :
  first_pending st pair = true → u <= last →
  ∃ st', _check_update_id pair msg st = (Ok (true, true), st') ∧
         same_state st' st.
Proof.
  intros Hf Hle. apply Z.leb_le in Hle.
  flag_cases E; step_check;
    eexists; (split; [reflexivity|]); repeat split; simpl; auto.
  intros p. unfold forced_of; simpl.
  destruct (decide (pair = p)) as [->|Hne].
  - rewrite lookup_insert_eq, E. reflexivity.
  - rewrite lookup_insert_ne by done. reflexivity.
Qed.

(** A first update whose window holds [last + 1]: accepted. *)
Lemma check_first_window :
  first_pending st pair = true → U <= last + 1 <= u →
  ∃ st', _check_update_id pair msg st = (Ok (false, true), st') ∧
         adopted pair u st st'.
Proof.
  intros Hf [H1 H2].
  assert (B0 : (u <=? last) = false) by (apply Z.leb_gt; lia).
  apply Z.leb_le in H1, H2.
  flag_cases E; step_check;
    eexists; (split; [reflexivity|]);
    unfold adopted, forced_of; simpl;
    rewrite ?lookup_insert_eq; repeat split; auto; other_flags.
Qed.

(** A first update that starts after [last + 1]: a gap. *)
Lemma check_first_gap :
  first_pending st pair = true → last < u → last + 1 < U →
  ∃ st', _check_update_id pair msg st = (Ok (true, true), st') ∧
         was_reset st st'.
Proof.
  intros Hf H1 H2. apply Z.leb_gt in H1, H2.
  flag_cases E; step_check;
    eexists; (split; [reflexivity|]); repeat split.
Qed.

(** A later update that starts at [last + 1]: accepted. *)
Lemma check_next_ok :
  first_pending st pair = false → last + 1 = U →
  ∃ st', _check_update_id pair msg st = (Ok (false, false), st') ∧
         adopted pair u st st'.
Proof.
  intros Hf H1. apply Z.eqb_eq in H1. flag_cases E; step_check.
  eexists; (split; [reflexivity|]).
  unfold adopted, forced_of; simpl. rewrite E.
  repeat split; auto.
Qed.

(** A later update that does not start at [last + 1]: a gap. *)
Lemma check_next_gap :
  first_pending st pair = false → last + 1 ≠ U →
  ∃ st', _check_update_id pair msg st = (Ok (true, false), st') ∧
         was_reset st st'.
Proof.
  intros Hf H1. apply Z.eqb_neq in H1. flag_cases E; step_check.
  eexists; (split; [reflexivity|]); repeat split.
Qed.

(** The five outcomes of the check. *)
Lemma check_outcome :
  ∃ st',
    (first_pending st pair = true ∧ u ≤ last ∧
     _check_update_id pair msg st = (Ok (true, true), st') ∧
     same_state st' st) ∨
    (first_pending st pair = true ∧ U ≤ last + 1 ≤ u ∧
     _check_update_id pair msg st = (Ok (false, true), st') ∧
     adopted pair u st st') ∨
    (first_pending st pair = true ∧ last < u ∧ last + 1 < U ∧
     _check_update_id pair msg st = (Ok (true, true), st') ∧
     was_reset st st') ∨
    (first_pending st pair = false ∧ last + 1 = U ∧
     _check_update_id pair msg st = (Ok (false, false), st') ∧
     adopted pair u st st') ∨
    (first_pending st pair = false ∧ last + 1 ≠ U ∧
     _check_update_id pair msg st = (Ok (true, false), st') ∧
     was_reset st st').
Proof.
  pose proof check_first_stale as H1. pose proof check_first_window as H2.
  pose proof check_first_gap as H3. pose proof check_next_ok as H4.
  pose proof check_next_gap as H5.
  destruct (first_pending st pair) eqn:Hf.
  - destruct (decide (u ≤ last)) as [Hstale|Hfresh].
    { destruct (H1 eq_refl Hstale) as (st' & Hrun & Hs).
      exists st'. left. pick. }
    destruct (decide (U ≤ last + 1)) as [Hin|Hout].
    { destruct (H2 eq_refl ltac:(lia)) as (st' & Hrun & Hs).
      exists st'. right. left. pick. }
    destruct (H3 eq_refl ltac:(lia) ltac:(lia)) as (st' & Hrun & Hs).
    exists st'. right. right. left. pick.
  - destruct (decide (last + 1 = U)) as [Hnext|Hgap].
    { destruct (H4 eq_refl Hnext) as (st' & Hrun & Hs).
      exists st'. right. right. right. left. pick. }
    destruct (H5 eq_refl Hgap) as (st' & Hrun & Hs).
    exists st'. right. right. right. right. pick.
Qed.

End Window.

(** The check of a symbol that has no update identifier raises, and the
    symbol stays without one. *)
Lemma check_unsynced pair msg st :
  last_update_id st !! pair = None →
  last_update_id (snd (_check_update_id pair msg st)) !! pair = None.
Proof.
  intros Hn.
  unfold _check_update_id, bind, lift, pure, forced_getitem,
    last_update_id_getitem, as_int.
  destruct (forced st !! pair) as [[|]|]; simpl; rewrite ?Hn; simpl;
    try done;
    (destruct (getitem msg "u") as [v|e]; simpl; [|done]);
    destruct v; simpl; rewrite ?Hn; simpl; done.
Qed.

(** The updates [msgs] of a symbol go through the check one after the
    other. *)
Definition checked (pair : string) (msgs : list JSON) (st : Feed) : Feed :=
  fold_left (fun s m => snd (_check_update_id pair m s)) msgs st.

(** An update with a well-formed window: [U <= u]. *)
Definition well_formed (msg : JSON) : Prop :=
  ∃ U u, getitem msg "U" = Ok (JInt U) ∧ getitem msg "u" = Ok (JInt u) ∧
         U ≤ u.

Lemma checked_unsynced pair msgs : ∀ st,
  last_update_id st !! pair = None →
  last_update_id (checked pair msgs st) !! pair = None.
Proof.
  induction msgs as [|m msgs IH]; intros st Hn; simpl; [exact Hn|].
  apply IH, check_unsynced, Hn.
Qed.

(** *** Snapshot bootstrap *)

Section Snapshot.
Context `{Imports}.

(** The levels of a snapshot side, written in order on an empty side. *)
Definition loaded (levels : list (Qc * Qc)) (start : Levels) : Levels :=
  fold_left (fun m l => <[fst l := snd l]> m) levels start.

(** [updates] is a list of levels that converts to [levels]. *)
Definition levels_are (updates : list JSON) (levels : list (Qc * Qc)) : Prop :=
  Forall2 (fun j l => level_of j = Ok l) updates levels.

Lemma set_l2_book_same st : set_l2_book (l2_book st) st = st.
Proof. destruct st; reflexivity. Qed.

Lemma side_set_get {A} side (b : Sided A) : side_set side (side_get side b) b = b.
Proof. destruct side, b; reflexivity. Qed.

Lemma side_get_set {A} side (x : A) b : side_get side (side_set side x b) = x.
Proof. destruct side; reflexivity. Qed.

Lemma side_set_set {A} side (x y : A) b :
  side_set side y (side_set side x b) = side_set side y b.
Proof. destruct side; reflexivity. Qed.

Lemma for_each_load p side updates levels :
  levels_are updates levels →
  ∀ st b, l2_book st !! p = Some b →
    for_each updates (load_level p side) st =
      (Ok tt,
       set_l2_book
         (<[p := side_set side (loaded levels (side_get side b)) b]>
            (l2_book st)) st).
Proof.
  induction 1 as [|j l js ls Hj _ IH]; intros st b Hb; simpl.
  - rewrite side_set_get, insert_id by done. now rewrite set_l2_book_same.
  - unfold bind at 1, load_level, bind, lift. rewrite Hj.
    unfold level_setitem. rewrite Hb.
    erewrite IH by (simpl; apply lookup_insert_eq).
    simpl. rewrite insert_insert_eq, side_get_set, side_set_set.
    reflexivity.
Qed.

(** The feed after a snapshot of [pair] answered with update identifier [n]
    and the given levels. *)
Definition bootstrapped (pair p : string) (n : Z) (bids asks : list (Qc * Qc))
    (st : Feed) : Feed :=
  mkFeed (max_depth st) (forced st)
    (<[p := mkSided (loaded bids ∅) (loaded asks ∅)]> (l2_book st))
    (<[p := n]> (last_update_id st)) (open_interest st)
    (tail (rest st))
    (requests st ++ [(pair, snapshot_depth (max_depth st))])
    (events st) (warnings st).

Lemma snapshot_run pair p resp tl n jb ja bids asks st :
  to_std pair = Ok p →
  rest st = resp :: tl →
  getitem resp "lastUpdateId" = Ok (JInt n) →
  getitem resp "bids" = Ok (JList jb) → levels_are jb bids →
  getitem resp "asks" = Ok (JList ja) → levels_are ja asks →
  _snapshot pair st = (Ok tt, bootstrapped pair p n bids asks st).
Proof.
  intros Hp Hr Hn Hb Hjb Ha Hja.
  unfold _snapshot. run. unfold conn_get. rewrite Hr, Hp, Hn. simpl.
  rewrite Hb. simpl. unfold bind, pure.
  erewrite for_each_load by (first [eassumption | simpl; apply lookup_insert_eq]).
  rewrite Ha.
  erewrite for_each_load by (first [eassumption | simpl; apply lookup_insert_eq]).
  simpl. rewrite !insert_insert_eq.
  unfold bootstrapped, set_l2_book, set_last_update_id. simpl.
  rewrite Hr. reflexivity.
Qed.

End Snapshot.

(** *** Level changes of an update *)

Section Levels.
Context `{Imports}.

(** What one level [l] does to a side [acc.1] and to the changes [acc.2]
    reported for it. *)
Definition change_level (acc : Levels * list (Qc * Qc)) (l : Qc * Qc)
  : Levels * list (Qc * Qc) :=
  if bool_decide (snd l = 0%Qc) then
    if bool_decide (is_Some (fst acc !! fst l)) then
      (delete (fst l) (fst acc), snd acc ++ [l])
    else acc
  else (<[fst l := snd l]> (fst acc), snd acc ++ [l]).

Lemma apply_level_run pair side (delta : Delta) update l st b :
  level_of update = Ok l →
  l2_book st !! pair = Some b →
  apply_level pair side delta update st =
    let r := change_level (side_get side b, side_get side delta) l in
    (Ok (side_set side (snd r) delta),
     set_l2_book (<[pair := side_set side (fst r) b]> (l2_book st)) st).
Proof.
  intros Hl Hb. unfold apply_level, change_level, bind, lift. rewrite Hl.
  simpl. destruct l as [price amount]; simpl.
  unfold levels_getitem, level_delitem, level_setitem, pure.
  case_bool_decide; simpl; rewrite ?Hb; simpl; [|reflexivity].
  case_bool_decide as Hin; simpl.
  - rewrite Hb. destruct Hin as [x Hx]. rewrite Hx. reflexivity.
  - rewrite !side_set_get, insert_id by done.
    now rewrite set_l2_book_same.
Qed.

Lemma fold_each_apply pair side updates levels :
  levels_are updates levels →
  ∀ (delta : Delta) st b, l2_book st !! pair = Some b →
    fold_each (apply_level pair side) updates delta st =
      let r := fold_left change_level levels
                 (side_get side b, side_get side delta) in
      (Ok (side_set side (snd r) delta),
       set_l2_book (<[pair := side_set side (fst r) b]> (l2_book st)) st).
Proof.
  induction 1 as [|j l js ls Hj _ IH]; intros delta st b Hb; simpl.
  - rewrite !side_set_get, insert_id by done. now rewrite set_l2_book_same.
  - unfold bind at 1. erewrite apply_level_run by eassumption. simpl.
    erewrite IH by (simpl; apply lookup_insert_eq). simpl.
    rewrite insert_insert_eq, !side_get_set, !side_set_set.
    destruct (change_level (side_get side b, side_get side delta) l).
    reflexivity.
Qed.




End Levels.

(** *** Runs of [_book] *)

Section Book.
Context `{Imports}.

(** The step of [_book] that fetches a snapshot when the symbol has no
    book. *)
Definition ensure_book (pair p : string) : M Feed unit :=
  fun st =>
    (if bool_decide (is_Some (l2_book st !! p)) then pure tt
     else _snapshot pair) st.


Lemma book_skip msg pair p st st0 st1 f :
  to_std pair = Ok p →
  ensure_book pair p st = (Ok tt, st0) →
  _check_update_id p msg st0 = (Ok (true, f), st1) →
  _book msg pair st = (Ok tt, st1).
Proof.
  unfold ensure_book. intros Hp Hs Hc. unfold _book, bind, lift, gets.
  rewrite Hp. simpl. unfold bind.
  destruct (bool_decide (is_Some (l2_book st !! p))).
  - unfold pure in Hs. injection Hs as <-. simpl. now rewrite Hc.
  - simpl. now rewrite Hs, Hc.
Qed.



(** **** What a run leaves as it is *)

(** [keeps R m]: the feed after [m], returned or raised, is related by [R]
    to the feed before. *)
Definition keeps (R : relation Feed) {A} (m : M Feed A) : Prop :=
  ∀ st, R st (snd (m st)).

Section Keeps.
Variable R : relation Feed.
Context `{!Reflexive R} `{!Transitive R}.

Lemma keeps_pure {A} (a : A) : keeps R (pure a).
Proof. intros st. simpl. reflexivity. Qed.

Lemma keeps_lift {A} (r : Res A) : keeps R (lift r).
Proof. intros st. simpl. reflexivity. Qed.

Lemma keeps_bind {A B} (m : M Feed A) (k : A → M Feed B) :
  keeps R m → (∀ a, keeps R (k a)) → keeps R (bind m k).
Proof.
  intros Hm Hk st. unfold bind. specialize (Hm st).
  destruct (m st) as [[a|e] s1]; simpl in *; [|done].
  etransitivity; [exact Hm|apply Hk].
Qed.

Lemma keeps_for_each {A} (l : list A) body :
  (∀ a, keeps R (body a)) → keeps R (for_each l body).
Proof.
  intros Hb. induction l; simpl; [apply keeps_pure|].
  apply keeps_bind; auto.
Qed.

Lemma keeps_fold_each {A B} (l : list A) (body : B → A → M Feed B) :
  (∀ b a, keeps R (body b a)) → ∀ acc, keeps R (fold_each body l acc).
Proof.
  intros Hb. induction l; simpl; intros acc; [apply keeps_pure|].
  apply keeps_bind; auto.
Qed.

End Keeps.

Ltac grows_prim :=
  split; [reflexivity|];
  let q := fresh "q" in let Hq := fresh "Hq" in
  intros q Hq; simpl;
  try match goal with
      | |- is_Some (<[?p := _]> _ !! q) =>
          destruct (decide (p = q)) as [->|?];
          [rewrite lookup_insert_eq; eauto
          |rewrite lookup_insert_ne by done; exact Hq]
      end;
  try exact Hq.

(** The composite code is taken apart, down to the reads and writes of the
    feed. *)
Ltac keeps_tac :=
  repeat first
    [ match goal with
      | Hk : ∀ _, _ |- keeps _ _ => solve [apply Hk]
      end
    | (apply keeps_for_each; try typeclasses eauto; intros)
    | (apply keeps_fold_each; try typeclasses eauto; intros)
    | (apply keeps_pure; typeclasses eauto)
    | (apply keeps_lift; typeclasses eauto)
    | (apply keeps_bind; try typeclasses eauto; [|intros])
    | progress (cbv zeta)
    | match goal with
      | |- keeps _ (if ?c then _ else _) => destruct c
      | |- keeps _ (match ?c with _ => _ end) => destruct c
      end
    | solve [ let st := fresh "st" in
              intros st;
              unfold level_setitem, level_delitem, levels_getitem,
                l2_book_getitem, forced_getitem, forced_setitem,
                last_update_id_getitem, last_update_id_setitem, callback,
                warning, _reset, modify, gets, conn_get;
              repeat case_match; simpl;
              first [reflexivity | grows_prim] ] ].

(** **** Requests made *)

(** The same requests were made. *)
Definition same_requests (a b : Feed) : Prop := requests b = requests a.

#[local] Instance same_requests_refl : Reflexive same_requests.
Proof. intros a. reflexivity. Qed.

#[local] Instance same_requests_trans : Transitive same_requests.
Proof. intros a b c Hab Hbc. unfold same_requests in *. congruence. Qed.

Lemma quiet_check p msg : keeps same_requests (_check_update_id p msg).
Proof. unfold _check_update_id. keeps_tac. Qed.

Lemma quiet_apply_side p msg delta s :
  keeps same_requests (apply_side p msg delta s).
Proof. unfold apply_side, apply_level. keeps_tac. Qed.

(** The part of [_snapshot] that follows the request. *)
Definition load_snapshot (pair : string) (resp : JSON) : M Feed unit :=
  std_pair <- lift (to_std pair) ;;
  v <- lift (getitem resp "lastUpdateId") ;;
  n <- lift (as_int v) ;;
  last_update_id_setitem std_pair n ;;
  modify (fun st =>
    set_l2_book (<[std_pair := mkSided ∅ ∅]> (l2_book st)) st) ;;
  for_each [("bids"%string, BID); ("asks"%string, ASK)] (fun '(s, side) =>
    v <- lift (getitem resp s) ;;
    updates <- lift (as_list v) ;;
    for_each updates (load_level std_pair side)).

(** The part of [_book] that follows the snapshot. *)
Definition check_and_apply (msg : JSON) (pair : string) : M Feed unit :=
  r <- _check_update_id pair msg ;;
  if fst r then pure tt
  else
    ts <- lift (getitem msg "E") ;;
    delta <- fold_each (apply_side pair msg)
               [("b"%string, BID); ("a"%string, ASK)] (mkSided [] []) ;;
    book <- l2_book_getitem pair ;;
    ts <- lift (timestamp_normalize ts) ;;
    callback (BookEvent book pair (snd r) delta ts).

Lemma book_unfold msg pair st :
  _book msg pair st =
    match to_std pair with
    | Ok p =>
        if bool_decide (is_Some (l2_book st !! p))
        then check_and_apply msg p st
        else (_snapshot pair ;; check_and_apply msg p)%py st
    | Raise e => (Raise e, st)
    end.
Proof.
  unfold _book. unfold bind at 1, lift. destruct (to_std pair) as [p|e];
    [|reflexivity].
  unfold bind at 1, gets. cbn [fst snd].
  destruct (bool_decide (is_Some (l2_book st !! p))); reflexivity.
Qed.

Lemma quiet_check_and_apply msg p : keeps same_requests (check_and_apply msg p).
Proof.
  unfold check_and_apply.
  pose proof quiet_check. pose proof quiet_apply_side.
  keeps_tac.
Qed.

(** [_snapshot] makes one request, whatever the reply and whatever happens
    afterwards. *)
Lemma snapshot_requests pair st :
  requests (snd (_snapshot pair st)) =
    requests st ++ [(pair, snapshot_depth (max_depth st))].
Proof.
  change (_snapshot pair)
    with (max_depth <- gets (fun st => snapshot_depth (max_depth st)) ;;
          resp <- conn_get pair max_depth ;;
          load_snapshot pair resp)%py.
  unfold bind at 1, gets. cbn [fst snd]. unfold bind at 1.
  assert (Hq : ∀ resp, keeps same_requests (load_snapshot pair resp)).
  { intros resp. unfold load_snapshot, load_level. keeps_tac. }
  unfold conn_get. destruct (rest st) as [|r tl]; simpl; [done|].
  now rewrite Hq.
Qed.

(** A delta for a symbol without a book makes one snapshot request,
    whatever the delta and the reply are. *)
Lemma book_requests_unknown msg pair p st :
  to_std pair = Ok p → l2_book st !! p = None →
  requests (snd (_book msg pair st)) =
    requests st ++ [(pair, snapshot_depth (max_depth st))].
Proof.
  intros Hp Hn. rewrite book_unfold, Hp, Hn.
  rewrite bool_decide_eq_false_2 by (intros [? ?]; discriminate).
  unfold bind.
  pose proof (snapshot_requests pair st) as Hs.
  destruct (_snapshot pair st) as [[[]|e] s1]; simpl in *; [|done].
  rewrite <- Hs. apply quiet_check_and_apply.
Qed.

(** A delta for a symbol that has a book makes no request. *)
Lemma book_requests_known msg pair p st :
  to_std pair = Ok p → is_Some (l2_book st !! p) →
  requests (snd (_book msg pair st)) = requests st.
Proof.
  intros Hp Hn. rewrite book_unfold, Hp.
  rewrite bool_decide_eq_true_2 by done.
  apply quiet_check_and_apply.
Qed.

(** **** Flags and books *)

(** A symbol whose first update was accepted has a book. *)
Definition flags_have_books (st : Feed) : Prop :=
  ∀ p, forced_of st p = true → is_Some (l2_book st !! p).

(** The flags are the same and no book was lost. *)
Definition grows (a b : Feed) : Prop :=
  forced b = forced a ∧
  ∀ q, is_Some (l2_book a !! q) → is_Some (l2_book b !! q).

#[local] Instance grows_refl : Reflexive grows.
Proof. intros a. split; auto. Qed.

#[local] Instance grows_trans : Transitive grows.
Proof.
  intros a b c [H1 H2] [H3 H4]. split; [congruence|]. intros q Hq. auto.
Qed.

Lemma grows_flags a b : grows a b → flags_have_books a → flags_have_books b.
Proof.
  intros [Hf Hb] Ha p Hp. apply Hb, Ha. unfold forced_of in *.
  now rewrite <- Hf.
Qed.

Lemma grows_snapshot pair : keeps grows (_snapshot pair).
Proof. unfold _snapshot, load_level. keeps_tac. Qed.

Lemma grows_apply_side p msg delta s : keeps grows (apply_side p msg delta s).
Proof. unfold apply_side, apply_level. keeps_tac. Qed.

(** A snapshot that returns has created the book. *)
Lemma snapshot_creates pair p st st' :
  to_std pair = Ok p → _snapshot pair st = (Ok tt, st') →
  is_Some (l2_book st' !! p).
Proof.
  intros Hp.
  change (_snapshot pair)
    with (max_depth <- gets (fun st => snapshot_depth (max_depth st)) ;;
          resp <- conn_get pair max_depth ;;
          load_snapshot pair resp)%py.
  unfold bind at 1, gets. cbn [fst snd]. unfold bind at 1.
  destruct (conn_get pair _ st) as [[resp|e] s0]; [|discriminate].
  unfold load_snapshot. unfold bind at 1, lift. rewrite Hp.
  unfold bind at 1. destruct (getitem resp "lastUpdateId") as [v|e];
    [|discriminate].
  unfold bind at 1. destruct (as_int v) as [n|e]; [|discriminate].
  unfold bind at 1, last_update_id_setitem, modify. cbn [fst snd].
  unfold bind at 1. cbn [fst snd].
  match goal with
  | |- ?m ?s = _ → _ =>
      assert (Hg : keeps grows m)
        by (unfold load_level; keeps_tac);
      specialize (Hg s); intros Hrun; rewrite Hrun in Hg
  end.
  apply Hg. simpl. rewrite lookup_insert_eq. eauto.
Qed.

(** The check keeps the invariant for a symbol that has a book. *)
Lemma check_flags p msg st :
  flags_have_books st → is_Some (l2_book st !! p) →
  flags_have_books (snd (_check_update_id p msg st)).
Proof.
  intros Hinv Hp.
  assert (Hreset : ∀ w, flags_have_books
            (mkFeed (max_depth st) ∅ ∅ ∅ ∅ (rest st) (requests st)
               (events st) w)).
  { intros w q Hq. unfold forced_of in Hq. simpl in Hq.
    rewrite lookup_empty in Hq. discriminate. }
  assert (Hset : ∀ b l, flags_have_books
            (set_forced (<[p := b]> (forced st)) (set_last_update_id l st))).
  { intros b l q Hq. simpl. unfold forced_of in Hq. simpl in Hq.
    destruct (decide (p = q)) as [->|Hne]; [exact Hp|].
    rewrite lookup_insert_ne in Hq by done. now apply Hinv. }
  assert (Hlast : ∀ l, flags_have_books (set_last_update_id l st)).
  { intros l q Hq. now apply Hinv. }
  assert (Htouch : flags_have_books
            (set_forced (<[p := false]> (forced st)) st)).
  { intros q Hq. simpl. unfold forced_of in Hq. simpl in Hq.
    destruct (decide (p = q)) as [->|Hne]; [exact Hp|].
    rewrite lookup_insert_ne in Hq by done. now apply Hinv. }
  unfold _check_update_id, bind, lift, pure, forced_getitem, forced_setitem,
    last_update_id_getitem, last_update_id_setitem, warning, _reset, modify.
  destruct (forced st !! p) as [[|]|] eqn:Hflag; cbn [negb fst snd];
  repeat match goal with
         | |- context [match ?x with _ => _ end] =>
             lazymatch x with
             | context [match _ with _ => _ end] => fail
             | _ => destruct x
             end
         end; cbn [fst snd];
    first [ exact Hinv | apply Hreset | apply Hset | apply Hlast
          | exact Htouch
          | (intros q Hq; unfold forced_of in Hq; simpl in *;
             destruct (decide (p = q)) as [->|Hne]; [exact Hp|];
             rewrite ?lookup_insert_ne in Hq by done;
             rewrite ?lookup_empty in Hq; try discriminate;
             now apply Hinv) ].
Qed.

(** [_book] keeps the invariant, whatever the delta and the reply are. *)
Lemma book_flags msg pair st :
  flags_have_books st → flags_have_books (snd (_book msg pair st)).
Proof.
  intros Hinv. rewrite book_unfold.
  destruct (to_std pair) as [p|e] eqn:Hp; [|exact Hinv].
  assert (Htail : ∀ s, flags_have_books s → is_Some (l2_book s !! p) →
            flags_have_books (snd (check_and_apply msg p s))).
  { intros s Hs Hb. unfold check_and_apply. unfold bind at 1.
    pose proof (check_flags p msg s Hs Hb) as Hc.
    destruct (_check_update_id p msg s) as [[[skip f]|e] s1]; simpl in *;
      [|exact Hc].
    destruct skip; [exact Hc|].
    match goal with
    | |- flags_have_books (snd (?m s1)) =>
        assert (Hg : keeps grows m)
          by (pose proof grows_apply_side; keeps_tac)
    end.
    eapply grows_flags; [apply Hg|exact Hc]. }
  case_bool_decide as Hk.
  - apply Htail; assumption.
  - unfold bind.
    pose proof (grows_snapshot pair st) as Hg.
    pose proof (snapshot_creates pair p st) as Hc.
    destruct (_snapshot pair st) as [[[]|e] s0]; simpl in *.
    + apply Htail; [eapply grows_flags; eassumption|eauto].
    + eapply grows_flags; eassumption.
Qed.

(** Code that keeps the invariant. *)
Definition safe {A} (m : M Feed A) : Prop :=
  ∀ st, flags_have_books st → flags_have_books (snd (m st)).

Lemma safe_bind {A B} (m : M Feed A) (k : A → M Feed B) :
  safe m → (∀ a, safe (k a)) → safe (bind m k).
Proof.
  intros Hm Hk st Hinv. unfold bind. specialize (Hm st Hinv).
  destruct (m st) as [[a|e] s1]; simpl in *; [|exact Hm].
  now apply Hk.
Qed.

Lemma safe_keeps {A} (m : M Feed A) : keeps grows m → safe m.
Proof. intros Hm st Hinv. eapply grows_flags; [apply Hm|exact Hinv]. Qed.

Lemma safe_book msg pair : safe (_book msg pair).
Proof. intros st. apply book_flags. Qed.

(** [message_handler] keeps the invariant, which holds after [_reset]: it
    holds in every state of a feed. *)
Lemma handler_flags msg st :
  flags_have_books st → flags_have_books (snd (message_handler msg st)).
Proof.
  revert st. change (safe (message_handler msg)). unfold message_handler.
  repeat first
    [ apply safe_book
    | solve [ apply safe_keeps;
              unfold _trade, _liquidations, _funding, _ticker; keeps_tac ]
    | (apply safe_bind; [|intros])
    | match goal with
      | |- safe (if ?c then _ else _) => destruct c
      end ].
Qed.

Lemma reset_flags st : flags_have_books (snd (_reset st)).
Proof.
  intros q Hq. unfold forced_of in Hq. simpl in Hq.
  rewrite lookup_empty in Hq. discriminate.
Qed.


End Book.

(** *** Address sharding *)

(** The sharding as the specification words it: entries are appended to the
    current shard; a shard that reaches [cap] entries is sealed and a new
    one is opened. [shard_loop] returns the sealed shards and the open one. *)
Fixpoint shard_loop {A} (cap : nat) (cur l : list A)
  : list (list A) * list A :=
  match l with
  | [] => ([], cur)
  | x :: r =>
      let cur' := cur ++ [x] in
      if (length cur' =? cap)%nat then
        let dc := shard_loop cap [] r in (cur' :: fst dc, snd dc)
      else shard_loop cap cur' r
  end.

Definition shard {A} (cap : nat) (l : list A) : list (list A) :=
  let dc := shard_loop cap [] l in
  match snd dc with
  | [] => fst dc
  | c => fst dc ++ [c]
  end.

Section Shard.
Context {A : Type}.
Implicit Types (l cur : list A) (cap : nat).

Lemma shard_loop_spec cap l : ∀ cur,
  (length cur < cap)%nat →
  let dc := shard_loop cap cur l in
  cur ++ l = concat (fst dc) ++ snd dc ∧
  Forall (fun c => length c = cap) (fst dc) ∧
  (length (snd dc) < cap)%nat ∧
  (length cur + length l = cap * length (fst dc) + length (snd dc))%nat.
Proof.
  induction l as [|x r IH]; intros cur Hc; simpl.
  - rewrite app_nil_r. repeat split; auto. lia.
  - destruct (Nat.eqb_spec (length (cur ++ [x])) cap) as [He|Hne]; simpl.
    + destruct (IH [] ltac:(simpl; lia)) as (H1 & H2 & H3 & H4).
      simpl in *. repeat split; auto.
      * rewrite <- app_assoc, <- H1. now rewrite <- app_assoc.
      * rewrite length_app in He. simpl in He. lia.
    + rewrite length_app in Hne. simpl in Hne.
      destruct (IH (cur ++ [x])) as (H1 & H2 & H3 & H4).
      { rewrite length_app. simpl. lia. }
      repeat split; auto.
      * rewrite <- H1, <- app_assoc. reflexivity.
      * rewrite length_app in H4. simpl in H4. lia.
Qed.

(** Every entry is in the shards, once and in order. *)
Lemma shard_concat cap l : (0 < cap)%nat → concat (shard cap l) = l.
Proof.
  intros Hc. unfold shard.
  destruct (shard_loop_spec cap l [] ltac:(simpl; lia)) as (H1 & _).
  simpl in H1. destruct (snd (shard_loop cap [] l)) eqn:E.
  - now rewrite app_nil_r in H1.
  - rewrite concat_app. simpl. now rewrite app_nil_r.
Qed.

Lemma shard_sizes cap l :
  (0 < cap)%nat →
  Forall (fun c => (0 < length c ≤ cap)%nat) (shard cap l).
Proof.
  intros Hc. unfold shard.
  destruct (shard_loop_spec cap l [] ltac:(simpl; lia)) as (_ & H2 & H3 & _).
  assert (Hd : Forall (fun c => (0 < length c ≤ cap)%nat)
                 (fst (shard_loop cap [] l))).
  { eapply Forall_impl; [exact H2|]. intros c Hl. simpl in Hl. lia. }
  destruct (snd (shard_loop cap [] l)) eqn:E; [exact Hd|].
  apply Forall_app. split; [exact Hd|].
  constructor; [|constructor]. simpl in *. lia.
Qed.

(** The number of shards is the number of entries over the capacity,
    rounded up. *)
Lemma shard_count cap l :
  (0 < cap)%nat →
  length (shard cap l) = ((length l + (cap - 1)) / cap)%nat.
Proof.
  intros Hc. unfold shard.
  destruct (shard_loop_spec cap l [] ltac:(simpl; lia)) as (_ & _ & H3 & H4).
  simpl in H4. rewrite H4.
  destruct (snd (shard_loop cap [] l)) as [|a c] eqn:E; simpl in *.
  - apply Nat.div_unique with (r := (cap - 1)%nat); lia.
  - rewrite length_app. simpl.
    apply Nat.div_unique with (r := length c); lia.
Qed.

End Shard.

Section Address.
Context `{Imports}.

(** The (channel, symbol) pairs of the subscription, in the order of the
    loops, and those that are not on the open-interest channel. *)
Definition entries_of (cfg : Config) (chans : list string)
  : list (string * string) :=
  flat_map (fun chan => map (fun p => (chan, p)) (loop_symbols cfg chan)) chans.

Definition entries (cfg : Config) : list (string * string) :=
  entries_of cfg (loop_channels cfg).

Definition on_stream (e : string * string) : bool :=
  negb (String.eqb (fst e) OPEN_INTEREST).

Definition streamed (cfg : Config) : list (string * string) :=
  List.filter on_stream (entries cfg).

Definition stream_name (e : string * string) : string :=
  stream_of (fst e) (snd e).

(** The address of a shard: the streams of its entries after the base,
    without the last ["/"]; its key in the dict is its last stream. *)
Definition address_of (c : list (string * string)) : string :=
  fold_left (fun a e => a +:+ stream_name e) c stream_base.

Definition url (c : list (string * string)) : string :=
  drop_last (address_of c).

Definition key (c : list (string * string)) : string :=
  stream_name (List.last c (""%string, ""%string)).

Definition seal (r : list (string * string)) (c : list (string * string))
  : list (string * string) :=
  dict_set (key c) (url c) r.

(** The value of [_address] for the given shards. *)
Definition targets (shards : list (list (string * string))) : Address :=
  match shards with
  | [] => NoAddress
  | [c] => if (length c <? 200)%nat then OneAddress (url c)
           else Addresses [(key c, url c)]
  | _ => Addresses (map (fun c => (key c, url c)) shards)
  end.

Definition num_targets (a : Address) : nat :=
  match a with
  | NoAddress => 0
  | OneAddress _ => 1
  | Addresses d => length d
  end.

Definition step (st : AddressLoop) (e : string * string) : AddressLoop :=
  address_pair (fst e) st (snd e).

Lemma filter_chan chan (syms : list string) :
  List.filter on_stream (map (fun p => (chan, p)) syms) =
    if String.eqb chan OPEN_INTEREST then []
    else map (fun p => (chan, p)) syms.
Proof.
  induction syms as [|x r IH]; simpl.
  - now destruct (String.eqb chan OPEN_INTEREST).
  - unfold on_stream at 1. simpl. rewrite IH.
    now destruct (String.eqb chan OPEN_INTEREST).
Qed.

Lemma loops_flat cfg chans : ∀ st,
  fold_left (address_chan cfg) chans st =
    fold_left step (List.filter on_stream (entries_of cfg chans)) st.
Proof.
  induction chans as [|chan r IH]; intros st; simpl; [reflexivity|].
  rewrite List.filter_app, fold_left_app, filter_chan, IH.
  f_equal. unfold address_chan.
  destruct (String.eqb chan OPEN_INTEREST); simpl; [reflexivity|].
  generalize (loop_symbols cfg chan) st.
  induction l as [|x l IHl]; intros st0; simpl; [reflexivity|].
  now rewrite IHl.
Qed.

Lemma address_of_snoc c e :
  address_of (c ++ [e]) = address_of c +:+ stream_name e.
Proof. unfold address_of. now rewrite fold_left_app. Qed.

Lemma key_snoc c e : key (c ++ [e]) = stream_name e.
Proof. unfold key. now rewrite last_last. Qed.

(** The loop of [_address] and the sharding of the specification advance
    together. *)
Lemma loop_shards l : ∀ r cur s,
  (length cur < 200)%nat →
  (cur ≠ [] → s = key cur) →
  ∃ s',
    fold_left step l (mkLoop r (length cur) (address_of cur) s) =
      mkLoop (fold_left seal (fst (shard_loop 200 cur l)) r)
        (length (snd (shard_loop 200 cur l)))
        (address_of (snd (shard_loop 200 cur l))) s' ∧
    (snd (shard_loop 200 cur l) ≠ [] → s' = key (snd (shard_loop 200 cur l))).
Proof.
  induction l as [|x l IH]; intros r cur s Hc Hs.
  - exists s. split; [reflexivity|exact Hs].
  - cbn [fold_left shard_loop].
    unfold step at 2, address_pair. cbn [counter address ret].
    change (stream_of (fst x) (snd x)) with (stream_name x).
    replace (S (length cur)) with (length (cur ++ [x]))
      by (rewrite length_app; simpl; lia).
    rewrite <- address_of_snoc.
    destruct (Nat.eqb_spec (length (cur ++ [x])) 200) as [He|Hne].
    + destruct (IH (seal r (cur ++ [x])) [] (stream_name x)
                  ltac:(simpl; lia) ltac:(congruence)) as (s' & Hrun & Hk).
      exists s'. split; [|exact Hk].
      cbn [fst snd fold_left].
      assert (Hseal : seal r (cur ++ [x]) =
                dict_set (stream_name x) (drop_last (address_of (cur ++ [x]))) r)
        by (unfold seal, url; now rewrite key_snoc).
      rewrite Hseal in Hrun |- *. exact Hrun.
    + rewrite length_app in Hne. simpl in Hne.
      destruct (IH r (cur ++ [x]) (stream_name x)) as (s' & Hrun & Hk).
      { rewrite length_app. simpl. lia. }
      { intros _. now rewrite key_snoc. }
      exists s'. split; [exact Hrun|exact Hk].
Qed.

Lemma str_length_app (a b : string) :
  String.length (a +:+ b) = (String.length a + String.length b)%nat.
Proof. induction a; simpl; [reflexivity|congruence]. Qed.

Lemma stream_name_length e : (0 < String.length (stream_name e))%nat.
Proof.
  unfold stream_name, stream_of. rewrite !str_length_app. simpl. lia.
Qed.

Lemma address_of_length c :
  (String.length stream_base + length c ≤ String.length (address_of c))%nat.
Proof.
  induction c as [|e c IH] using rev_ind; [simpl; lia|].
  rewrite address_of_snoc, str_length_app, length_app. simpl length.
  pose proof (stream_name_length e). lia.
Qed.

Lemma address_of_base c : c ≠ [] → String.eqb (address_of c) stream_base = false.
Proof.
  intros Hc. apply String.eqb_neq. intros E.
  pose proof (address_of_length c) as Hl. rewrite E in Hl.
  destruct c; [done|]. simpl in Hl. lia.
Qed.

Lemma dict_set_fresh {V} k (v : V) r :
  k ∉ map fst r → dict_set k v r = r ++ [(k, v)].
Proof.
  induction r as [|[k' v'] r IH]; simpl; intros Hk; [reflexivity|].
  destruct (String.eqb_spec k k') as [->|Hne].
  - exfalso. apply Hk. left.
  - rewrite IH; [reflexivity|]. intros Hin. apply Hk. now right.
Qed.

(** With distinct keys the dict holds one address per shard, in order. *)
Lemma seal_all shards : ∀ r,
  NoDup (map fst r ++ map key shards) →
  fold_left seal shards r = r ++ map (fun c => (key c, url c)) shards.
Proof.
  induction shards as [|c shards IH]; intros r Hnd; simpl.
  - now rewrite app_nil_r.
  - simpl in Hnd. unfold seal at 2. rewrite dict_set_fresh.
    + rewrite IH; [now rewrite <- app_assoc|].
      rewrite map_app. simpl. now rewrite <- app_assoc.
    + apply NoDup_app in Hnd as (_ & Hd & _). intros Hin.
      apply (Hd _ Hin). left.
Qed.

(** The keys of non-empty shards are among the streams of their entries, in
    the same order. *)
Lemma keys_sublist shards :
  Forall (fun c => c ≠ []) shards →
  map key shards `sublist_of` map stream_name (concat shards).
Proof.
  induction 1 as [|c shards Hc _ IH]; simpl; [constructor|].
  rewrite map_app.
  change (key c :: map key shards) with ([key c] ++ map key shards).
  apply sublist_app; [|exact IH].
  destruct c as [|e c] using rev_ind; [done|].
  rewrite key_snoc, map_app. simpl.
  apply sublist_inserts_l. reflexivity.
Qed.

(** [_address] returns the addresses of the shards of the entries that are
    not on the open-interest channel, when their streams are distinct. *)
Lemma address_shards cfg :
  NoDup (map stream_name (streamed cfg)) →
  _address cfg = targets (shard 200 (streamed cfg)).
Proof.
  intros Hnd. unfold _address. rewrite loops_flat.
  fold (entries cfg). fold (streamed cfg).
  destruct (loop_shards (streamed cfg) [] [] "" ltac:(simpl; lia) ltac:(done))
    as (s' & Hrun & Hk).
  change (mkLoop [] 0 stream_base "")
    with (mkLoop [] (length (@nil (string * string))) (address_of []) "").
  rewrite Hrun. cbn [ret counter address stream].
  pose proof (shard_concat 200 (streamed cfg) ltac:(lia)) as Hcat.
  pose proof (shard_sizes 200 (streamed cfg) ltac:(lia)) as Hsz.
  destruct (shard_loop_spec 200 (streamed cfg) [] ltac:(simpl; lia))
    as (_ & Hfull & Hopen & _).
  assert (Hkeys : NoDup (map key (shard 200 (streamed cfg)))).
  { apply (sublist_NoDup _ (map stream_name (streamed cfg))); [exact Hnd|].
    rewrite <- Hcat at 2. apply keys_sublist.
    eapply Forall_impl; [exact Hsz|]. intros c Hl ->. simpl in Hl. lia. }
  unfold shard in *.
  destruct (shard_loop 200 [] (streamed cfg)) as [d c]. cbn [fst snd] in *.
  destruct c as [|e c].
  - rewrite seal_all by (simpl; exact Hkeys). simpl.
    destruct d as [|c0 d]; simpl; [reflexivity|].
    destruct d as [|c1 d]; simpl; [|reflexivity].
    inversion Hfull as [|? ? Hl0 _]; subst. rewrite Hl0. reflexivity.
  - rewrite (Hk ltac:(done)).
    rewrite map_app in Hkeys.
    apply NoDup_app in Hkeys as (Hd1 & Hd2 & _).
    rewrite seal_all by (simpl; exact Hd1).
    cbn [app].
    destruct d as [|c0 d].
    + simpl. rewrite address_of_base by done.
      simpl in Hopen.
      destruct (Nat.ltb_spec (S (length c)) 200) as [_|Hge]; [|lia].
      reflexivity.
    + rewrite dict_set_fresh.
      * destruct d; simpl; rewrite ?map_app; reflexivity.
      * intros Hin. apply (Hd2 (key (e :: c))); [|left].
        rewrite map_map in Hin. simpl in Hin. exact Hin.
Qed.

End Address.

(** *** Depth of the snapshot, trades and dispatch *)

Section Handlers.
Context `{Imports}.

Lemma depth_loop_max (l : list Z) : ∀ m,
  fold_left (fun m d => if m <? d then d else m) l m = fold_left Z.max l m.
Proof.
  induction l as [|d l IH]; intros m; simpl; [reflexivity|].
  rewrite IH. f_equal. destruct (Z.ltb_spec m d); lia.
Qed.

(** A depth that is asked for and is not a valid one becomes the largest
    valid depth, unless it is larger itself. *)
Lemma snapshot_depth_invalid d :
  d ≠ 0 → d ∉ valid_depths → snapshot_depth (Some d) = Z.max d 5000.
Proof.
  intros Hd Hv. unfold snapshot_depth.
  rewrite (proj2 (Z.eqb_neq d 0) Hd).
  rewrite bool_decide_eq_false_2 by exact Hv.
  rewrite depth_loop_max. unfold valid_depths. simpl. lia.
Qed.

Lemma snapshot_depth_valid d :
  d ∈ valid_depths → snapshot_depth (Some d) = d.
Proof.
  intros Hv. unfold snapshot_depth.
  assert (Hd : d ≠ 0).
  { intros ->. revert Hv. unfold valid_depths.
    rewrite !elem_of_cons, elem_of_nil. lia. }
  rewrite (proj2 (Z.eqb_neq d 0) Hd).
  now rewrite bool_decide_eq_true_2.
Qed.

(** The trade callback of a message that has every field. *)
Lemma trade_run msg st jp price jq amount a sym symbol m E ts :
  getitem msg "p" = Ok jp → Decimal jp = Ok price →
  getitem msg "q" = Ok jq → Decimal jq = Ok amount →
  getitem msg "a" = Ok a →
  getitem msg "s" = Ok (JStr sym) → to_std sym = Ok symbol →
  getitem msg "m" = Ok m →
  getitem msg "E" = Ok E → timestamp_normalize E = Ok ts →
  _trade msg st =
    callback
      (TradeEvent a symbol (if truthy m then SELL else BUY) amount price ts)
      st.
Proof.
  intros Hp Hprice Hq Hamount Ha Hs Hsym Hm HE Hts.
  unfold _trade, bind, lift.
  rewrite Hp, Hprice, Hq, Hamount, Ha, Hs. simpl.
  rewrite Hsym, Hm, HE, Hts. reflexivity.
Qed.

(** A trade whose time stamp cannot be normalised raises before the
    callback. *)
Lemma trade_bad_time msg st jp price jq amount a sym symbol m E e :
  getitem msg "p" = Ok jp → Decimal jp = Ok price →
  getitem msg "q" = Ok jq → Decimal jq = Ok amount →
  getitem msg "a" = Ok a →
  getitem msg "s" = Ok (JStr sym) → to_std sym = Ok symbol →
  getitem msg "m" = Ok m →
  getitem msg "E" = Ok E → timestamp_normalize E = Raise e →
  _trade msg st = (Raise e, st).
Proof.
  intros Hp Hprice Hq Hamount Ha Hs Hsym Hm HE Hts.
  unfold _trade, bind, lift.
  rewrite Hp, Hprice, Hq, Hamount, Ha, Hs. simpl.
  rewrite Hsym, Hm, HE, Hts. reflexivity.
Qed.

(** The payload [data] of a combined-stream frame is of no known kind: its
    event type is none of the four handled, or it has neither an event type
    nor the key ["A"] of a ticker. *)
Definition unrecognized (data : list (string * JSON)) : Prop :=
  match dict_get "e" data with
  | Some e =>
      eq_str e "depthUpdate" = false ∧ eq_str e "aggTrade" = false ∧
      eq_str e "forceOrder" = false ∧ eq_str e "markPriceUpdate" = false
  | None => dict_get "A" data = None
  end.

Lemma handler_unrecognized msg stream p x data st :
  getitem msg "stream" = Ok (JStr stream) →
  split1 "@" stream = [p; x] →
  getitem msg "data" = Ok (JDict data) →
  unrecognized data →
  message_handler msg st = warning (JDict data) st.
Proof.
  intros Hs Hsplit Hd Hun. unfold message_handler, bind, lift.
  rewrite Hs. simpl. rewrite Hsplit, Hd. simpl.
  unfold unrecognized in Hun.
  destruct (dict_get "e" data) as [e|] eqn:He.
  - destruct Hun as (H1 & H2 & H3 & H4).
    rewrite bool_decide_eq_true_2 by eauto.
    now rewrite H1, H2, H3, H4.
  - rewrite bool_decide_eq_false_2 by (intros [? ?]; discriminate).
    rewrite Hun.
    rewrite bool_decide_eq_false_2 by (intros [? ?]; discriminate).
    reflexivity.
Qed.

End Handlers.

End BinanceFacts.

(** ** Properties of the PoloniexFutures feed *)

Module PoloniexFacts.
Import Py PoloniexFutures.
Local Open Scope py_scope.

Section Strict.
Context `{Imports}.
Variable _reset : M Feed unit.
Variables (symbol : string) (data : JSON) (seq last : Z) (ob : OrderBook)
  (st : Feed).
Hypothesis Hseq : getitem data "sequence" = Ok (JInt seq).
Hypothesis Hbook : _l2_book st !! symbol = Some ob.
Hypothesis Hsynced : is_Some (sequence_number ob).
Hypothesis Hlast : seq_no st !! symbol = Some last.

(** What the feed does when it finds a gap. *)
Definition on_gap : M Feed unit :=
  _reset ;;
  log WARNING (JStr "Missing book update detected, resetting book").

Ltac step_check :=
  unfold _check_update_id, bind, lift, pure, l2_book_getitem, seq_no_getitem;
  rewrite Hbook; destruct Hsynced as [s0 ->];
  repeat (first [ rewrite Hseq | rewrite Hlast
                | match goal with
                  | B : (_ <=? _) = _ |- _ => rewrite B
                  | B : (_ =? _) = _ |- _ => rewrite B
                  end ]; simpl).

(** A sequence number already seen: skipped, nothing changes. *)
Lemma check_stale :
  seq <= last → _check_update_id _reset symbol data st = (Ok true, st).
Proof. intros Hle. apply Z.leb_le in Hle. step_check. reflexivity. Qed.

(** The next sequence number: accepted and adopted. *)
Lemma check_next :
  seq = last + 1 →
  _check_update_id _reset symbol data st =
    (Ok false, set_seq_no (<[symbol := seq]> (seq_no st)) st).
Proof.
  intros He.
  assert (B0 : (seq <=? last) = false) by (apply Z.leb_gt; lia).
  apply Z.eqb_eq in He. step_check. reflexivity.
Qed.

(** A later sequence number: the gap branch runs and the update is
    skipped. *)
Lemma check_gap :
  last + 1 < seq →
  _check_update_id _reset symbol data st =
    (on_gap ;; pure true) st.
Proof.
  intros Hgt.
  assert (B0 : (seq <=? last) = false) by (apply Z.leb_gt; lia).
  assert (B1 : (seq =? last + 1) = false) by (apply Z.eqb_neq; lia).
  step_check. unfold on_gap, bind, log, modify.
  destruct (_reset st) as [[[]|e] s1]; reflexivity.
Qed.

End Strict.

Section Book.
Context `{Imports}.
Variable _reset : M Feed unit.
Variables (msg : JSON) (topic symbol : string) (data : JSON) (st : Feed).
Hypothesis Htopic : getitem msg "topic" = Ok (JStr topic).
Hypothesis Hsym : to_std (List.last (split ":" topic) "") = Ok symbol.
Hypothesis Hdata : getitem msg "data" = Ok data.

(** [_book] on a symbol that has a book, up to the sequence check. *)
Lemma book_known ob :
  _l2_book st !! symbol = Some ob →
  _book _reset msg st =
    (skip_update <- _check_update_id _reset symbol data ;;
     if skip_update : bool then pure tt
     else
       ts <- lift (getitem data "timestamp") ;;
       ts <- lift (self_timestamp_normalize ts) ;;
       change <- lift (getitem data "change") ;;
       change <- lift (as_str change) ;;
       match split "," change with
       | [price; side; amount] =>
           price <- lift (Decimal (JStr price)) ;;
           amount <- lift (Decimal (JStr amount)) ;;
           let side := if String.eqb side "buy" then BID else ASK in
           delta <- apply_change symbol side price amount ;;
           v <- lift (getitem data "sequence") ;;
           n <- lift (as_int v) ;;
           book_callback symbol (Some ts) (Some delta) n
       | _ => raise ValueError
       end) st.
Proof.
  intros Hb. unfold _book. unfold bind at 1, lift. rewrite Htopic.
  unfold bind at 1, as_str. unfold bind at 1. rewrite Hsym.
  unfold bind at 1, gets. rewrite Hb.
  rewrite bool_decide_eq_true_2 by eauto.
  unfold bind at 1, pure at 1. unfold bind at 1. rewrite Hdata.
  reflexivity.
Qed.

(** A stale or repeated update leaves the feed as it was: no level is
    changed and nothing is delivered. *)
Lemma book_stale ob seq last :
  _l2_book st !! symbol = Some ob → is_Some (sequence_number ob) →
  seq_no st !! symbol = Some last →
  getitem data "sequence" = Ok (JInt seq) →
  seq <= last →
  _book _reset msg st = (Ok tt, st).
Proof.
  intros Hb Hs Hl Hq Hle. erewrite book_known by eassumption.
  unfold bind. erewrite check_stale by eassumption. reflexivity.
Qed.

(** An update after a gap only runs the gap branch. *)
Lemma book_gap ob seq last :
  _l2_book st !! symbol = Some ob → is_Some (sequence_number ob) →
  seq_no st !! symbol = Some last →
  getitem data "sequence" = Ok (JInt seq) →
  last + 1 < seq →
  _book _reset msg st = on_gap _reset st.
Proof.
  intros Hb Hs Hl Hq Hgt. erewrite book_known by eassumption.
  unfold bind at 1. erewrite check_gap by eassumption.
  unfold bind, pure. destruct (on_gap _reset st) as [[[]|e] s1]; reflexivity.
Qed.

(** The feed after the change [(price, amount)] of an accepted update
    numbered [seq] and stamped [ts] was applied to [side] of the book [ob]
    and delivered. *)
Definition changed (side : BookSide) (price amount : Qc) (ob : OrderBook)
  : Levels * list (Qc * Qc) :=
  if bool_decide (amount = 0%Qc) then
    if bool_decide (is_Some (side_get side (book ob) !! price)) then
      (delete price (side_get side (book ob)), [(price, amount)])
    else (side_get side (book ob), [])
  else (<[price := amount]> (side_get side (book ob)), [(price, amount)]).

Definition delivered (side : BookSide) (price amount : Qc) (seq : Z)
    (ts : JSON) (ob : OrderBook) : OrderBook :=
  mkOrderBook
    (side_set side (fst (changed side price amount ob)) (book ob))
    (Some seq)
    (Some (side_set side (snd (changed side price amount ob)) (mkSided [] [])))
    (Some ts).

Definition accepted (side : BookSide) (price amount : Qc) (seq : Z)
    (ts : JSON) (ob : OrderBook) (st : Feed) : Feed :=
  mkFeed (max_depth st)
    (<[symbol := delivered side price amount seq ts ob]> (_l2_book st))
    (<[symbol := seq]> (seq_no st)) (rest st) (requests st)
    (events st ++ [BookEvent symbol (delivered side price amount seq ts ob)])
    (logged st).

Lemma with_side_same side ob : with_side side (side_get side (book ob)) ob = ob.
Proof. unfold with_side. rewrite BinanceFacts.side_set_get. now destruct ob. Qed.

Lemma apply_change_run side price amount ob st0 :
  _l2_book st0 !! symbol = Some ob →
  apply_change symbol side price amount st0 =
    (Ok (side_set side (snd (changed side price amount ob)) (mkSided [] [])),
     set_l2_book
       (<[symbol := with_side side (fst (changed side price amount ob)) ob]>
          (_l2_book st0)) st0).
Proof.
  intros Hb. unfold apply_change, changed, bind, l2_book_getitem,
    l2_book_update, pure.
  assert (Hsame : ∀ d : Delta,
    (Ok d, st0) =
    (Ok d, set_l2_book
             (<[symbol := with_side side (side_get side (book ob)) ob]>
                (_l2_book st0)) st0)).
  { intros d. rewrite with_side_same, insert_id by done. now destruct st0. }
  case_bool_decide; rewrite Hb; simpl.
  - case_bool_decide; simpl.
    + rewrite Hb. simpl. rewrite Hb. now destruct side.
    + rewrite <- Hsame. now destruct side.
  - rewrite Hb. now destruct side.
Qed.

(** The next update is applied and delivered with its delta. *)
Lemma level2_accept ob seq last t ts text p side a price amount :
  _l2_book st !! symbol = Some ob → is_Some (sequence_number ob) →
  seq_no st !! symbol = Some last →
  getitem data "sequence" = Ok (JInt seq) →
  seq = last + 1 →
  getitem data "timestamp" = Ok t → self_timestamp_normalize t = Ok ts →
  getitem data "change" = Ok (JStr text) →
  split "," text = [p; side; a] →
  Decimal (JStr p) = Ok price → Decimal (JStr a) = Ok amount →
  _book _reset msg st =
    (Ok tt,
     accepted (if String.eqb side "buy" then BID else ASK) price amount seq
       ts ob st).
Proof.
  intros Hb Hs Hl Hq He Ht Hts Hc Hsp Hp Ha.
  erewrite book_known by eassumption.
  unfold bind at 1. erewrite check_next by eassumption.
  unfold bind at 1, lift. rewrite Ht.
  unfold bind at 1. rewrite Hts.
  unfold bind at 1. rewrite Hc.
  unfold bind at 1, as_str. rewrite Hsp.
  unfold bind at 1. rewrite Hp.
  unfold bind at 1. rewrite Ha.
  unfold bind at 1. erewrite apply_change_run by (simpl; eassumption).
  unfold bind at 1. rewrite Hq.
  unfold bind at 1, as_int.
  unfold book_callback, bind, l2_book_update, l2_book_getitem, callback,
    modify.
  simpl. rewrite !lookup_insert_eq. simpl.
  rewrite !lookup_insert_eq, insert_insert_eq. reflexivity.
Qed.

End Book.

Section Handlers.
Context `{Imports}.
Variable _reset : M Feed unit.

(** The book that a snapshot numbered [n] creates. *)
Definition snapshot_book (n : Z) (bids asks : Levels) : OrderBook :=
  mkOrderBook (mkSided bids asks) (Some n) None None.

(** The feed after the snapshot of [symbol] was fetched and delivered. *)
Definition bootstrapped (symbol sym : string) (n : Z) (bids asks : Levels)
    (st : Feed) : Feed :=
  mkFeed (max_depth st)
    (<[sym := snapshot_book n bids asks]> (_l2_book st))
    (<[sym := n]> (seq_no st))
    (tail (rest st))
    (requests st ++ [(symbol, max_depth st)])
    (events st ++ [BookEvent sym (snapshot_book n bids asks)])
    (logged st).

Lemma level2_snapshot_run symbol sym res tl data n jb ja bids asks st :
  rest st = res :: tl →
  getitem res "data" = Ok data →
  to_std symbol = Ok sym →
  getitem data "sequence" = Ok (JInt n) →
  getitem data "bids" = Ok (JList jb) → levels_of jb ∅ = Ok bids →
  getitem data "asks" = Ok (JList ja) → levels_of ja ∅ = Ok asks →
  _snapshot symbol st = (Ok tt, bootstrapped symbol sym n bids asks st).
Proof.
  intros Hr Hd Hs Hn Hb Hbids Ha Hasks.
  unfold _snapshot, bind, gets, http_read, lift, modify, as_int, as_list,
    book_callback, l2_book_update, l2_book_getitem, callback, bind, modify.
  rewrite Hr, Hd, Hs. simpl. rewrite Hn. simpl.
  rewrite Hb, Hbids. simpl. rewrite lookup_insert_eq. simpl.
  rewrite Ha, Hasks. simpl. rewrite lookup_insert_eq. simpl.
  rewrite ?Hn. simpl. rewrite ?lookup_insert_eq. simpl.
  rewrite ?lookup_insert_eq, ?insert_insert_eq.
  unfold bootstrapped. rewrite Hr. reflexivity.
Qed.

(** The trade callback of a message that has every field. *)
Lemma match_run msg d jp price js amount t t' ts trade_id sym symbol side st :
  getitem msg "data" = Ok d →
  getitem d "price" = Ok jp → Decimal jp = Ok price →
  getitem d "size" = Ok js → Decimal js = Ok amount →
  getitem d "ts" = Ok t →
  self_timestamp_normalize t = Ok t' → truediv t' 1000000 = Ok ts →
  getitem d "tradeId" = Ok trade_id →
  getitem d "symbol" = Ok (JStr sym) → to_std sym = Ok symbol →
  getitem d "side" = Ok side →
  _trade msg st =
    callback
      (TradeEvent trade_id symbol (if eq_str side "sell" then SELL else BUY)
         amount price ts) st.
Proof.
  intros Hd Hp Hprice Hs Hamount Ht Hn Hts Hid Hsym Hstd Hside.
  unfold _trade, bind, lift.
  rewrite Hd, Hp, Hprice, Hs, Hamount, Ht, Hn, Hts, Hid, Hsym. simpl.
  rewrite Hstd, Hside. reflexivity.
Qed.

(** The frame [d] is of no known kind: its type is none of the four that
    are consumed and its subject is neither of the two channels. *)
Definition unrecognized (d : list (string * JSON)) : Prop :=
  let event := default JNull (dict_get "type" d) in
  let channel := default JNull (dict_get "subject" d) in
  eq_str event "error" = false ∧ eq_str event "welcome" = false ∧
  eq_str event "ack" = false ∧ eq_str event "subscribe" = false ∧
  eq_str channel "match" = false ∧ eq_str channel "level2" = false.

Lemma frame_unrecognized d st :
  unrecognized d →
  message_handler _reset (JDict d) st = log WARNING (JDict d) st.
Proof.
  intros (H1 & H2 & H3 & H4 & H5 & H6).
  unfold message_handler, bind, lift. simpl.
  rewrite H1, H2, H3, H4. simpl. now rewrite H5, H6.
Qed.

End Handlers.

End PoloniexFacts.

(** ** Sample feeds and messages *)

Module Samples.
Import Py.

(** [Decimal] on the text of a whole number, which is all that the samples
    use. *)
Fixpoint digits (s : string) (acc : Z) : option Z :=
  match s with
  | EmptyString => Some acc
  | String c r =>
      let n := Z.of_nat (nat_of_ascii c) in
      if (48 <=? n) && (n <=? 57) then digits r (10 * acc + (n - 48))
      else None
  end.

Definition whole_number (s : string) : option Qc :=
  match s with
  | EmptyString => None
  | _ => (fun z => Q2Qc (inject_Z z)) <$> digits s 0
  end.

(** The samples are ASCII text, on which [str.lower] and [str.upper] change
    the 26 letters and nothing else. *)
Definition lower_ascii (c : ascii) : ascii :=
  let n := nat_of_ascii c in
  if ((65 <=? n) && (n <=? 90))%nat then ascii_of_nat (n + 32) else c.

Definition upper_ascii (c : ascii) : ascii :=
  let n := nat_of_ascii c in
  if ((97 <=? n) && (n <=? 122))%nat then ascii_of_nat (n - 32) else c.

Fixpoint str_map (f : ascii -> ascii) (s : string) : string :=
  match s with
  | EmptyString => EmptyString
  | String c r => String (f c) (str_map f r)
  end.

(** A number divided by a whole number, for the time stamps of the samples:
    milliseconds become seconds, and anything that is no number is
    refused. *)
Definition divided (v : JSON) (n : Z) : Res JSON :=
  match v with
  | JInt a => Ok (JDec (Q2Qc (inject_Z a) / Q2Qc (inject_Z n))%Qc)
  | JDec d => Ok (JDec (d / Q2Qc (inject_Z n))%Qc)
  | _ => Raise TypeError
  end.

(** Imports for the samples: symbols are their own standard names. *)
Definition imports : Imports :=
  {| decimal_of_text := whole_number;
     std_symbol := Some;
     OPEN_INTEREST := "open_interest";
     lower := str_map lower_ascii;
     upper := str_map upper_ascii;
     timestamp_normalize := fun v => divided v 1000;
     self_timestamp_normalize := fun v => divided v 1000;
     truediv := divided |}.

Definition level (price amount : string) : JSON :=
  JList [JStr price; JStr amount].

(** A Binance depth reply and depth updates. *)
Definition depth_reply (last_update_id : Z) (bids asks : list JSON) : JSON :=
  JDict [("lastUpdateId"%string, JInt last_update_id);
         ("bids"%string, JList bids); ("asks"%string, JList asks)].

Definition depth_update (symbol : string) (U u : Z) (bids asks : list JSON)
  : JSON :=
  JDict [("e"%string, JStr "depthUpdate"); ("E"%string, JInt 123456789);
         ("s"%string, JStr symbol); ("U"%string, JInt U); ("u"%string, JInt u);
         ("b"%string, JList bids); ("a"%string, JList asks)].

(** A Binance feed after [_reset], with the REST replies to come. *)
Definition binance (replies : list JSON) : Binance.Feed :=
  Binance.mkFeed None ∅ ∅ ∅ ∅ replies [] [] [].

(** The feed after the snapshot of BTCUSDT, taken at update 150. *)
Definition binance_150 : Binance.Feed :=
  snd (Binance._snapshot (H := imports) "BTCUSDT"
         (binance [depth_reply 150 [level "100" "1"] [level "101" "2"]])).

Definition book_150 : Sided Levels :=
  mkSided {[Q2Qc 100 := Q2Qc 1]} {[Q2Qc 101 := Q2Qc 2]}.

(** The same feed once the update 151 to 151 was accepted. *)
Definition binance_151 : Binance.Feed :=
  snd (Binance._book (H := imports) (depth_update "BTCUSDT" 151 151 [] [])
         "BTCUSDT" binance_150).

(** Two symbols in step: BTCUSDT at 151 and ETHUSDT at 700. *)
Definition binance_two : Binance.Feed :=
  snd (Binance._book (H := imports) (depth_update "ETHUSDT" 701 701 [] [])
         "ETHUSDT"
      (snd (Binance._book (H := imports) (depth_update "BTCUSDT" 151 151 [] [])
         "BTCUSDT"
         (binance [depth_reply 150 [level "100" "1"] [level "101" "2"];
                   depth_reply 700 [level "30" "4"] [level "31" "5"]])))).

(** 450 subscriptions: three channels for each of 150 symbols. *)
Definition symbols_150 : list string :=
  map (fun i => "SYM" +:+ pretty i) (seq 0 150).

Definition config_450 : Binance.Config :=
  Binance.mkConfig ["aggTrade"; "bookTicker"; "depth@100ms"]%string
    symbols_150 [].

(** A subscription to the open interest of one symbol only. *)
Definition config_open_interest : Binance.Config :=
  Binance.mkConfig [] [] [("open_interest"%string, ["BTCUSDT"%string])].

(** A PoloniexFutures feed after [__reset], with the REST replies to
    come, and the feed after the snapshot of BTCUSDTPERP at sequence 7. *)
Definition poloniex (replies : list JSON) : PoloniexFutures.Feed :=
  PoloniexFutures.mkFeed (Some 100) ∅ ∅ replies [] [] [].

Definition poloniex_reply (sequence : Z) (bids asks : list JSON) : JSON :=
  JDict [("code"%string, JStr "200000");
         ("data"%string,
          JDict [("symbol"%string, JStr "BTCUSDTPERP");
                 ("sequence"%string, JInt sequence);
                 ("asks"%string, JList asks); ("bids"%string, JList bids)])].

Definition poloniex_7 : PoloniexFutures.Feed :=
  snd (PoloniexFutures._snapshot (H := imports) "BTCUSDTPERP"
         (poloniex [poloniex_reply 7 [level "100" "1"] [level "101" "2"]])).

Definition level2 (sequence : Z) (change : string) : JSON :=
  JDict [("data"%string,
          JDict [("sequence"%string, JInt sequence);
                 ("change"%string, JStr change);
                 ("timestamp"%string, JInt 1666544751415)]);
         ("subject"%string, JStr "level2");
         ("topic"%string, JStr "/contractMarket/level2:BTCUSDTPERP");
         ("type"%string, JStr "message")].

Definition execution (side : string) : JSON :=
  JDict [("data"%string,
          JDict [("makerUserId"%string, JStr "14262470");
                 ("symbol"%string, JStr "BTCUSDTPERP");
                 ("sequence"%string, JInt 659294);
                 ("side"%string, JStr side); ("size"%string, JInt 1);
                 ("price"%string, JInt 19155);
                 ("tradeId"%string, JStr "6355476b244b7900011a4f5f");
                 ("ts"%string, JInt 1666533227264166601)]);
         ("subject"%string, JStr "match");
         ("topic"%string, JStr "/contractMarket/execution:BTCUSDTPERP");
         ("type"%string, JStr "message")].

Definition agg_trade (maker : bool) : JSON :=
  JDict [("e"%string, JStr "aggTrade"); ("E"%string, JInt 123456789);
         ("s"%string, JStr "BNBBTC"); ("a"%string, JInt 12345);
         ("p"%string, JStr "7"); ("q"%string, JStr "100");
         ("f"%string, JInt 100); ("l"%string, JInt 105);
         ("T"%string, JInt 123456785); ("m"%string, JBool maker);
         ("M"%string, JBool true)].

End Samples.

(** ** The claims *)

Section Claims.
Import Py.
Import BinanceFacts.

Ltac outcome :=
  split; [reflexivity|];
  repeat match goal with
         | |- _ ∧ _ => split
         end;
  intros ? ?; first [congruence | lia | assumption | (split; eauto)].

(** C1. Window policy of the Binance feed, for a symbol that has an update
    identifier [last]: while no update was accepted since the snapshot
    ([first_pending]), an update [U, u] is accepted exactly when
    [U <= last + 1 <= u]; afterwards exactly when [last + 1 = U]. The first
    component returned is skip_update, the negation of accepted. An accepted
    update makes [u] the identifier of the symbol ([adopted]); a first
    update with [u <= last] is skipped and changes nothing
    ([same_state]). *)
Theorem window_policy (pair : string) (msg : JSON) (U u last : Z)
    (st : Binance.Feed) :
  getitem msg "U" = Ok (JInt U) →
  getitem msg "u" = Ok (JInt u) →
  Binance.last_update_id st !! pair = Some last →
  ∃ st',
    Binance._check_update_id pair msg st =
      (Ok (negb (if first_pending st pair
                 then bool_decide (U ≤ last + 1 ≤ u)
                 else bool_decide (last + 1 = U)),
           first_pending st pair), st') ∧
    (first_pending st pair = true → U ≤ last + 1 ≤ u →
       adopted pair u st st' ∧ Binance.last_update_id st' !! pair = Some u) ∧
    (first_pending st pair = true → u ≤ last → same_state st' st) ∧
    (first_pending st pair = false → last + 1 = U →
       adopted pair u st st' ∧ Binance.last_update_id st' !! pair = Some u).
Proof.
  intros HU Hu Hlast.
  assert (Hnew : ∀ st', adopted pair u st st' →
            Binance.last_update_id st' !! pair = Some u).
  { intros st' (-> & _). apply lookup_insert_eq. }
  destruct (first_pending st pair) eqn:Hf.
  - destruct (decide (u ≤ last)) as [Hstale|Hfresh].
    + destruct (check_first_stale pair msg U u last st HU Hu Hlast Hf Hstale)
        as (st' & Hrun & Hsame).
      exists st'. rewrite Hrun.
      rewrite bool_decide_eq_false_2 by lia.
      outcome.
    + destruct (decide (U ≤ last + 1)) as [Hin|Hout].
      * destruct (check_first_window pair msg U u last st HU Hu Hlast Hf
                    ltac:(lia)) as (st' & Hrun & Had).
        exists st'. rewrite Hrun.
        rewrite bool_decide_eq_true_2 by lia.
        outcome.
      * destruct (check_first_gap pair msg U u last st HU Hu Hlast Hf
                    ltac:(lia) ltac:(lia)) as (st' & Hrun & _).
        exists st'. rewrite Hrun.
        rewrite bool_decide_eq_false_2 by lia.
        outcome.
  - destruct (decide (last + 1 = U)) as [Hnext|Hgap].
    + destruct (check_next_ok pair msg U u last st HU Hu Hlast Hf Hnext)
        as (st' & Hrun & Had).
      exists st'. rewrite Hrun.
      rewrite bool_decide_eq_true_2 by lia.
      outcome.
    + destruct (check_next_gap pair msg U u last st HU Hu Hlast Hf Hgap)
        as (st' & Hrun & _).
      exists st'. rewrite Hrun.
      rewrite bool_decide_eq_false_2 by lia.
      outcome.
Qed.

(** The examples of C1: at 150 after the snapshot, the update 148 to 155 is
    accepted and 155 is adopted; an update that ends at 150 is skipped as
    stale. *)
Lemma window_policy_witness :
  (∃ st',
     Binance._check_update_id "BTCUSDT"
       (Samples.depth_update "BTCUSDT" 148 155 [] []) Samples.binance_150 =
       (Ok (false, true), st') ∧
     Binance.last_update_id st' !! "BTCUSDT"%string = Some 155) ∧
  (∃ st',
     Binance._check_update_id "BTCUSDT"
       (Samples.depth_update "BTCUSDT" 140 150 [] []) Samples.binance_150 =
       (Ok (true, true), st') ∧
     same_state st' Samples.binance_150).
Proof.
  split.
  - destruct (window_policy "BTCUSDT"
                (Samples.depth_update "BTCUSDT" 148 155 [] []) 148 155 150
                Samples.binance_150 eq_refl eq_refl eq_refl)
      as (st' & Hrun & Hacc & _).
    exists st'. split; [exact Hrun|].
    apply (Hacc eq_refl). lia.
  - destruct (window_policy "BTCUSDT"
                (Samples.depth_update "BTCUSDT" 140 150 [] []) 140 150 150
                Samples.binance_150 eq_refl eq_refl eq_refl)
      as (st' & Hrun & _ & Hstale & _).
    exists st'. split; [exact Hrun|].
    apply (Hstale eq_refl). lia.
Defined.

(** C7, refuted as stated: at 151 the update with [U = 152] and [u = 100]
    is accepted, since only [U] is compared with the identifier, and the
    identifier goes down to 100. *)
Lemma sequence_can_decrease :
  Binance.last_update_id Samples.binance_151 !! "BTCUSDT"%string = Some 151 ∧
  fst (Binance._check_update_id "BTCUSDT"
         (Samples.depth_update "BTCUSDT" 152 100 [] []) Samples.binance_151) =
    Ok (false, false) ∧
  Binance.last_update_id
    (snd (Binance._check_update_id "BTCUSDT"
            (Samples.depth_update "BTCUSDT" 152 100 [] [])
            Samples.binance_151)) !! "BTCUSDT"%string = Some 100.
Proof. repeat split; vm_compute; reflexivity. Qed.

(** C7, amended. An accepted update never lowers the identifier of its
    symbol, with one proviso. Window policy (Binance): an accepted update
    makes [u] the identifier; for the first update after a snapshot
    [last + 1 <= u]; for a later one [U = last + 1], so [last + 1 <= u] as
    soon as the window is well formed ([U <= u]). With well-formed windows
    the identifier of a symbol that is still synced after an update, or
    after any sequence of updates, accepted or not, has not gone down.
    Strict policy (PoloniexFutures): an accepted update has [seq = last + 1]
    and makes it the sequence number. *)
Theorem sequence_monotone :
  (∀ pair msg U u last st st' forced,
     getitem msg "U" = Ok (JInt U) →
     getitem msg "u" = Ok (JInt u) →
     Binance.last_update_id st !! pair = Some last →
     Binance._check_update_id pair msg st = (Ok (false, forced), st') →
     Binance.last_update_id st' !! pair = Some u ∧
     (first_pending st pair = true → last + 1 ≤ u) ∧
     (first_pending st pair = false → U = last + 1 ∧ (U ≤ u → last + 1 ≤ u))) ∧
  (∀ pair msg U u last st r st' new,
     getitem msg "U" = Ok (JInt U) →
     getitem msg "u" = Ok (JInt u) →
     Binance.last_update_id st !! pair = Some last →
     U ≤ u →
     Binance._check_update_id pair msg st = (r, st') →
     Binance.last_update_id st' !! pair = Some new →
     last ≤ new) ∧
  (∀ pair msgs last st new,
     Forall well_formed msgs →
     Binance.last_update_id st !! pair = Some last →
     Binance.last_update_id (checked pair msgs st) !! pair = Some new →
     last ≤ new) ∧
  (∀ _reset symbol data seq last ob st st',
     getitem data "sequence" = Ok (JInt seq) →
     PoloniexFutures._l2_book st !! symbol = Some ob →
     is_Some (PoloniexFutures.sequence_number ob) →
     PoloniexFutures.seq_no st !! symbol = Some last →
     PoloniexFutures._check_update_id _reset symbol data st = (Ok false, st') →
     seq = last + 1 ∧ PoloniexFutures.seq_no st' !! symbol = Some (last + 1)).
Proof.
  assert (Hstep : ∀ pair msg U u last st r st' new,
     getitem msg "U" = Ok (JInt U) →
     getitem msg "u" = Ok (JInt u) →
     Binance.last_update_id st !! pair = Some last →
     U ≤ u →
     Binance._check_update_id pair msg st = (r, st') →
     Binance.last_update_id st' !! pair = Some new →
     last ≤ new).
  { intros pair msg U u last st r st' new HU Hu Hlast Hw Hrun Hnew.
    destruct (check_outcome pair msg U u last st HU Hu Hlast)
      as (s & [(Hf & Hc & Hr & Hs)|[(Hf & Hc & Hr & Hs)|[(Hf & Hc & Hc' & Hr & Hs)
               |[(Hf & Hc & Hr & Hs)|(Hf & Hc & Hr & Hs)]]]]);
      rewrite Hr in Hrun; injection Hrun as <- <-.
    + destruct Hs as (_ & _ & _ & Hl & _). rewrite Hl, Hlast in Hnew.
      injection Hnew as <-. lia.
    + destruct Hs as (Hl & _). rewrite Hl, lookup_insert_eq in Hnew.
      injection Hnew as <-. lia.
    + destruct Hs as (_ & _ & Hl & _). rewrite Hl in Hnew. done.
    + destruct Hs as (Hl & _). rewrite Hl, lookup_insert_eq in Hnew.
      injection Hnew as <-. lia.
    + destruct Hs as (_ & _ & Hl & _). rewrite Hl in Hnew. done. }
  split; [|split; [exact Hstep|split]].
  - intros pair msg U u last st st' forced HU Hu Hlast Hrun.
    destruct (check_outcome pair msg U u last st HU Hu Hlast)
      as (s & [(Hf & Hc & Hr & Hs)|[(Hf & Hc & Hr & Hs)|[(Hf & Hc & Hc' & Hr & Hs)
               |[(Hf & Hc & Hr & Hs)|(Hf & Hc & Hr & Hs)]]]]);
      rewrite Hr in Hrun; try discriminate;
      injection Hrun as <- <-; destruct Hs as (-> & _);
      (split; [apply lookup_insert_eq|]); split; intros; try congruence;
      try lia; split; lia.
  - intros pair msgs. induction msgs as [|m msgs IH];
      intros last st new Hwf Hlast Hnew; simpl in Hnew.
    + rewrite Hlast in Hnew. injection Hnew as <-. lia.
    + inversion Hwf as [|? ? (U & u & HU & Hu & Hw) Hwf']; subst.
      destruct (Binance.last_update_id
                  (snd (Binance._check_update_id pair m st)) !! pair)
        as [mid|] eqn:Hmid.
      * assert (last ≤ mid)
          by (eapply Hstep; [exact HU|exact Hu|exact Hlast|exact Hw
                            |apply surjective_pairing|exact Hmid]).
        assert (mid ≤ new) by (eapply IH; eassumption).
        lia.
      * rewrite (checked_unsynced pair msgs _ Hmid) in Hnew. discriminate.
  - intros _reset symbol data seq last ob st st' Hseq Hb Hs Hl Hrun.
    destruct (decide (seq ≤ last)) as [Hstale|Hfresh].
    { erewrite PoloniexFacts.check_stale in Hrun by eassumption.
      discriminate. }
    destruct (decide (seq = last + 1)) as [Hnext|Hgap].
    { erewrite PoloniexFacts.check_next in Hrun by eassumption.
      injection Hrun as <-. split; [exact Hnext|]. simpl.
      rewrite lookup_insert_eq. congruence. }
    erewrite PoloniexFacts.check_gap in Hrun by (first [eassumption|lia]).
    unfold bind, pure in Hrun.
    destruct (PoloniexFacts.on_gap _reset st) as [[[]|e] s1]; discriminate.
Qed.

(** C7 at work: the update 151 to 160 at 150, and sequence 8 at 7. *)
Lemma sequence_monotone_witness :
  Binance.last_update_id
    (snd (Binance._check_update_id "BTCUSDT"
            (Samples.depth_update "BTCUSDT" 151 160 [] [])
            Samples.binance_150)) !! "BTCUSDT"%string = Some 160 ∧
  150 + 1 ≤ 160 ∧
  PoloniexFutures.seq_no
    (snd (PoloniexFutures._check_update_id PoloniexFutures.__reset
            "BTCUSDTPERP" (JDict [("sequence"%string, JInt 8)])
            Samples.poloniex_7)) !! "BTCUSDTPERP"%string = Some (7 + 1).
Proof.
  destruct sequence_monotone as (Hwindow & _ & _ & Hstrict).
  destruct (Hwindow "BTCUSDT"%string
              (Samples.depth_update "BTCUSDT" 151 160 [] []) 151 160 150
              Samples.binance_150
              (snd (Binance._check_update_id "BTCUSDT"
                      (Samples.depth_update "BTCUSDT" 151 160 [] [])
                      Samples.binance_150))
              true eq_refl eq_refl eq_refl eq_refl) as (Hnew & Hfirst & _).
  split; [exact Hnew|]. split; [apply Hfirst; reflexivity|].
  apply (Hstrict PoloniexFutures.__reset "BTCUSDTPERP"%string
           (JDict [("sequence"%string, JInt 8)]) 8 7 _ Samples.poloniex_7
           _ eq_refl eq_refl (ex_intro _ 7 eq_refl) eq_refl eq_refl).
Defined.

Lemma ensure_book_known `{Imports} pair p st :
  is_Some (Binance.l2_book st !! p) → ensure_book pair p st = (Ok tt, st).
Proof.
  intros Hk. unfold ensure_book. now rewrite bool_decide_eq_true_2.
Qed.

Lemma ensure_book_unknown `{Imports} pair p st :
  Binance.l2_book st !! p = None →
  ensure_book pair p st = Binance._snapshot pair st.
Proof.
  intros Hk. unfold ensure_book. rewrite bool_decide_eq_false_2; [done|].
  rewrite Hk. intros [? ?]. discriminate.
Qed.

(** C3, refuted as stated: with BTCUSDT at 151 and ETHUSDT at 701, a gap on
    BTCUSDT (an update starting at 153) also destroys the book and the
    identifier of ETHUSDT. *)
Lemma gap_resets_other_symbols :
  is_Some (Binance.l2_book Samples.binance_two !! "ETHUSDT"%string) ∧
  Binance.last_update_id Samples.binance_two !! "ETHUSDT"%string = Some 701 ∧
  Binance.l2_book
    (snd (Binance._book (H := Samples.imports)
            (Samples.depth_update "BTCUSDT" 153 154 [] []) "BTCUSDT"
            Samples.binance_two)) !! "ETHUSDT"%string = None ∧
  Binance.last_update_id
    (snd (Binance._book (H := Samples.imports)
            (Samples.depth_update "BTCUSDT" 153 154 [] []) "BTCUSDT"
            Samples.binance_two)) !! "ETHUSDT"%string = None.
Proof. repeat split; vm_compute; eauto. Qed.

(** C3, amended. On every gap that the Binance feed finds, the update is
    dropped: [_book] returns with no level of the update applied and no
    callback called, one warning is logged, and the books, the update
    identifiers and the first-update flags of every symbol of the feed, the
    one of the update and all the others, are destroyed. This holds for a
    symbol that has a book, and for a symbol without one, where the gap is
    found on the delta that caused the snapshot: the snapshot is fetched,
    loaded and destroyed at once. The next delta, for that symbol or any
    other one, makes exactly one snapshot request, whatever that delta and
    the reply are. *)
Theorem gap_resets_feed `{Imports} (pair p : string) (msg : JSON)
    (U u : Z) (st : Binance.Feed) :
  to_std pair = Ok p →
  getitem msg "U" = Ok (JInt U) →
  getitem msg "u" = Ok (JInt u) →
  let gap (last : Z) :=
    if first_pending st p then last < u ∧ last + 1 < U else last + 1 ≠ U in
  let destroyed (st0 st' : Binance.Feed) :=
    Binance._book msg pair st = (Ok tt, st') ∧
    Binance.forced st' = ∅ ∧ Binance.l2_book st' = ∅ ∧
    Binance.last_update_id st' = ∅ ∧ Binance.open_interest st' = ∅ ∧
    Binance.events st' = Binance.events st ∧
    Binance.warnings st' =
      Binance.warnings st ++
        [JStr "Missing book update detected, resetting book"] ∧
    Binance.requests st' = Binance.requests st0 ∧
    Binance.rest st' = Binance.rest st0 ∧
    Binance.max_depth st' = Binance.max_depth st ∧
    (∀ msg' pair' p', to_std pair' = Ok p' →
       Binance.requests (snd (Binance._book msg' pair' st')) =
         Binance.requests st' ++
           [(pair', Binance.snapshot_depth (Binance.max_depth st'))]) in
  (∀ last,
     is_Some (Binance.l2_book st !! p) →
     Binance.last_update_id st !! p = Some last →
     gap last →
     ∃ st', destroyed st st' ∧ was_reset st st') ∧
  (∀ resp tl n jb ja bids asks,
     Binance.l2_book st !! p = None →
     Binance.rest st = resp :: tl →
     getitem resp "lastUpdateId" = Ok (JInt n) →
     getitem resp "bids" = Ok (JList jb) → levels_are jb bids →
     getitem resp "asks" = Ok (JList ja) → levels_are ja asks →
     gap n →
     ∃ st',
       destroyed (bootstrapped pair p n bids asks st) st' ∧
       Binance.requests st' =
         Binance.requests st ++
           [(pair, Binance.snapshot_depth (Binance.max_depth st))] ∧
       Binance.rest st' = tl).
Proof.
  intros Hp HU Hu gap destroyed.
  assert (Hgap : ∀ st0 last,
            ensure_book pair p st = (Ok tt, st0) →
            first_pending st0 p = first_pending st p →
            Binance.last_update_id st0 !! p = Some last →
            Binance.events st0 = Binance.events st →
            Binance.warnings st0 = Binance.warnings st →
            Binance.max_depth st0 = Binance.max_depth st →
            gap last →
            ∃ st', destroyed st0 st' ∧ was_reset st0 st').
  { intros st0 last Hens Hflag Hlast Hev Hwarn Hdepth Hg.
    unfold gap in Hg. rewrite <- Hflag in Hg.
    assert (Hrun : ∃ st' f,
              Binance._check_update_id p msg st0 = (Ok (true, f), st') ∧
              was_reset st0 st').
    { destruct (check_outcome p msg U u last st0 HU Hu Hlast)
        as (s & [(Hf & Hc & Hr & Hs)|[(Hf & Hc & Hr & Hs)
                 |[(Hf & Hc & Hc' & Hr & Hs)
                 |[(Hf & Hc & Hr & Hs)|(Hf & Hc & Hr & Hs)]]]]);
        rewrite Hf in Hg; try lia; eauto. }
    destruct Hrun as (st' & f & Hrun & Hreset).
    exists st'. split; [|exact Hreset].
    destruct Hreset as (Hfo & Hb & Hl & Ho & Hd & Hre & Hrq & He & Hw).
    unfold destroyed.
    repeat match goal with |- _ ∧ _ => split end; try assumption;
      try congruence.
    - eapply book_skip; [exact Hp|exact Hens|exact Hrun].
    - intros msg' pair' p' Hp'. apply book_requests_unknown with (p := p').
      + exact Hp'.
      + rewrite Hb. apply lookup_empty. }
  split.
  - intros last Hk Hlast Hg.
    apply (Hgap st last); try reflexivity; try assumption.
    apply ensure_book_known, Hk.
  - intros resp tl n jb ja bids asks Hnone Hrest Hn Hb Hbids Ha Hasks Hg.
    assert (Hsnap : Binance._snapshot pair st =
                      (Ok tt, bootstrapped pair p n bids asks st))
      by (eapply snapshot_run; eassumption).
    destruct (Hgap (bootstrapped pair p n bids asks st) n) as (st' & Hd & Hr);
      try reflexivity; try assumption.
    + rewrite ensure_book_unknown by exact Hnone. exact Hsnap.
    + simpl. apply lookup_insert_eq.
    + exists st'. split; [exact Hd|].
      destruct Hr as (_ & _ & _ & _ & _ & Hre & Hrq & _).
      rewrite Hrq, Hre. simpl. rewrite Hrest. split; reflexivity.
Qed.

(** C3 at work: the gap on BTCUSDT in the feed of two symbols, then the
    next delta for BTCUSDT; and, in a feed just reset, the delta 160 to 161
    that meets the snapshot taken at 150. *)
Lemma gap_resets_feed_witness :
  (∃ st',
     Binance._book (H := Samples.imports)
       (Samples.depth_update "BTCUSDT" 153 154 [] []) "BTCUSDT"
       Samples.binance_two = (Ok tt, st') ∧
     Binance.l2_book st' !! "ETHUSDT"%string = None ∧
     Binance.requests
       (snd (Binance._book (H := Samples.imports)
               (Samples.depth_update "BTCUSDT" 155 156 [] []) "BTCUSDT" st')) =
       Binance.requests st' ++ [("BTCUSDT"%string, 1000)]) ∧
  (∃ st',
     Binance._book (H := Samples.imports)
       (Samples.depth_update "BTCUSDT" 160 161 [] []) "BTCUSDT"
       (Samples.binance
          [Samples.depth_reply 150 [Samples.level "100" "1"]
             [Samples.level "101" "2"]]) = (Ok tt, st') ∧
     Binance.l2_book st' = ∅ ∧
     Binance.warnings st' =
       [JStr "Missing book update detected, resetting book"] ∧
     Binance.requests st' = [("BTCUSDT"%string, 1000)]).
Proof.
  split.
  - destruct (gap_resets_feed (H := Samples.imports) "BTCUSDT" "BTCUSDT"
                (Samples.depth_update "BTCUSDT" 153 154 [] []) 153 154
                Samples.binance_two eq_refl eq_refl eq_refl)
      as (Hknown & _).
    destruct (Hknown 151 (ex_intro _ _ eq_refl) eq_refl
                ltac:(vm_compute; intros E; discriminate E))
      as (st' & (Hrun & _ & Hgone & _ & _ & _ & _ & _ & _ & Hdepth & Hnext)
          & _).
    exists st'. split; [exact Hrun|]. split.
    + rewrite Hgone. apply lookup_empty.
    + rewrite (Hnext (Samples.depth_update "BTCUSDT" 155 156 [] [])
                 "BTCUSDT"%string "BTCUSDT"%string eq_refl).
      rewrite Hdepth. reflexivity.
  - destruct (gap_resets_feed (H := Samples.imports) "BTCUSDT" "BTCUSDT"
                (Samples.depth_update "BTCUSDT" 160 161 [] []) 160 161
                (Samples.binance
                   [Samples.depth_reply 150 [Samples.level "100" "1"]
                      [Samples.level "101" "2"]])
                eq_refl eq_refl eq_refl)
      as (_ & Hunknown).
    destruct (Hunknown
                (Samples.depth_reply 150 [Samples.level "100" "1"]
                   [Samples.level "101" "2"])
                [] 150 [Samples.level "100" "1"] [Samples.level "101" "2"]
                [(Q2Qc 100, Q2Qc 1)] [(Q2Qc 101, Q2Qc 2)]
                eq_refl eq_refl eq_refl eq_refl ltac:(repeat constructor)
                eq_refl ltac:(repeat constructor)
                ltac:(vm_compute; split; reflexivity))
      as (st' & (Hrun & _ & Hgone & _ & _ & _ & Hwarn & _) & Hreq & _).
    exists st'. split; [exact Hrun|]. split; [exact Hgone|].
    split; [exact Hwarn|exact Hreq].
Defined.




Lemma num_targets_shards `{Imports} (shards : list (list (string * string))) :
  num_targets (targets shards) = length shards.
Proof.
  destruct shards as [|c [|c' shards]]; simpl; try reflexivity.
  - now destruct (length c <? 200)%nat.
  - now rewrite length_map.
Qed.

(** C5, refuted as stated: the subscription to the open interest of BTCUSDT
    is one (channel, symbol) pair, and [_address] returns [None]: no target
    holds the pair, where one target is expected. *)
Lemma open_interest_has_no_target :
  entries Samples.config_open_interest =
    [("open_interest"%string, "BTCUSDT"%string)] ∧
  Binance._address (H := Samples.imports) Samples.config_open_interest =
    Binance.NoAddress ∧
  num_targets
    (Binance._address (H := Samples.imports) Samples.config_open_interest) ≠
    ((length (entries Samples.config_open_interest)
      + 199) / 200)%nat.
Proof. repeat split. vm_compute. discriminate. Qed.

(** C5, amended. [_address] leaves out the pairs on the open-interest
    channel. The other pairs ([streamed]), when their streams (lower-case
    symbol, ["@"], channel) are distinct, are cut in order into shards of
    200, the last one of 1 to 200 ([shard]): every such pair is in exactly
    one shard, each shard gives one address ([targets]), and the number of
    targets is the number of these pairs over 200, rounded up. *)
Theorem address_sharding `{Imports} (cfg : Binance.Config) :
  NoDup (map stream_name (streamed cfg)) →
  let shards := shard 200 (streamed cfg) in
  Binance._address cfg = targets shards ∧
  concat shards = streamed cfg ∧
  NoDup (concat shards) ∧
  Forall (fun c => (0 < length c ≤ 200)%nat) shards ∧
  num_targets (Binance._address cfg) =
    ((length (streamed cfg) + 199) / 200)%nat.
Proof.
  intros Hnd shards.
  assert (Hcat : concat shards = streamed cfg)
    by (apply shard_concat; lia).
  assert (Haddr : Binance._address cfg = targets shards)
    by (apply address_shards; exact Hnd).
  repeat match goal with |- _ ∧ _ => split end.
  - exact Haddr.
  - exact Hcat.
  - rewrite Hcat. apply (NoDup_fmap_1 stream_name). exact Hnd.
  - apply shard_sizes. lia.
  - rewrite Haddr, num_targets_shards. unfold shards.
    rewrite shard_count by lia. reflexivity.
Qed.

(** The example of C5: 450 pairs give three targets, of 200, 200 and 50
    pairs. *)
Lemma address_sharding_witness :
  length (streamed (H := Samples.imports) Samples.config_450) = 450%nat ∧
  num_targets (Binance._address (H := Samples.imports) Samples.config_450) =
    3%nat ∧
  map length (shard 200 (streamed (H := Samples.imports) Samples.config_450)) =
    [200; 200; 50]%nat.
Proof.
  assert (Hnd : NoDup (map (stream_name (H := Samples.imports))
                         (streamed (H := Samples.imports) Samples.config_450))).
  { apply (bool_decide_unpack _). vm_compute. exact I. }
  destruct (address_sharding (H := Samples.imports) Samples.config_450 Hnd)
    as (_ & _ & _ & _ & Hcount).
  split; [vm_compute; reflexivity|]. split.
  - rewrite Hcount. vm_compute. reflexivity.
  - vm_compute. reflexivity.
Defined.

(** C2. Strict policy of the PoloniexFutures feed, for a symbol whose book
    was delivered (it has a sequence number) and whose last sequence number
    is [last]. An update numbered [seq] is accepted exactly when
    [seq = last + 1], and [seq] is then adopted; with [seq <= last] the
    update is skipped and [_book] leaves the whole feed as it was, book,
    callbacks and log. With [seq > last + 1] the check calls
    [self._reset()], a name that the module does not define: its own reset
    is [__reset], which [subscribe] calls. When that call raises, as the
    lookup of a name that no class defines does, the exception leaves
    [_book] with the feed as it was found: the book and the sequence number
    are kept and no warning is logged, so the update is not treated as a
    gap. Only when the call returns is the warning logged and the update
    skipped, with the feed as the call left it. The value returned by the
    check is skip_update. *)
Theorem strict_policy (_reset : M PoloniexFutures.Feed unit)
    `{Imports} (msg : JSON) (topic symbol : string) (data : JSON)
    (seq last : Z) (ob : PoloniexFutures.OrderBook)
    (st : PoloniexFutures.Feed) :
  getitem msg "topic" = Ok (JStr topic) →
  to_std (List.last (split ":" topic) "") = Ok symbol →
  getitem msg "data" = Ok data →
  getitem data "sequence" = Ok (JInt seq) →
  PoloniexFutures._l2_book st !! symbol = Some ob →
  is_Some (PoloniexFutures.sequence_number ob) →
  PoloniexFutures.seq_no st !! symbol = Some last →
  (seq = last + 1 →
     PoloniexFutures._check_update_id _reset symbol data st =
       (Ok false,
        PoloniexFutures.set_seq_no (<[symbol := seq]> (PoloniexFutures.seq_no st))
          st)) ∧
  (seq ≠ last + 1 →
     fst (PoloniexFutures._check_update_id _reset symbol data st) ≠ Ok false) ∧
  (seq ≤ last →
     PoloniexFutures._check_update_id _reset symbol data st = (Ok true, st) ∧
     PoloniexFutures._book _reset msg st = (Ok tt, st)) ∧
  (last + 1 < seq →
     (∀ e s1, _reset st = (Raise e, s1) →
        PoloniexFutures._check_update_id _reset symbol data st =
          (Raise e, s1) ∧
        PoloniexFutures._book _reset msg st = (Raise e, s1)) ∧
     (∀ s1, _reset st = (Ok tt, s1) →
        let warned :=
          PoloniexFutures.mkFeed (PoloniexFutures.max_depth s1)
            (PoloniexFutures._l2_book s1) (PoloniexFutures.seq_no s1)
            (PoloniexFutures.rest s1) (PoloniexFutures.requests s1)
            (PoloniexFutures.events s1)
            (PoloniexFutures.logged s1 ++
               [(PoloniexFutures.WARNING,
                 JStr "Missing book update detected, resetting book")]) in
        PoloniexFutures._check_update_id _reset symbol data st =
          (Ok true, warned) ∧
        PoloniexFutures._book _reset msg st = (Ok tt, warned))).
Proof.
  intros Htopic Hsym Hdata Hseq Hbook Hsynced Hlast.
  repeat match goal with |- _ ∧ _ => split end.
  - intros He. eapply PoloniexFacts.check_next; eassumption.
  - intros Hne Hacc.
    destruct (decide (seq ≤ last)) as [Hstale|Hfresh].
    + erewrite PoloniexFacts.check_stale in Hacc by eassumption.
      discriminate.
    + erewrite PoloniexFacts.check_gap in Hacc by (first [eassumption|lia]).
      unfold bind, pure in Hacc.
      destruct (PoloniexFacts.on_gap _reset st) as [[[]|e] s1]; discriminate.
  - intros Hle. split.
    + eapply PoloniexFacts.check_stale; eassumption.
    + eapply PoloniexFacts.book_stale; eassumption.
  - intros Hgt. split.
    + intros e s1 Hreset.
      erewrite PoloniexFacts.check_gap, PoloniexFacts.book_gap by eassumption.
      unfold PoloniexFacts.on_gap, bind. rewrite Hreset. split; reflexivity.
    + intros s1 Hreset warned.
      erewrite PoloniexFacts.check_gap, PoloniexFacts.book_gap by eassumption.
      unfold PoloniexFacts.on_gap, bind. rewrite Hreset. split; reflexivity.
Qed.

(** C2 at work: at sequence 7, the update 8 is accepted and the update 7
    leaves the feed as it is. The update 9 calls [self._reset()]: with the
    lookup failing, [_book] raises and the feed is as it was, book kept and
    nothing logged; with a reset that empties the feed, as [__reset] would,
    the book is gone and the warning is logged. *)
Lemma strict_policy_witness :
  PoloniexFutures.seq_no
    (snd (PoloniexFutures._check_update_id PoloniexFutures.__reset
            "BTCUSDTPERP"
            (JDict [("sequence"%string, JInt 8);
                    ("change"%string, JStr "100,buy,0");
                    ("timestamp"%string, JInt 1666544751415)])
            Samples.poloniex_7)) !! "BTCUSDTPERP"%string = Some 8 ∧
  PoloniexFutures._book (H := Samples.imports) PoloniexFutures.__reset
    (Samples.level2 7 "100,buy,0") Samples.poloniex_7 =
    (Ok tt, Samples.poloniex_7) ∧
  PoloniexFutures._book (H := Samples.imports) (raise AttributeError)
    (Samples.level2 9 "100,buy,0") Samples.poloniex_7 =
    (Raise AttributeError, Samples.poloniex_7) ∧
  PoloniexFutures._l2_book
    (snd (PoloniexFutures._book (H := Samples.imports)
            PoloniexFutures.__reset (Samples.level2 9 "100,buy,0")
            Samples.poloniex_7)) = ∅ ∧
  PoloniexFutures.logged
    (snd (PoloniexFutures._book (H := Samples.imports)
            PoloniexFutures.__reset (Samples.level2 9 "100,buy,0")
            Samples.poloniex_7)) =
    [(PoloniexFutures.WARNING,
      JStr "Missing book update detected, resetting book")].
Proof.
  split; [|split; [|split]].
  - destruct (strict_policy PoloniexFutures.__reset (H := Samples.imports)
                (Samples.level2 8 "100,buy,0")
                "/contractMarket/level2:BTCUSDTPERP" "BTCUSDTPERP"
                (JDict [("sequence"%string, JInt 8);
                        ("change"%string, JStr "100,buy,0");
                        ("timestamp"%string, JInt 1666544751415)])
                8 7 _ Samples.poloniex_7
                eq_refl eq_refl eq_refl eq_refl eq_refl
                (ex_intro _ 7 eq_refl) eq_refl) as (Hacc & _).
    rewrite (Hacc eq_refl). reflexivity.
  - destruct (strict_policy PoloniexFutures.__reset (H := Samples.imports)
                (Samples.level2 7 "100,buy,0")
                "/contractMarket/level2:BTCUSDTPERP" "BTCUSDTPERP"
                (JDict [("sequence"%string, JInt 7);
                        ("change"%string, JStr "100,buy,0");
                        ("timestamp"%string, JInt 1666544751415)])
                7 7 _ Samples.poloniex_7
                eq_refl eq_refl eq_refl eq_refl eq_refl
                (ex_intro _ 7 eq_refl) eq_refl) as (_ & _ & Hstale & _).
    apply Hstale. lia.
  - destruct (strict_policy (raise AttributeError) (H := Samples.imports)
                (Samples.level2 9 "100,buy,0")
                "/contractMarket/level2:BTCUSDTPERP" "BTCUSDTPERP"
                (JDict [("sequence"%string, JInt 9);
                        ("change"%string, JStr "100,buy,0");
                        ("timestamp"%string, JInt 1666544751415)])
                9 7 _ Samples.poloniex_7
                eq_refl eq_refl eq_refl eq_refl eq_refl
                (ex_intro _ 7 eq_refl) eq_refl) as (_ & _ & _ & Hgap).
    destruct (Hgap ltac:(lia)) as (Hraises & _).
    apply (Hraises AttributeError Samples.poloniex_7 eq_refl).
  - destruct (strict_policy PoloniexFutures.__reset (H := Samples.imports)
                (Samples.level2 9 "100,buy,0")
                "/contractMarket/level2:BTCUSDTPERP" "BTCUSDTPERP"
                (JDict [("sequence"%string, JInt 9);
                        ("change"%string, JStr "100,buy,0");
                        ("timestamp"%string, JInt 1666544751415)])
                9 7 _ Samples.poloniex_7
                eq_refl eq_refl eq_refl eq_refl eq_refl
                (ex_intro _ 7 eq_refl) eq_refl) as (_ & _ & _ & Hgap).
    destruct (Hgap ltac:(lia)) as (_ & Hreturns).
    destruct (Hreturns _ eq_refl) as (_ & Hbook).
    rewrite Hbook. split; reflexivity.
Defined.

(** C6. Removal of a level that is not there. When an entry of an accepted
    update has size zero and its price is not on that side of the book, the
    step that processes it returns without error, leaves the feed as it was
    and adds nothing to the delta of the update; when the price is there,
    the level is deleted and the entry is added to the delta of that side.
    This holds for the entries of a Binance update ([apply_level]) and for
    the change of a PoloniexFutures update ([apply_change]), whose delta
    starts empty: such an update of PoloniexFutures, once accepted and with
    a time stamp that can be normalised, is delivered with the levels of the
    book as they were and a delta that is empty on both sides. *)
Theorem idempotent_removal `{Imports} :
  (∀ pair side (delta : Delta) update price st b,
     Binance.level_of update = Ok (price, 0%Qc) →
     Binance.l2_book st !! pair = Some b →
     (side_get side b !! price = None →
        Binance.apply_level pair side delta update st = (Ok delta, st)) ∧
     (is_Some (side_get side b !! price) →
        Binance.apply_level pair side delta update st =
          (Ok (side_set side (side_get side delta ++ [(price, 0%Qc)]) delta),
           Binance.set_l2_book
             (<[pair := side_set side (delete price (side_get side b)) b]>
                (Binance.l2_book st)) st))) ∧
  (∀ symbol side price st ob,
     PoloniexFutures._l2_book st !! symbol = Some ob →
     (side_get side (PoloniexFutures.book ob) !! price = None →
        PoloniexFutures.apply_change symbol side price 0%Qc st =
          (Ok (mkSided [] []), st)) ∧
     (is_Some (side_get side (PoloniexFutures.book ob) !! price) →
        PoloniexFutures.apply_change symbol side price 0%Qc st =
          (Ok (side_set side [(price, 0%Qc)] (mkSided [] [])),
           PoloniexFutures.set_l2_book
             (<[symbol :=
                  PoloniexFutures.with_side side
                    (delete price (side_get side (PoloniexFutures.book ob)))
                    ob]> (PoloniexFutures._l2_book st)) st))) ∧
  (∀ _reset msg topic symbol data st ob seq last t ts text p side a price,
     getitem msg "topic" = Ok (JStr topic) →
     to_std (List.last (split ":" topic) "") = Ok symbol →
     getitem msg "data" = Ok data →
     PoloniexFutures._l2_book st !! symbol = Some ob →
     is_Some (PoloniexFutures.sequence_number ob) →
     PoloniexFutures.seq_no st !! symbol = Some last →
     getitem data "sequence" = Ok (JInt seq) →
     seq = last + 1 →
     getitem data "timestamp" = Ok t → self_timestamp_normalize t = Ok ts →
     getitem data "change" = Ok (JStr text) →
     split "," text = [p; side; a] →
     Decimal (JStr p) = Ok price → Decimal (JStr a) = Ok 0%Qc →
     side_get (if String.eqb side "buy" then BID else ASK)
       (PoloniexFutures.book ob) !! price = None →
     let delivered :=
       PoloniexFutures.mkOrderBook (PoloniexFutures.book ob) (Some seq)
         (Some (mkSided [] [])) (Some ts) in
     fst (PoloniexFutures._book _reset msg st) = Ok tt ∧
     PoloniexFutures._l2_book (snd (PoloniexFutures._book _reset msg st))
       !! symbol = Some delivered ∧
     PoloniexFutures.events (snd (PoloniexFutures._book _reset msg st)) =
       PoloniexFutures.events st ++
         [PoloniexFutures.BookEvent symbol delivered]).
Proof.
  split; [|split].
  - intros pair side delta update price st b Hl Hb.
    pose proof (apply_level_run pair side delta update (price, 0%Qc) st b
                  Hl Hb) as Hrun.
    unfold change_level in Hrun. simpl in Hrun.
    split; intros Hp; rewrite Hrun.
    + rewrite bool_decide_eq_false_2
        by (rewrite Hp; intros [? ?]; discriminate).
      simpl. rewrite !side_set_get, insert_id by done.
      now rewrite set_l2_book_same.
    + rewrite bool_decide_eq_true_2 by exact Hp. reflexivity.
  - intros symbol side price st ob Hb.
    pose proof (PoloniexFacts.apply_change_run symbol side price 0%Qc ob st
                  Hb) as Hrun.
    unfold PoloniexFacts.changed in Hrun.
    rewrite bool_decide_eq_true_2 in Hrun by reflexivity.
    split; intros Hp; rewrite Hrun.
    + rewrite bool_decide_eq_false_2
        by (rewrite Hp; intros [? ?]; discriminate).
      simpl. rewrite PoloniexFacts.with_side_same, insert_id by done.
      destruct st, side; reflexivity.
    + rewrite bool_decide_eq_true_2 by exact Hp. reflexivity.
  - intros _reset msg topic symbol data st ob seq last t ts text p side a
      price Htopic Hsym Hdata Hb Hs Hl Hq He Ht Hts Hc Hsp Hp Ha Hnone
      delivered.
    erewrite PoloniexFacts.level2_accept by eassumption.
    assert (Hd : PoloniexFacts.delivered
                   (if String.eqb side "buy" then BID else ASK) price 0%Qc
                   seq ts ob = delivered).
    { unfold PoloniexFacts.delivered, PoloniexFacts.changed.
      rewrite bool_decide_eq_true_2 by reflexivity.
      rewrite bool_decide_eq_false_2
        by (rewrite Hnone; intros [? ?]; discriminate).
      cbn [fst snd]. rewrite side_set_get.
      now destruct (String.eqb side "buy"). }
    unfold PoloniexFacts.accepted. cbn [fst snd PoloniexFutures._l2_book
      PoloniexFutures.events]. rewrite Hd, lookup_insert_eq.
    repeat split.
Qed.

(** C6 at work: a zero size at 99, which is not a bid of the book at 150. *)
Lemma idempotent_removal_witness :
  Binance.apply_level (H := Samples.imports) "BTCUSDT" BID (mkSided [] [])
    (Samples.level "99" "0") Samples.binance_150 =
    (Ok (mkSided [] []), Samples.binance_150) ∧
  PoloniexFutures.events
    (snd (PoloniexFutures._book (H := Samples.imports)
            PoloniexFutures.__reset (Samples.level2 8 "99,buy,0")
            Samples.poloniex_7)) =
    PoloniexFutures.events Samples.poloniex_7 ++
      [PoloniexFutures.BookEvent "BTCUSDTPERP"
         (PoloniexFutures.mkOrderBook
            (mkSided (<[Q2Qc 100 := Q2Qc 1]> ∅) (<[Q2Qc 101 := Q2Qc 2]> ∅))
            (Some 8) (Some (mkSided [] []))
            (Some (JDec (Q2Qc (1666544751415 # 1000)))))].
Proof.
  destruct (idempotent_removal (H := Samples.imports))
    as (Hbinance & _ & Hpoloniex).
  split; [|
    apply (Hpoloniex PoloniexFutures.__reset (Samples.level2 8 "99,buy,0")
             "/contractMarket/level2:BTCUSDTPERP"%string
             "BTCUSDTPERP"%string
             (JDict [("sequence"%string, JInt 8);
                     ("change"%string, JStr "99,buy,0");
                     ("timestamp"%string, JInt 1666544751415)])
             Samples.poloniex_7
             (PoloniexFutures.mkOrderBook
                (mkSided (<[Q2Qc 100 := Q2Qc 1]> ∅) (<[Q2Qc 101 := Q2Qc 2]> ∅))
                (Some 7) None None)
             8 7 (JInt 1666544751415) (JDec (Q2Qc (1666544751415 # 1000)))
             "99,buy,0"%string "99"%string
             "buy"%string "0"%string (Q2Qc 99)
             eq_refl eq_refl eq_refl eq_refl (ex_intro _ 7 eq_refl) eq_refl
             eq_refl eq_refl eq_refl eq_refl eq_refl eq_refl eq_refl eq_refl
             ltac:(vm_compute; reflexivity))].
  destruct (Hbinance "BTCUSDT"%string BID (mkSided [] [])
              (Samples.level "99" "0") (Q2Qc 99) Samples.binance_150
              Samples.book_150
              eq_refl ltac:(vm_compute; reflexivity)) as (Habsent & _).
  apply Habsent. vm_compute. reflexivity.
Defined.

Lemma eq_str_true (v : JSON) (s : string) :
  eq_str v s = true ↔ v = JStr s.
Proof.
  destruct v; simpl; try (split; [discriminate|intros E; discriminate E]).
  rewrite String.eqb_eq. split; congruence.
Qed.

(** C8, refuted as stated: the Binance handler reads the key ["stream"] of
    every frame first, so a frame of another shape, here the reply to a
    request, raises [KeyError]. *)
Lemma binance_handler_raises :
  Binance.message_handler (H := Samples.imports)
    (JDict [("result"%string, JNull); ("id"%string, JInt 1)])
    (Samples.binance []) =
    (Raise (KeyError "stream"), Samples.binance []).
Proof. reflexivity. Qed.

(** C8, amended. A combined-stream frame of Binance, that is a dict with a
    ["stream"] of the form symbol, ["@"], channel and a dict ["data"], whose
    data has an event type other than the four handled, or has neither an
    event type nor the key ["A"], is logged as a warning and nothing else
    happens: the handler returns, no callback is called, no request is made
    and no book, identifier or flag changes. The same holds for a frame of
    PoloniexFutures that is a dict whose type is none of error, welcome, ack
    and subscribe and whose subject is neither match nor level2. *)
Theorem unrecognized_dropped `{Imports} :
  (∀ msg stream p x data st,
     getitem msg "stream" = Ok (JStr stream) →
     split1 "@" stream = [p; x] →
     getitem msg "data" = Ok (JDict data) →
     BinanceFacts.unrecognized data →
     Binance.message_handler msg st =
       (Ok tt,
        Binance.mkFeed (Binance.max_depth st) (Binance.forced st)
          (Binance.l2_book st) (Binance.last_update_id st)
          (Binance.open_interest st) (Binance.rest st) (Binance.requests st)
          (Binance.events st) (Binance.warnings st ++ [JDict data]))) ∧
  (∀ _reset d st,
     PoloniexFacts.unrecognized d →
     PoloniexFutures.message_handler _reset (JDict d) st =
       (Ok tt,
        PoloniexFutures.mkFeed (PoloniexFutures.max_depth st)
          (PoloniexFutures._l2_book st) (PoloniexFutures.seq_no st)
          (PoloniexFutures.rest st) (PoloniexFutures.requests st)
          (PoloniexFutures.events st)
          (PoloniexFutures.logged st ++ [(PoloniexFutures.WARNING, JDict d)]))).
Proof.
  split.
  - intros msg stream p x data st Hs Hsplit Hd Hun.
    erewrite handler_unrecognized by eassumption. reflexivity.
  - intros _reset d st Hun.
    rewrite PoloniexFacts.frame_unrecognized by exact Hun. reflexivity.
Qed.

(** C8 at work: a Binance frame of an event type that is not handled. *)
Lemma unrecognized_dropped_witness :
  Binance.events
    (snd (Binance.message_handler (H := Samples.imports)
            (JDict [("stream"%string, JStr "btcusdt@kline_1m");
                    ("data"%string, JDict [("e"%string, JStr "kline")])])
            Samples.binance_150)) = [] ∧
  Binance.warnings
    (snd (Binance.message_handler (H := Samples.imports)
            (JDict [("stream"%string, JStr "btcusdt@kline_1m");
                    ("data"%string, JDict [("e"%string, JStr "kline")])])
            Samples.binance_150)) = [JDict [("e"%string, JStr "kline")]] ∧
  PoloniexFutures.message_handler (H := Samples.imports)
    PoloniexFutures.__reset (JDict [("type"%string, JStr "pong")])
    (Samples.poloniex []) =
    (Ok tt,
     PoloniexFutures.mkFeed (Some 100) ∅ ∅ [] [] []
       [(PoloniexFutures.WARNING, JDict [("type"%string, JStr "pong")])]).
Proof.
  destruct (unrecognized_dropped (H := Samples.imports))
    as (Hbinance & Hpoloniex).
  split; [|split];
    [| |apply (Hpoloniex PoloniexFutures.__reset
                 [("type"%string, JStr "pong")] (Samples.poloniex []));
        repeat split].
  rewrite (Hbinance
             (JDict [("stream"%string, JStr "btcusdt@kline_1m");
                     ("data"%string, JDict [("e"%string, JStr "kline")])])
             "btcusdt@kline_1m"%string "btcusdt"%string "kline_1m"%string
             [("e"%string, JStr "kline")] Samples.binance_150
             eq_refl eq_refl eq_refl
             (conj eq_refl (conj eq_refl (conj eq_refl eq_refl)))).
  all: reflexivity.
Defined.

(** C9. Side of a trade. A Binance trade whose flag ["m"] is the boolean
    [m] is delivered with side SELL when [m] is true and BUY when it is
    false. A PoloniexFutures trade is delivered with side SELL when its
    ["side"] is the string ["sell"] and BUY for any other value. In both
    feeds the trade is the one callback called, and it is called for a
    message that has the fields read and a time stamp that can be
    normalised (and, for PoloniexFutures, divided): the time stamp is
    worked out before the callback. *)
Theorem trade_side `{Imports} :
  (∀ msg st jp price jq amount a sym symbol (m : bool) E ts,
     getitem msg "p" = Ok jp → Decimal jp = Ok price →
     getitem msg "q" = Ok jq → Decimal jq = Ok amount →
     getitem msg "a" = Ok a →
     getitem msg "s" = Ok (JStr sym) → to_std sym = Ok symbol →
     getitem msg "m" = Ok (JBool m) →
     getitem msg "E" = Ok E → timestamp_normalize E = Ok ts →
     fst (Binance._trade msg st) = Ok tt ∧
     Binance.events (snd (Binance._trade msg st)) =
       Binance.events st ++
         [Binance.TradeEvent a symbol (if m then SELL else BUY) amount price
            ts]) ∧
  (∀ msg d jp price js amount t t' ts trade_id sym symbol side st,
     getitem msg "data" = Ok d →
     getitem d "price" = Ok jp → Decimal jp = Ok price →
     getitem d "size" = Ok js → Decimal js = Ok amount →
     getitem d "ts" = Ok t →
     self_timestamp_normalize t = Ok t' → truediv t' 1000000 = Ok ts →
     getitem d "tradeId" = Ok trade_id →
     getitem d "symbol" = Ok (JStr sym) → to_std sym = Ok symbol →
     getitem d "side" = Ok side →
     fst (PoloniexFutures._trade msg st) = Ok tt ∧
     PoloniexFutures.events (snd (PoloniexFutures._trade msg st)) =
       PoloniexFutures.events st ++
         [PoloniexFutures.TradeEvent trade_id symbol
            (if eq_str side "sell" then SELL else BUY) amount price ts] ∧
     (eq_str side "sell" = true ↔ side = JStr "sell")).
Proof.
  split.
  - intros msg st jp price jq amount a sym symbol m E ts Hp Hprice Hq Hamount
      Ha Hs Hsym Hm HE Hts.
    erewrite trade_run by eassumption. split; reflexivity.
  - intros msg d jp price js amount t t' ts trade_id sym symbol side st Hd Hp
      Hprice Hs Hamount Ht Hn Hts Hid Hsym Hstd Hside.
    erewrite PoloniexFacts.match_run by eassumption.
    repeat split; try apply eq_str_true.
Qed.

(** C9 at work: a Binance trade whose buyer is the maker is a SELL. *)
Lemma trade_side_witness :
  Binance.events
    (snd (Binance._trade (H := Samples.imports) (Samples.agg_trade true)
            (Samples.binance []))) =
    [Binance.TradeEvent (JInt 12345) "BNBBTC" SELL (Q2Qc 100) (Q2Qc 7)
       (JDec (Q2Qc (123456789 # 1000)))] ∧
  PoloniexFutures.events
    (snd (PoloniexFutures._trade (H := Samples.imports)
            (Samples.execution "buy") (Samples.poloniex []))) =
    [PoloniexFutures.TradeEvent (JStr "6355476b244b7900011a4f5f")
       "BTCUSDTPERP" BUY (Q2Qc 1) (Q2Qc 19155)
       (JDec (Q2Qc (1666533227264166601 # 1000000000)))].
Proof.
  destruct (trade_side (H := Samples.imports)) as (Hbinance & Hpoloniex).
  split; [|
    apply (Hpoloniex (Samples.execution "buy") _ (JInt 19155) (Q2Qc 19155)
             (JInt 1) (Q2Qc 1) (JInt 1666533227264166601)
             (JDec (Q2Qc (1666533227264166601 # 1000)))
             (JDec (Q2Qc (1666533227264166601 # 1000000000)))
             (JStr "6355476b244b7900011a4f5f") "BTCUSDTPERP"%string
             "BTCUSDTPERP"%string (JStr "buy") (Samples.poloniex [])
             eq_refl eq_refl eq_refl eq_refl eq_refl eq_refl
             ltac:(vm_compute; reflexivity) ltac:(vm_compute; reflexivity)
             eq_refl eq_refl eq_refl eq_refl)].
  destruct (Hbinance (Samples.agg_trade true) (Samples.binance [])
              (JStr "7") (Q2Qc 7) (JStr "100") (Q2Qc 100) (JInt 12345)
              "BNBBTC"%string "BNBBTC"%string true (JInt 123456789)
              (JDec (Q2Qc (123456789 # 1000)))
              eq_refl eq_refl eq_refl eq_refl eq_refl eq_refl eq_refl eq_refl
              eq_refl ltac:(vm_compute; reflexivity)) as (_ & Hevents).
  rewrite Hevents. reflexivity.
Defined.

(** C10. Depth of the Binance snapshot. A depth that is configured (in the
    code: a [max_depth] that is not zero) and is not a valid depth is
    replaced by 5000, the largest valid depth, when it is below 5000, not by
    the next valid depth above it; it is kept when it is above 5000. With no
    depth configured ([None], or zero, which the code takes for none) the
    depth is 1000. [_snapshot] makes its request with that depth. *)
Theorem snapshot_depth_selection :
  (∀ d, d ≠ 0 → d ∉ Binance.valid_depths →
     (d < 5000 → Binance.snapshot_depth (Some d) = 5000) ∧
     (5000 < d → Binance.snapshot_depth (Some d) = d)) ∧
  Binance.snapshot_depth None = 1000 ∧
  Binance.snapshot_depth (Some 0) = 1000 ∧
  (∀ (H : Imports) pair st,
     Binance.requests (snd (Binance._snapshot pair st)) =
       Binance.requests st ++
         [(pair, Binance.snapshot_depth (Binance.max_depth st))]).
Proof.
  split; [|split; [|split]].
  - intros d Hd Hv. rewrite (snapshot_depth_invalid d Hd Hv). lia.
  - reflexivity.
  - reflexivity.
  - intros H pair st. apply snapshot_requests.
Qed.

(** C10 at work: the depth 7 is not valid; 5000 levels are asked for, not
    10. *)
Lemma snapshot_depth_selection_witness :
  Binance.snapshot_depth (Some 7) = 5000.
Proof.
  destruct snapshot_depth_selection as (Hinvalid & _).
  destruct (Hinvalid 7 ltac:(lia)
              ltac:(apply (bool_decide_unpack _); vm_compute; exact I))
    as (Hbelow & _).
  apply Hbelow. lia.
Defined.

End Claims.

(** ** More properties of the Binance feed *)

Module BinanceRuns.
Import Py Binance BinanceFacts.
Local Open Scope py_scope.

(** The feed after the frames [msgs] were handled one after the other; a
    frame on which the handler raises leaves the feed as it was when the
    exception was raised, and the next frame is handled from there. *)
Definition handled `{Imports} (msgs : list JSON) (st : Feed) : Feed :=
  fold_left (fun s m => snd (message_handler m s)) msgs st.

(** [b] is [a] after one callback was called or one warning was logged, and
    nothing else. *)
Definition one_output (a b : Feed) : Prop :=
  (∃ ev, b = mkFeed (max_depth a) (forced a) (l2_book a) (last_update_id a)
                    (open_interest a) (rest a) (requests a)
                    (events a ++ [ev]) (warnings a)) ∨
  (∃ w, b = mkFeed (max_depth a) (forced a) (l2_book a) (last_update_id a)
                   (open_interest a) (rest a) (requests a) (events a)
                   (warnings a ++ [w])).

(** The code [m] either raises and leaves the feed as it was, or returns
    with one output. *)
Definition all_or_nothing {A} (m : M Feed A) : Prop :=
  ∀ st, match fst (m st) with
        | Raise _ => snd (m st) = st
        | Ok _ => one_output st (snd (m st))
        end.

(** [b] is [a] after at most one request was made. *)
Definition at_most_one_request (a b : Feed) : Prop :=
  requests b = requests a ∨ ∃ r, requests b = requests a ++ [r].

(** Every symbol that has a book has an update identifier. *)
Definition books_have_ids (st : Feed) : Prop :=
  ∀ q, is_Some (l2_book st !! q) → is_Some (last_update_id st !! q).

(** [b] has the identifiers of [a] when [a] has them for its books. *)
Definition ids_kept (a b : Feed) : Prop :=
  books_have_ids a → books_have_ids b.

Section Runs.
Context `{Imports}.

#[local] Instance ids_kept_refl : Reflexive ids_kept.
Proof. intros a Ha. exact Ha. Qed.

#[local] Instance ids_kept_trans : Transitive ids_kept.
Proof. intros a b c Hab Hbc Ha. auto. Qed.

Ltac ids_prim :=
  let Hinv := fresh "Hinv" in
  let q := fresh "q" in
  let Hq := fresh "Hq" in
  intros Hinv q Hq; simpl in *;
  first
    [ now apply Hinv
    | (rewrite lookup_empty in Hq; destruct Hq; discriminate)
    | match goal with
      | |- is_Some (<[?p := _]> _ !! q) =>
          destruct (decide (p = q)) as [->|];
          [ rewrite lookup_insert_eq; eauto
          | rewrite lookup_insert_ne by done; now apply Hinv ]
      end
    | match type of Hq with
      | is_Some (<[?p := _]> _ !! q) =>
          destruct (decide (p = q)) as [->|];
          [ apply Hinv;
            match goal with
            | E : l2_book _ !! _ = Some _ |- _ => rewrite E; eauto
            end
          | rewrite lookup_insert_ne in Hq by done; now apply Hinv ]
      end ].

Ltac frame_prim :=
  let st := fresh "st" in
  intros st;
  unfold level_setitem, level_delitem, levels_getitem, l2_book_getitem,
    forced_getitem, forced_setitem, last_update_id_getitem,
    last_update_id_setitem, callback, warning, _reset, modify, gets,
    conn_get;
  repeat case_match; simpl;
  first [ reflexivity | solve [ids_prim] ].

Ltac frame_tac :=
  repeat first
    [ match goal with
      | Hk : ∀ _, _ |- keeps _ _ => solve [apply Hk]
      end
    | (apply keeps_for_each; try typeclasses eauto; intros)
    | (apply keeps_fold_each; try typeclasses eauto; intros)
    | (apply keeps_pure; typeclasses eauto)
    | (apply keeps_lift; typeclasses eauto)
    | (apply keeps_bind; try typeclasses eauto; [|intros])
    | progress (cbv zeta)
    | match goal with
      | |- keeps _ (if ?c then _ else _) => destruct c
      | |- keeps _ (match ?c with _ => _ end) => destruct c
      end
    | solve [frame_prim] ].

Lemma handled_keeps (R : relation Feed) `{!Reflexive R} `{!Transitive R} :
  (∀ msg, keeps R (message_handler msg)) → ∀ msgs st, R st (handled msgs st).
Proof.
  intros Hk msgs. induction msgs as [|m msgs IH]; intros st; simpl.
  - reflexivity.
  - etransitivity; [apply (Hk m st)|apply IH].
Qed.

(** The check and the level loops keep the identifiers of the books. *)
Lemma check_ids p msg : keeps ids_kept (_check_update_id p msg).
Proof. unfold _check_update_id. frame_tac. Qed.

Lemma check_and_apply_ids msg p : keeps ids_kept (check_and_apply msg p).
Proof.
  unfold check_and_apply, apply_side, apply_level.
  pose proof check_ids. frame_tac.
Qed.

Lemma load_ids p side updates :
  keeps ids_kept (for_each updates (load_level p side)).
Proof. unfold load_level. frame_tac. Qed.

(** [_snapshot] writes the identifier before it creates the book. *)
Lemma snapshot_ids pair : keeps ids_kept (_snapshot pair).
Proof.
  intros st Hinv.
  change (_snapshot pair)
    with (max_depth <- gets (fun st => snapshot_depth (max_depth st)) ;;
          resp <- conn_get pair max_depth ;;
          load_snapshot pair resp)%py.
  unfold bind at 1, gets. cbn [fst snd]. unfold bind at 1.
  assert (Hget : keeps ids_kept
                   (conn_get pair (snapshot_depth (max_depth st))))
    by frame_tac.
  specialize (Hget st Hinv).
  destruct (conn_get pair _ st) as [[resp|e] s0]; [|exact Hget].
  cbn [fst snd] in *. unfold load_snapshot.
  unfold bind at 1, lift. destruct (to_std pair) as [p|e]; [|exact Hget].
  unfold bind at 1. destruct (getitem resp "lastUpdateId") as [v|e];
    [|exact Hget].
  unfold bind at 1. destruct (as_int v) as [n|e]; [|exact Hget].
  unfold bind at 1, last_update_id_setitem, modify. cbn [fst snd].
  unfold bind at 1. cbn [fst snd].
  match goal with
  | |- books_have_ids (snd (?m ?s)) =>
      assert (Hk : keeps ids_kept m)
        by (pose proof load_ids; frame_tac);
      apply (Hk s)
  end.
  intros q Hq. simpl in *.
  destruct (decide (p = q)) as [->|Hne].
  - rewrite lookup_insert_eq. eauto.
  - rewrite lookup_insert_ne in Hq by done.
    rewrite lookup_insert_ne by done. now apply Hget.
Qed.

Lemma handler_ids msg : keeps ids_kept (message_handler msg).
Proof.
  assert (Hbook : ∀ m p, keeps ids_kept (_book m p)).
  { intros m p st. rewrite book_unfold.
    destruct (to_std p) as [q|e]; [|intros Hinv; exact Hinv].
    destruct (bool_decide _).
    - apply check_and_apply_ids.
    - apply (keeps_bind ids_kept); [apply snapshot_ids|].
      intros _. apply check_and_apply_ids. }
  unfold message_handler, _trade, _ticker, _liquidations, _funding.
  frame_tac.
Qed.

(** X2. In every state that the Binance feed reaches from [_reset] through
    any run of frames, with any replies and also when handlers raise, a
    symbol that is past its first update has a book, and a symbol that has a
    book has an update identifier. *)
Theorem feed_invariants (msgs : list JSON) (st : Feed) :
  flags_have_books (handled msgs (snd (_reset st))) ∧
  books_have_ids (handled msgs (snd (_reset st))).
Proof.
  split.
  - generalize (reset_flags st). generalize (snd (_reset st)).
    induction msgs as [|m msgs IH]; intros s Hs; simpl; [exact Hs|].
    apply IH, handler_flags, Hs.
  - apply (handled_keeps ids_kept handler_ids).
    intros q [b Hq]. simpl in Hq. rewrite lookup_empty in Hq. discriminate.
Qed.

#[local] Instance quiet_refl : Reflexive same_requests.
Proof. intros a. reflexivity. Qed.

#[local] Instance quiet_trans : Transitive same_requests.
Proof. intros a b c Hab Hbc. unfold same_requests in *. congruence. Qed.

Lemma handler_requests msg st :
  at_most_one_request st (snd (message_handler msg st)).
Proof.
  assert (Hquiet : ∀ A (m : M Feed A) s,
            keeps same_requests m → at_most_one_request s (snd (m s))).
  { intros A m s Hm. left. apply Hm. }
  unfold message_handler.
  unfold bind at 1, lift.
  destruct (getitem msg "stream") as [v|e]; [|now left].
  unfold bind at 1. destruct (as_str v) as [stream|e]; [|now left].
  unfold bind at 1.
  destruct (match split1 "@" stream with
            | [p; _] => Ok p
            | _ => Raise ValueError
            end) as [p|e]; [|now left].
  unfold bind at 1.
  destruct (getitem msg "data") as [data|e]; [|now left].
  unfold bind at 1.
  destruct (contains data "e") as [[|]|e]; [| |now left].
  - unfold bind at 1.
    destruct (getitem data "e") as [e|e]; [|now left].
    destruct (eq_str e "depthUpdate").
    + destruct (to_std (upper p)) as [q|e'] eqn:Hq.
      * destruct (l2_book st !! q) as [b|] eqn:Hb.
        -- left. apply (book_requests_known data (upper p) q); [exact Hq|].
           rewrite Hb. eauto.
        -- right. eexists.
           apply (book_requests_unknown data (upper p) q); assumption.
      * left. rewrite book_unfold, Hq. reflexivity.
    + repeat match goal with
             | |- context [if ?c then _ else _] => destruct c
             end;
        apply Hquiet; unfold _trade, _liquidations, _funding; frame_tac.
  - unfold bind at 1.
    destruct (contains data "A") as [[|]|e]; [| |now left];
      apply Hquiet; unfold _ticker; frame_tac.
Qed.

(** X17. The Binance feed makes at most one REST request for each frame
    it handles: over any run of frames, whatever they hold and whatever the
    replies are, the requests made are those made before followed by no
    more requests than there are frames. *)
Theorem one_request_per_frame (msgs : list JSON) (st : Feed) :
  ∃ sent,
    requests (handled msgs st) = requests st ++ sent ∧
    (length sent ≤ length msgs)%nat.
Proof.
  revert st. induction msgs as [|m msgs IH]; intros st.
  - exists []. simpl. now rewrite app_nil_r.
  - cbn [handled fold_left].
    destruct (IH (snd (message_handler m st))) as (sent & Hrun & Hlen).
    fold (handled msgs (snd (message_handler m st))).
    destruct (handler_requests m st) as [E|(r & E)].
    + exists sent. rewrite Hrun, E. split; [reflexivity|simpl; lia].
    + exists (r :: sent). rewrite Hrun, E, <- app_assoc.
      split; [reflexivity|simpl; lia].
Qed.

(** X18. [subscribe] on a connection that is not the REST one forgets
    every book: the first depth update that follows for any symbol makes
    one snapshot request, with the depth that the configuration selects,
    whether or not the symbol had a book before. *)
Theorem subscribe_forces_snapshot (conn_type pair p : string) (msg : JSON)
    (st : Feed) :
  conn_type ≠ "https"%string →
  to_std pair = Ok p →
  fst (subscribe conn_type st) = Ok tt ∧
  requests (snd (_book msg pair (snd (subscribe conn_type st)))) =
    requests st ++ [(pair, snapshot_depth (max_depth st))].
Proof.
  intros Hconn Hp. unfold subscribe.
  destruct (String.eqb_spec conn_type "https") as [->|_]; [done|].
  split; [reflexivity|].
  now rewrite (book_requests_unknown msg pair p (snd (_reset st)) Hp).
Qed.

Lemma aon_lift {A B} (r : Res A) (k : A → M Feed B) :
  (∀ a, r = Ok a → all_or_nothing (k a)) →
  all_or_nothing (x <- lift r ;; k x).
Proof.
  intros Hk st. unfold bind, lift. destruct r as [a|e]; [|reflexivity].
  apply (Hk a eq_refl).
Qed.

Lemma aon_silent {A B} (m : M Feed A) (k : A → M Feed B) :
  (∀ st, snd (m st) = st) → (∀ a, all_or_nothing (k a)) →
  all_or_nothing (x <- m ;; k x).
Proof.
  intros Hm Hk st. unfold bind. specialize (Hm st).
  destruct (m st) as [[a|e] s]; simpl in Hm; subst s; [|reflexivity].
  apply Hk.
Qed.

Lemma aon_callback ev : all_or_nothing (callback ev).
Proof. intros st. left. eexists. reflexivity. Qed.

Lemma aon_warning w : all_or_nothing (warning w).
Proof. intros st. right. eexists. reflexivity. Qed.

Ltac aon_tac :=
  repeat first
    [ apply aon_callback
    | apply aon_warning
    | (apply aon_lift; intros ? _) ].

Lemma trade_aon msg : all_or_nothing (_trade msg).
Proof. unfold _trade. aon_tac. Qed.

Lemma liquidations_aon msg : all_or_nothing (_liquidations msg).
Proof. unfold _liquidations. aon_tac. Qed.

Lemma funding_aon msg : all_or_nothing (_funding msg).
Proof. unfold _funding. aon_tac. Qed.

Lemma ticker_aon msg : all_or_nothing (_ticker msg).
Proof.
  unfold _ticker. aon_tac. apply aon_silent; [|intros; apply aon_callback].
  intros st. match goal with |- context [if ?c then _ else _] => destruct c end;
    [|reflexivity].
  unfold bind, lift, pure. destruct (getitem msg "E") as [E|e]; [|reflexivity].
  destruct (timestamp_normalize E); reflexivity.
Qed.

(** X3. A frame whose payload is not a depth update is handled as a whole:
    either its handler raises and the feed is exactly as it was, or it
    returns and the feed differs by one callback called or one warning
    logged. Such a frame never touches a book, an update identifier or a
    flag, and makes no request. *)
Theorem other_frames_all_or_nothing (msg : JSON) (st : Feed) :
  (∀ data e, getitem msg "data" = Ok data → getitem data "e" = Ok e →
     eq_str e "depthUpdate" = false) →
  match fst (message_handler msg st) with
  | Raise _ => snd (message_handler msg st) = st
  | Ok _ => one_output st (snd (message_handler msg st))
  end.
Proof.
  intros Hother. revert st. change (all_or_nothing (message_handler msg)).
  unfold message_handler.
  apply aon_lift; intros v _. apply aon_lift; intros stream _.
  apply aon_lift; intros p _. apply aon_lift; intros data Hd.
  apply aon_lift; intros [|] _.
  - apply aon_lift; intros e He. rewrite (Hother data e Hd He).
    repeat match goal with
           | |- context [if ?c then _ else _] => destruct c
           end;
      first [ apply trade_aon | apply liquidations_aon
            | apply funding_aon | apply aon_warning ].
  - apply aon_lift; intros [|] _; [apply ticker_aon|apply aon_warning].
Qed.

End Runs.

(** X3 at work: an aggregated trade arrives at the feed of two symbols, and
    one callback is called. *)
Lemma other_frames_all_or_nothing_witness :
  one_output Samples.binance_two
    (snd (message_handler (H := Samples.imports)
            (JDict [("stream"%string, JStr "bnbbtc@aggTrade");
                    ("data"%string, Samples.agg_trade true)])
            Samples.binance_two)).
Proof.
  apply (other_frames_all_or_nothing (H := Samples.imports)
           (JDict [("stream"%string, JStr "bnbbtc@aggTrade");
                   ("data"%string, Samples.agg_trade true)])
           Samples.binance_two).
  intros data e Hd He. injection Hd as <-. injection He as <-.
  reflexivity.
Defined.

(** X18 at work: the feed of two symbols is subscribed again. *)
Lemma subscribe_forces_snapshot_witness :
  requests
    (snd (_book (H := Samples.imports)
            (Samples.depth_update "BTCUSDT" 152 153 [] []) "BTCUSDT"
            (snd (subscribe "wss" Samples.binance_two)))) =
    requests Samples.binance_two ++ [("BTCUSDT"%string, 1000)].
Proof.
  apply (subscribe_forces_snapshot (H := Samples.imports) "wss" "BTCUSDT"
           "BTCUSDT" (Samples.depth_update "BTCUSDT" 152 153 [] [])
           Samples.binance_two).
  - discriminate.
  - reflexivity.
Defined.

End BinanceRuns.

(** ** The levels that a book holds *)

Module BinanceLevels.
Import Py Binance BinanceFacts.
Local Open Scope py_scope.

(** The size that the last level of [levels] at [price] gives. *)
Fixpoint last_for (price : Qc) (levels : list (Qc * Qc)) : option Qc :=
  match levels with
  | [] => None
  | l :: r =>
      match last_for price r with
      | Some a => Some a
      | None => if bool_decide (fst l = price) then Some (snd l) else None
      end
  end.

(** A level with a size other than zero. *)
Definition sized (l : Qc * Qc) : Prop := snd l ≠ 0%Qc.

#[local] Instance sized_dec l : Decision (sized l).
Proof. unfold sized. apply _. Defined.

Lemma change_level_lookup acc l price :
  fst (change_level acc l) !! price =
    if bool_decide (fst l = price)
    then (if bool_decide (snd l = 0%Qc) then None else Some (snd l))
    else fst acc !! price.
Proof.
  unfold change_level. destruct l as [p a]; simpl.
  case_bool_decide as Hz; [case_bool_decide as Hin|];
    case_bool_decide as Hp; simpl; subst.
  - apply lookup_delete_eq.
  - now apply lookup_delete_ne.
  - destruct (fst acc !! price) eqn:E; [|reflexivity].
    exfalso. apply Hin. eauto.
  - reflexivity.
  - apply lookup_insert_eq.
  - now apply lookup_insert_ne.
Qed.

Lemma change_levels_lookup levels price : ∀ acc,
  fst (fold_left change_level levels acc) !! price =
    match last_for price levels with
    | Some a => if bool_decide (a = 0%Qc) then None else Some a
    | None => fst acc !! price
    end.
Proof.
  induction levels as [|l r IH]; intros acc; simpl; [reflexivity|].
  rewrite IH. destruct (last_for price r); [reflexivity|].
  rewrite change_level_lookup. case_bool_decide; reflexivity.
Qed.

Lemma change_levels_delta levels : ∀ m d,
  ∃ news,
    snd (fold_left change_level levels (m, d)) = d ++ news ∧
    news `sublist_of` levels ∧
    filter sized news = filter sized levels ∧
    ∀ price, m !! price = None →
      (∀ a, (price, a) ∈ levels → a = 0%Qc) →
      ∀ a, (price, a) ∉ news.
Proof.
  induction levels as [|[p a] r IH]; intros m d; simpl.
  - exists []. rewrite app_nil_r. repeat split; try done.
    intros price _ _ x Hx. inversion Hx.
  - unfold change_level at 2. simpl.
    case_bool_decide as Hz; [case_bool_decide as Hin|].
    + destruct (IH (delete p m) (d ++ [(p, a)])) as (news & E & Hs & Hf & Hn).
      exists ((p, a) :: news). rewrite E, <- app_assoc.
      split; [reflexivity|]. split; [now apply sublist_skip|].
      split.
      * rewrite !filter_cons_False by (unfold sized; simpl; tauto). exact Hf.
      * intros price Hm Hall x Hx.
        assert (p ≠ price) as Hne.
        { intros ->. destruct Hin as [y Hy]. simpl in Hy. congruence. }
        apply elem_of_cons in Hx as [Hx|Hx]; [congruence|].
        revert Hx. apply Hn.
        -- now rewrite lookup_delete_ne.
        -- intros y Hy. apply Hall. now apply elem_of_cons; right.
    + destruct (IH m d) as (news & E & Hs & Hf & Hn).
      exists news. split; [exact E|]. split; [now apply sublist_cons|].
      split.
      * rewrite filter_cons_False by (unfold sized; simpl; tauto). exact Hf.
      * intros price Hm Hall x. apply Hn; [exact Hm|].
        intros y Hy. apply Hall. now apply elem_of_cons; right.
    + destruct (IH (<[p := a]> m) (d ++ [(p, a)])) as (news & E & Hs & Hf & Hn).
      exists ((p, a) :: news). rewrite E, <- app_assoc.
      split; [reflexivity|]. split; [now apply sublist_skip|].
      split.
      * rewrite !filter_cons_True by exact Hz. now rewrite Hf.
      * intros price Hm Hall x Hx.
        assert (p ≠ price) as Hne.
        { intros ->. apply Hz. apply Hall. now apply elem_of_cons; left. }
        apply elem_of_cons in Hx as [Hx|Hx]; [congruence|].
        revert Hx. apply Hn.
        -- now rewrite lookup_insert_ne.
        -- intros y Hy. apply Hall. now apply elem_of_cons; right.
Qed.

Lemma loaded_lookup levels price : ∀ start,
  loaded levels start !! price =
    match last_for price levels with
    | Some a => Some a
    | None => start !! price
    end.
Proof.
  unfold loaded.
  induction levels as [|l r IH]; intros start; simpl; [reflexivity|].
  rewrite IH. destruct (last_for price r); [reflexivity|].
  case_bool_decide as Hp.
  - rewrite <- Hp. apply lookup_insert_eq.
  - now apply lookup_insert_ne.
Qed.

Section Levels.
Context `{Imports}.

(** X4. The loop of [_book] over the levels of one side of an update
    returns normally when the levels convert, and changes nothing but that
    side of that symbol's book. Afterwards a price that the update names
    holds the size of the last level that names it, or no level when that
    size is zero; a price that the update does not name is as before. *)
Theorem update_last_wins (pair : string) (side : BookSide)
    (updates : list JSON) (levels : list (Qc * Qc)) (delta : Delta)
    (st : Feed) (b : Sided Levels) :
  levels_are updates levels →
  l2_book st !! pair = Some b →
  ∃ (d : Delta) (after : Levels),
    fold_each (apply_level pair side) updates delta st =
      (Ok d, set_l2_book (<[pair := side_set side after b]> (l2_book st)) st) ∧
    ∀ price,
      after !! price =
        match last_for price levels with
        | Some a => if bool_decide (a = 0%Qc) then None else Some a
        | None => side_get side b !! price
        end.
Proof.
  intros Hl Hb. erewrite fold_each_apply by eassumption. cbv zeta.
  eexists _, _. split; [reflexivity|].
  intros price. apply change_levels_lookup.
Qed.

(** X5. What the loop of [_book] reports for one side: the entries added to
    the delta are levels of the update, in the order of the update; every
    level with a size other than zero is among them; and a price that had
    no level and gets only zero sizes is not reported. *)
Theorem update_delta_reports (pair : string) (side : BookSide)
    (updates : list JSON) (levels : list (Qc * Qc)) (delta : Delta)
    (st : Feed) (b : Sided Levels) :
  levels_are updates levels →
  l2_book st !! pair = Some b →
  ∃ (news : list (Qc * Qc)),
    fst (fold_each (apply_level pair side) updates delta st) =
      Ok (side_set side (side_get side delta ++ news) delta) ∧
    news `sublist_of` levels ∧
    filter sized news = filter sized levels ∧
    ∀ price, side_get side b !! price = None →
      (∀ a, (price, a) ∈ levels → a = 0%Qc) →
      ∀ a, (price, a) ∉ news.
Proof.
  intros Hl Hb. erewrite fold_each_apply by eassumption. cbv zeta.
  destruct (change_levels_delta levels (side_get side b)
              (side_get side delta)) as (news & E & Hrest).
  exists news. cbn [fst]. rewrite E. split; [reflexivity|exact Hrest].
Qed.

(** X6. A snapshot replaces the book of its symbol by the levels of the
    reply alone: on each side a price holds the size of the last level of
    the reply at that price, a size of zero included, and no other price has
    a level. *)
Theorem snapshot_last_wins (pair p : string) (resp : JSON) (tl : list JSON)
    (n : Z) (jb ja : list JSON) (bids asks : list (Qc * Qc)) (st : Feed) :
  to_std pair = Ok p →
  rest st = resp :: tl →
  getitem resp "lastUpdateId" = Ok (JInt n) →
  getitem resp "bids" = Ok (JList jb) → levels_are jb bids →
  getitem resp "asks" = Ok (JList ja) → levels_are ja asks →
  ∃ b,
    fst (_snapshot pair st) = Ok tt ∧
    l2_book (snd (_snapshot pair st)) !! p = Some b ∧
    ∀ price,
      bid b !! price = last_for price bids ∧
      ask b !! price = last_for price asks.
Proof.
  intros Hp Hr Hn Hb Hjb Ha Hja.
  erewrite snapshot_run by eassumption.
  eexists. split; [reflexivity|]. split.
  - simpl. apply lookup_insert_eq.
  - intros price. simpl. rewrite !loaded_lookup, !lookup_empty.
    split; destruct (last_for price _); reflexivity.
Qed.

End Levels.

(** X4 at work: two levels at one price, the second with a size of zero,
    and a new price. *)
Lemma update_last_wins_witness :
  ∃ b,
    l2_book
      (snd (fold_each (apply_level (H := Samples.imports) "BTCUSDT" BID)
              [Samples.level "100" "5"; Samples.level "100" "0";
               Samples.level "99" "3"]
              (mkSided [] []) Samples.binance_150)) !! "BTCUSDT"%string =
      Some b ∧
    bid b !! Q2Qc 100 = None ∧ bid b !! Q2Qc 99 = Some (Q2Qc 3) ∧
    ask b = ask Samples.book_150.
Proof.
  destruct (update_last_wins (H := Samples.imports) "BTCUSDT" BID
              [Samples.level "100" "5"; Samples.level "100" "0";
               Samples.level "99" "3"]
              [(Q2Qc 100, Q2Qc 5); (Q2Qc 100, Q2Qc 0); (Q2Qc 99, Q2Qc 3)]
              (mkSided [] []) Samples.binance_150 Samples.book_150
              ltac:(repeat constructor) eq_refl)
    as (d & after & Hrun & Hlook).
  rewrite Hrun. eexists. split; [simpl; apply lookup_insert_eq|].
  split; [|split].
  - simpl. rewrite (Hlook (Q2Qc 100)). reflexivity.
  - simpl. rewrite (Hlook (Q2Qc 99)). reflexivity.
  - reflexivity.
Defined.

(** X5 at work: the removal at 98, a price without a level, is not
    reported. *)
Lemma update_delta_reports_witness :
  ∃ news,
    fst (fold_each (apply_level (H := Samples.imports) "BTCUSDT" BID)
           [Samples.level "98" "0"; Samples.level "99" "3"]
           (mkSided [] []) Samples.binance_150) =
      Ok (mkSided news []) ∧
    news `sublist_of` [(Q2Qc 98, Q2Qc 0); (Q2Qc 99, Q2Qc 3)] ∧
    (Q2Qc 98, Q2Qc 0) ∉ news.
Proof.
  destruct (update_delta_reports (H := Samples.imports) "BTCUSDT" BID
              [Samples.level "98" "0"; Samples.level "99" "3"]
              [(Q2Qc 98, Q2Qc 0); (Q2Qc 99, Q2Qc 3)]
              (mkSided [] []) Samples.binance_150 Samples.book_150
              ltac:(repeat constructor) eq_refl)
    as (news & Hrun & Hsub & _ & Hnot).
  exists news. split; [exact Hrun|]. split; [exact Hsub|].
  apply Hnot; [reflexivity|].
  intros a Ha. apply elem_of_cons in Ha as [Ha|Ha]; [congruence|].
  apply elem_of_cons in Ha as [Ha|Ha]; [discriminate Ha|].
  inversion Ha.
Defined.

(** X6 at work: the reply names the price 100 twice, last with size zero. *)
Lemma snapshot_last_wins_witness :
  ∃ b,
    l2_book
      (snd (_snapshot (H := Samples.imports) "BTCUSDT"
              (Samples.binance
                 [Samples.depth_reply 150
                    [Samples.level "100" "1"; Samples.level "100" "0"]
                    [Samples.level "101" "2"]]))) !! "BTCUSDT"%string =
      Some b ∧
    bid b !! Q2Qc 100 = Some (Q2Qc 0).
Proof.
  destruct (snapshot_last_wins (H := Samples.imports) "BTCUSDT" "BTCUSDT"
              (Samples.depth_reply 150
                 [Samples.level "100" "1"; Samples.level "100" "0"]
                 [Samples.level "101" "2"])
              [] 150 [Samples.level "100" "1"; Samples.level "100" "0"]
              [Samples.level "101" "2"]
              [(Q2Qc 100, Q2Qc 1); (Q2Qc 100, Q2Qc 0)] [(Q2Qc 101, Q2Qc 2)]
              (Samples.binance
                 [Samples.depth_reply 150
                    [Samples.level "100" "1"; Samples.level "100" "0"]
                    [Samples.level "101" "2"]])
              eq_refl eq_refl eq_refl eq_refl ltac:(repeat constructor)
              eq_refl ltac:(repeat constructor))
    as (b & _ & Hb & Hlook).
  exists b. split; [exact Hb|].
  rewrite (proj1 (Hlook (Q2Qc 100))). reflexivity.
Defined.

End BinanceLevels.

(** ** Updates and snapshots that fail part way *)

Module BinanceFaults.
Import Py Binance BinanceFacts BinanceLevels.
Local Open Scope py_scope.

Section Faults.
Context `{Imports}.

(** The loop over the levels of a side stops at the first level that does
    not convert; the levels before it were applied. *)
Lemma fold_each_bad pair side good levels bad more e :
  levels_are good levels → level_of bad = Raise e →
  ∀ (delta : Delta) st b, l2_book st !! pair = Some b →
    fold_each (apply_level pair side) (good ++ bad :: more) delta st =
      (Raise e,
       set_l2_book
         (<[pair := side_set side
                      (fst (fold_left change_level levels
                              (side_get side b, side_get side delta))) b]>
            (l2_book st)) st).
Proof.
  intros Hgood Hbad.
  induction Hgood as [|j l js ls Hj _ IH]; intros delta st b Hb.
  - cbn [app fold_each fold_left fst]. unfold bind at 1, apply_level.
    unfold bind at 1, lift. rewrite Hbad. cbn [fst snd].
    rewrite side_set_get, insert_id by done. now rewrite set_l2_book_same.
  - cbn [app fold_each fold_left]. unfold bind at 1.
    erewrite apply_level_run by eassumption. cbv zeta. cbn [fst snd].
    erewrite IH by (simpl; apply lookup_insert_eq). simpl.
    rewrite insert_insert_eq, !side_get_set, !side_set_set.
    destruct (change_level (side_get side b, side_get side delta) l).
    reflexivity.
Qed.

Lemma for_each_load_bad p side good levels bad more e :
  levels_are good levels → level_of bad = Raise e →
  ∀ st b, l2_book st !! p = Some b →
    for_each (good ++ bad :: more) (load_level p side) st =
      (Raise e,
       set_l2_book
         (<[p := side_set side (loaded levels (side_get side b)) b]>
            (l2_book st)) st).
Proof.
  intros Hgood Hbad.
  induction Hgood as [|j l js ls Hj _ IH]; intros st b Hb.
  - cbn [app for_each]. unfold bind at 1, load_level.
    unfold bind at 1, lift. rewrite Hbad. cbn [fst snd]. unfold loaded.
    cbn [fold_left].
    rewrite side_set_get, insert_id by done. now rewrite set_l2_book_same.
  - cbn [app for_each]. unfold bind at 1, load_level at 1.
    unfold bind at 1, lift. rewrite Hj. cbn [fst snd].
    unfold level_setitem. rewrite Hb. cbn [fst snd].
    erewrite IH by (simpl; apply lookup_insert_eq).
    simpl. rewrite insert_insert_eq, side_get_set, side_set_set.
    reflexivity.
Qed.

(** X7. An update is not applied as a whole. When the next update of a
    symbol in step is accepted and one of its asks does not convert, [_book]
    raises at that level: the identifier of the symbol has moved to the end
    of the update, the bids and the asks before that level are in the book,
    and no callback was called for them. *)
Theorem update_applied_in_part (pair p : string) (msg ts : JSON)
    (U u last : Z) (jb good more : list JSON) (bad : JSON) (e : Exn)
    (bids asks : list (Qc * Qc)) (b : Sided Levels) (st : Feed) :
  to_std pair = Ok p →
  l2_book st !! p = Some b →
  first_pending st p = false →
  last_update_id st !! p = Some last →
  getitem msg "U" = Ok (JInt U) → getitem msg "u" = Ok (JInt u) →
  last + 1 = U →
  getitem msg "E" = Ok ts →
  getitem msg "b" = Ok (JList jb) → levels_are jb bids →
  getitem msg "a" = Ok (JList (good ++ bad :: more)) →
  levels_are good asks → level_of bad = Raise e →
  ∃ b',
    fst (_book msg pair st) = Raise e ∧
    last_update_id (snd (_book msg pair st)) !! p = Some u ∧
    events (snd (_book msg pair st)) = events st ∧
    l2_book (snd (_book msg pair st)) !! p = Some b' ∧
    ∀ price,
      bid b' !! price =
        match last_for price bids with
        | Some a => if bool_decide (a = 0%Qc) then None else Some a
        | None => bid b !! price
        end ∧
      ask b' !! price =
        match last_for price asks with
        | Some a => if bool_decide (a = 0%Qc) then None else Some a
        | None => ask b !! price
        end.
Proof.
  intros Hp Hb Hf Hlast HU Hu Hnext HE Hjb Hbids Hja Hasks Hbad.
  destruct (check_next_ok p msg U u last st HU Hu Hlast Hf Hnext)
    as (st1 & Hrun & Had).
  destruct Had as (Hid & _ & _ & _ & Hbook & _ & _ & _ & Hev & _).
  assert (Hb1 : l2_book st1 !! p = Some b) by now rewrite Hbook.
  eassert (Hgo : _book msg pair st = (Raise e, _)).
  { rewrite book_unfold, Hp.
    rewrite bool_decide_eq_true_2 by (rewrite Hb; eauto).
    unfold check_and_apply. unfold bind at 1. rewrite Hrun. cbn [fst snd].
    unfold bind at 1, lift. rewrite HE. unfold bind at 1.
    cbn [fold_each]. unfold bind at 1, apply_side at 1. cbn [fst snd].
    unfold bind at 1, lift. rewrite Hjb. unfold bind at 1. cbn [as_list].
    erewrite fold_each_apply by eassumption. cbv zeta. cbn [fst snd].
    unfold bind at 1, apply_side at 1. cbn [fst snd].
    unfold bind at 1, lift. rewrite Hja. unfold bind at 1. cbn [as_list].
    erewrite fold_each_bad by
      (first [eassumption | simpl; apply lookup_insert_eq]).
    reflexivity. }
  rewrite Hgo. cbn [fst snd]. eexists.
  repeat match goal with |- _ ∧ _ => split end.
  - reflexivity.
  - simpl. rewrite Hid. apply lookup_insert_eq.
  - simpl. exact Hev.
  - simpl. apply lookup_insert_eq.
  - intros price. simpl. rewrite !change_levels_lookup. split; reflexivity.
Qed.

(** X8. A snapshot is not loaded as a whole. When a bid of the reply does
    not convert, [_snapshot] raises at that level and leaves the symbol with
    the identifier of the reply and a book that holds the bids before that
    level and no asks; as the symbol now has a book, no later update of it
    fetches a snapshot. *)
Theorem snapshot_loaded_in_part (pair p : string) (resp : JSON)
    (tl : list JSON) (n : Z) (good more : list JSON) (bad : JSON) (e : Exn)
    (bids : list (Qc * Qc)) (st : Feed) :
  to_std pair = Ok p →
  rest st = resp :: tl →
  getitem resp "lastUpdateId" = Ok (JInt n) →
  getitem resp "bids" = Ok (JList (good ++ bad :: more)) →
  levels_are good bids → level_of bad = Raise e →
  ∃ b',
    fst (_snapshot pair st) = Raise e ∧
    last_update_id (snd (_snapshot pair st)) !! p = Some n ∧
    l2_book (snd (_snapshot pair st)) !! p = Some b' ∧
    (∀ price, bid b' !! price = last_for price bids ∧ ask b' !! price = None) ∧
    ∀ msg,
      requests (snd (_book msg pair (snd (_snapshot pair st)))) =
        requests (snd (_snapshot pair st)).
Proof.
  intros Hp Hr Hn Hb Hgood Hbad.
  assert (Hrun : ∃ b',
    _snapshot pair st =
      (Raise e,
       mkFeed (max_depth st) (forced st) (<[p := b']> (l2_book st))
         (<[p := n]> (last_update_id st)) (open_interest st) tl
         (requests st ++ [(pair, snapshot_depth (max_depth st))])
         (events st) (warnings st)) ∧
    b' = mkSided (loaded bids ∅) ∅).
  { eexists. split; [|reflexivity].
    unfold _snapshot. run. unfold conn_get. rewrite Hr, Hp, Hn. simpl.
    rewrite Hb. simpl. unfold bind, pure.
    erewrite for_each_load_bad by
      (first [eassumption | simpl; apply lookup_insert_eq]).
    simpl. rewrite !insert_insert_eq. reflexivity. }
  destruct Hrun as (b' & Hrun & ->). rewrite Hrun. cbn [fst snd].
  eexists. repeat match goal with |- _ ∧ _ => split end.
  - reflexivity.
  - simpl. apply lookup_insert_eq.
  - simpl. apply lookup_insert_eq.
  - intros price. simpl. rewrite loaded_lookup, !lookup_empty.
    split; [destruct (last_for price bids); reflexivity|reflexivity].
  - intros msg. apply (book_requests_known msg pair p); [exact Hp|].
    simpl. rewrite lookup_insert_eq. eauto.
Qed.

End Faults.

(** X7 at work: the update 152 of BTCUSDT has a bid, and an ask whose size is not a
    number. *)
Lemma update_applied_in_part_witness :
  fst (_book (H := Samples.imports)
         (Samples.depth_update "BTCUSDT" 152 153 [Samples.level "99" "3"]
            [Samples.level "102" "x"])
         "BTCUSDT" Samples.binance_151) = Raise InvalidOperation ∧
  last_update_id
    (snd (_book (H := Samples.imports)
            (Samples.depth_update "BTCUSDT" 152 153 [Samples.level "99" "3"]
               [Samples.level "102" "x"])
            "BTCUSDT" Samples.binance_151)) !! "BTCUSDT"%string = Some 153 ∧
  events
    (snd (_book (H := Samples.imports)
            (Samples.depth_update "BTCUSDT" 152 153 [Samples.level "99" "3"]
               [Samples.level "102" "x"])
            "BTCUSDT" Samples.binance_151)) = events Samples.binance_151.
Proof.
  destruct (update_applied_in_part (H := Samples.imports)
              "BTCUSDT" "BTCUSDT"
              (Samples.depth_update "BTCUSDT" 152 153
                 [Samples.level "99" "3"] [Samples.level "102" "x"])
              (JInt 123456789) 152 153 151 [Samples.level "99" "3"]
              [] [] (Samples.level "102" "x") InvalidOperation
              [(Q2Qc 99, Q2Qc 3)] [] Samples.book_150 Samples.binance_151
              eq_refl eq_refl eq_refl eq_refl eq_refl eq_refl eq_refl eq_refl
              eq_refl ltac:(repeat constructor) eq_refl
              ltac:(repeat constructor) eq_refl)
    as (b' & Hraise & Hid & Hev & _).
  split; [exact Hraise|]. split; [exact Hid|exact Hev].
Defined.

(** X8 at work: the size of the second bid of the reply is not a
    number. *)
Lemma snapshot_loaded_in_part_witness :
  fst (_snapshot (H := Samples.imports) "BTCUSDT"
         (Samples.binance
            [Samples.depth_reply 150
               [Samples.level "100" "1"; Samples.level "99" "x"]
               [Samples.level "101" "2"]])) = Raise InvalidOperation ∧
  l2_book
    (snd (_snapshot (H := Samples.imports) "BTCUSDT"
            (Samples.binance
               [Samples.depth_reply 150
                  [Samples.level "100" "1"; Samples.level "99" "x"]
                  [Samples.level "101" "2"]]))) !! "BTCUSDT"%string =
    Some (mkSided {[Q2Qc 100 := Q2Qc 1]} ∅).
Proof.
  destruct (snapshot_loaded_in_part (H := Samples.imports)
              "BTCUSDT" "BTCUSDT"
              (Samples.depth_reply 150
                 [Samples.level "100" "1"; Samples.level "99" "x"]
                 [Samples.level "101" "2"])
              [] 150 [Samples.level "100" "1"] [] (Samples.level "99" "x")
              InvalidOperation [(Q2Qc 100, Q2Qc 1)]
              (Samples.binance
                 [Samples.depth_reply 150
                    [Samples.level "100" "1"; Samples.level "99" "x"]
                    [Samples.level "101" "2"]])
              eq_refl eq_refl eq_refl eq_refl ltac:(repeat constructor)
              eq_refl)
    as (b' & Hraise & _ & Hbook & _).
  split; [exact Hraise|]. reflexivity.
Defined.

End BinanceFaults.

(** ** The text of the addresses and the way back from a stream *)

Module BinanceStreams.
Import Py Binance BinanceFacts.
Local Open Scope py_scope.

(** The name of the stream of an entry, as the exchange names it: the
    stream of [_address] without the ["/"] that ends it. *)
Definition plain `{Imports} (e : string * string) : string :=
  lower (snd e) +:+ "@" +:+ fst e.

(** Every name followed by ["/"]. *)
Definition slashed (names : list string) : string :=
  fold_right (fun n acc => n +:+ "/" +:+ acc) ""%string names.

(** Text without the character [c]. *)
Fixpoint without (c : ascii) (s : string) : Prop :=
  match s with
  | EmptyString => True
  | String x r => x ≠ c ∧ without c r
  end.

Lemma app_assoc_str (a b c : string) : (a +:+ b) +:+ c = a +:+ (b +:+ c).
Proof.
  induction a as [|x a IH]; [reflexivity|].
  change (String x ((a +:+ b) +:+ c) = String x (a +:+ (b +:+ c))).
  now rewrite IH.
Qed.

Lemma app_nil_str (a : string) : a +:+ "" = a.
Proof.
  induction a as [|x a IH]; [reflexivity|].
  change (String x (a +:+ "") = String x a). now rewrite IH.
Qed.

Lemma app_empty_str (a b : string) : a +:+ b = ""%string → b = ""%string.
Proof. destruct a; [intros E; exact E|discriminate]. Qed.

Lemma app_slash_inj (a b : string) : a +:+ "/" = b +:+ "/" → a = b.
Proof.
  revert b. induction a as [|x a IH]; intros [|y b] E.
  - reflexivity.
  - change (String "/" "" = String y (b +:+ "/")) in E.
    injection E as _ E. symmetry in E. apply app_empty_str in E.
    discriminate E.
  - change (String x (a +:+ "/") = String "/" "") in E.
    injection E as _ E. apply app_empty_str in E. discriminate E.
  - change (String x (a +:+ "/") = String y (b +:+ "/")) in E.
    injection E as -> E. f_equal. now apply IH.
Qed.


Lemma drop_last_app (a b : string) :
  b ≠ ""%string → drop_last (a +:+ b) = a +:+ drop_last b.
Proof.
  intros Hb. induction a as [|x a IH]; [reflexivity|].
  change (String x a +:+ b) with (String x (a +:+ b)).
  change (String x a +:+ drop_last b) with (String x (a +:+ drop_last b)).
  rewrite <- IH.
  destruct (a +:+ b) as [|y r] eqn:E; [|reflexivity].
  exfalso. apply Hb. exact (app_empty_str _ _ E).
Qed.

Lemma drop_last_slashed n names :
  drop_last (slashed (n :: names)) = String.concat "/" (n :: names).
Proof.
  revert n. induction names as [|m names IH]; intros n.
  - cbn [slashed fold_right String.concat].
    rewrite drop_last_app by discriminate.
    change (drop_last ("/" +:+ "")) with ""%string.
    apply app_nil_str.
  - change (slashed (n :: m :: names))
      with (n +:+ "/" +:+ slashed (m :: names)).
    assert (Hne : slashed (m :: names) ≠ ""%string).
    { cbn [slashed fold_right]. intros E.
      apply app_empty_str in E. discriminate E. }
    rewrite drop_last_app.
    + rewrite drop_last_app by exact Hne. rewrite IH. reflexivity.
    + intros E. discriminate E.
Qed.

Lemma split1_at (a b : string) :
  without "@" a → split1 "@" (a +:+ "@" +:+ b) = [a; b].
Proof.
  induction a as [|x a IH]; intros Ha.
  - reflexivity.
  - destruct Ha as [Hx Ha].
    change (String x a +:+ "@" +:+ b) with (String x (a +:+ "@" +:+ b)).
    cbn [split1]. rewrite (IH Ha).
    destruct (Ascii.eqb_spec x "@"); [contradiction|reflexivity].
Qed.

Lemma dict_set_some {V} k (v : V) r : dict_set k v r ≠ [].
Proof.
  destruct r as [|[k' v'] r]; simpl; [discriminate|].
  destruct (String.eqb k k'); discriminate.
Qed.

Lemma shard_loop_short {A} (l : list A) : ∀ cur,
  (length cur + length l < 200)%nat →
  shard_loop 200 cur l = ([], cur ++ l).
Proof.
  induction l as [|x l IH]; intros cur Hl.
  - simpl. now rewrite app_nil_r.
  - cbn [shard_loop]. simpl in Hl.
    destruct (Nat.eqb_spec (length (cur ++ [x])) 200) as [He|Hne].
    + rewrite length_app in He. simpl in He. lia.
    + rewrite IH, <- app_assoc; [reflexivity|].
      rewrite length_app. simpl. lia.
Qed.

Section Streams.
Context `{Imports}.

Lemma seal_some shards : ∀ r, r ≠ [] → fold_left seal shards r ≠ [].
Proof.
  induction shards as [|c shards IH]; intros r Hr; simpl; [exact Hr|].
  apply IH. apply dict_set_some.
Qed.

Lemma stream_name_plain e : stream_name e = plain e +:+ "/".
Proof.
  unfold stream_name, stream_of, plain. now rewrite !app_assoc_str.
Qed.

Lemma address_of_slashed c :
  address_of c = stream_base +:+ slashed (map plain c).
Proof.
  unfold address_of. generalize stream_base.
  induction c as [|e c IH]; intros base.
  - simpl. now rewrite app_nil_str.
  - cbn [fold_left map slashed fold_right]. rewrite IH.
    rewrite stream_name_plain, !app_assoc_str. reflexivity.
Qed.

(** The state of the loop of [_address] at its end. *)
Lemma address_loop cfg :
  ∃ s',
    fold_left (address_chan cfg) (loop_channels cfg)
      (mkLoop [] 0 stream_base "") =
      mkLoop (fold_left seal (fst (shard_loop 200 [] (streamed cfg))) [])
        (length (snd (shard_loop 200 [] (streamed cfg))))
        (address_of (snd (shard_loop 200 [] (streamed cfg)))) s'.
Proof.
  rewrite loops_flat. fold (entries cfg). fold (streamed cfg).
  destruct (loop_shards (streamed cfg) [] [] "" ltac:(simpl; lia) ltac:(done))
    as (s' & Hrun & _).
  exists s'. exact Hrun.
Qed.

(** X9. [_address] returns [None] exactly when no pair of the subscription
    is off the open-interest channel, and it never returns an empty dict:
    as soon as one pair is to be streamed there is an address to connect
    to. No assumption is made on the names of the streams. *)
Theorem address_none_iff (cfg : Config) :
  (_address cfg = NoAddress ↔ streamed cfg = []) ∧
  _address cfg ≠ Addresses [].
Proof.
  unfold _address. destruct (address_loop cfg) as (s' & ->).
  cbn [ret counter address stream].
  destruct (shard_loop_spec 200 (streamed cfg) [] ltac:(simpl; lia))
    as (Hcat & Hfull & _ & _).
  cbn [app] in Hcat.
  destruct (shard_loop 200 [] (streamed cfg)) as [d c]. cbn [fst snd] in *.
  destruct d as [|c0 d].
  - cbn [fold_left length Nat.eqb concat app] in *. rewrite Hcat.
    destruct c as [|e c].
    + unfold address_of. cbn [fold_left]. rewrite String.eqb_refl.
      split; [tauto|discriminate].
    + rewrite address_of_base by done.
      split; [split; discriminate|discriminate].
  - assert (Hret : fold_left seal (c0 :: d) [] ≠ []).
    { cbn [fold_left]. apply seal_some, dict_set_some. }
    assert (Hl : streamed cfg ≠ []).
    { rewrite Hcat. inversion Hfull as [|? ? Hl0 _]; subst.
      destruct c0; [simpl in Hl0; lia|discriminate]. }
    destruct (fold_left seal (c0 :: d) []) as [|kv r] eqn:E; [done|].
    cbn [length Nat.eqb].
    destruct (0 <? length c)%nat.
    + split; [split; [discriminate|tauto]|].
      intros E'.
      assert (E2 : dict_set s' (drop_last (address_of c)) (kv :: r) = [])
        by congruence.
      exact (dict_set_some _ _ _ E2).
    + split; [split; [discriminate|tauto]|discriminate].
Qed.

(** X10. With fewer than 200 pairs to stream, [_address] returns one
    address: the endpoint followed by the names of the streams, lower-cased
    symbol, ["@"] and channel, in the order of the subscription and
    separated by ["/"], with no ["/"] at the end. *)
Theorem single_address (cfg : Config) :
  streamed cfg ≠ [] →
  (length (streamed cfg) < 200)%nat →
  _address cfg =
    OneAddress
      (ws_endpoint +:+ "/stream?streams=" +:+
       String.concat "/" (map plain (streamed cfg))).
Proof.
  intros Hne Hlt. unfold _address. destruct (address_loop cfg) as (s' & ->).
  cbn [ret counter address stream].
  rewrite shard_loop_short by (simpl; lia).
  cbn [fst snd fold_left length Nat.eqb app].
  rewrite address_of_base by exact Hne.
  rewrite address_of_slashed.
  destruct (streamed cfg) as [|e l]; [done|].
  cbn [map]. rewrite drop_last_app.
  - rewrite drop_last_slashed. unfold stream_base.
    now rewrite app_assoc_str.
  - cbn [slashed fold_right]. intros E.
    apply app_empty_str in E. discriminate E.
Qed.

(** X11. The way back from a stream to its symbol. A depth update that
    arrives on the stream that [_address] names for a symbol is handled as
    the update of that symbol, when the lower-cased symbol has no ["@"] and
    upper-casing it gives the symbol back, as it does for a symbol made of
    ASCII capitals and digits; the channel may have a ["@"]. *)
Theorem stream_round_trip (chan sym name : string) (msg data : JSON)
    (st : Feed) :
  without "@" (lower sym) → upper (lower sym) = sym →
  stream_of chan sym = name +:+ "/" →
  getitem msg "stream" = Ok (JStr name) →
  getitem msg "data" = Ok data →
  contains data "e" = Ok true →
  getitem data "e" = Ok (JStr "depthUpdate") →
  message_handler msg st = _book data sym st.
Proof.
  intros Hat Hback Hname Hstream Hdata He He'.
  assert (Hn : name = lower sym +:+ "@" +:+ chan).
  { unfold stream_of in Hname. symmetry. apply app_slash_inj.
    rewrite <- Hname, !app_assoc_str. reflexivity. }
  unfold message_handler.
  unfold bind at 1, lift. rewrite Hstream.
  unfold bind at 1. cbn [as_str]. rewrite Hn.
  rewrite split1_at by exact Hat.
  unfold bind at 1. unfold bind at 1. rewrite Hdata.
  unfold bind at 1. rewrite He.
  unfold bind at 1. rewrite He'.
  rewrite Hback. reflexivity.
Qed.

End Streams.

(** X10 at work: a subscription to two channels of one symbol and to the
    open interest. *)
Lemma single_address_witness :
  _address (H := Samples.imports)
    (mkConfig [] []
       [("aggTrade"%string, ["BTCUSDT"%string; "ETHUSDT"%string]);
        ("open_interest"%string, ["BTCUSDT"%string]);
        ("depth@100ms"%string, ["BTCUSDT"%string])]) =
    OneAddress
      "wss://stream.binance.com:9443/stream?streams=btcusdt@aggTrade/ethusdt@aggTrade/btcusdt@depth@100ms".
Proof.
  apply (single_address (H := Samples.imports)
           (mkConfig [] []
              [("aggTrade"%string, ["BTCUSDT"%string; "ETHUSDT"%string]);
               ("open_interest"%string, ["BTCUSDT"%string]);
               ("depth@100ms"%string, ["BTCUSDT"%string])])).
  - discriminate.
  - vm_compute. lia.
Defined.

(** X11 at work: the update 152 of BTCUSDT arrives on its depth stream. *)
Lemma stream_round_trip_witness :
  message_handler (H := Samples.imports)
    (JDict [("stream"%string, JStr "btcusdt@depth@100ms");
            ("data"%string, Samples.depth_update "BTCUSDT" 152 153 [] [])])
    Samples.binance_151 =
  _book (H := Samples.imports) (Samples.depth_update "BTCUSDT" 152 153 [] [])
    "BTCUSDT" Samples.binance_151.
Proof.
  apply (stream_round_trip (H := Samples.imports) "depth@100ms" "BTCUSDT"
           "btcusdt@depth@100ms").
  - vm_compute. repeat split; discriminate.
  - reflexivity.
  - reflexivity.
  - reflexivity.
  - reflexivity.
  - reflexivity.
  - reflexivity.
Defined.

End BinanceStreams.

(** ** More properties of the PoloniexFutures feed *)

Module PoloniexRuns.
Import Py PoloniexFutures PoloniexFacts.
Local Open Scope py_scope.

(** The levels [jl] of a reply are pairs that convert to [lv]. *)
Definition converted `{Imports} (jl : list JSON) (lv : list (Qc * Qc))
  : Prop :=
  Forall2 (fun j l => ∃ p a, j = JList [p; a] ∧ Decimal p = Ok (fst l) ∧
                             Decimal a = Ok (snd l)) jl lv.

(** The level-2 frames [msgs] of the symbol [sym] are handled one after the
    other. *)
Definition booked `{Imports} (_reset : M Feed unit) (msgs : list JSON)
    (st : Feed) : Feed :=
  fold_left (fun s m => snd (_book _reset m s)) msgs st.

(** A level-2 frame of the symbol [sym], with its payload. *)
Definition level2_of `{Imports} (sym : string) (msg : JSON) : Prop :=
  ∃ topic data,
    getitem msg "topic" = Ok (JStr topic) ∧
    to_std (List.last (split ":" topic) "") = Ok sym ∧
    getitem msg "data" = Ok data.

Section Runs.
Context `{Imports}.
Variable _reset : M Feed unit.

Lemma levels_of_loaded jl lv :
  converted jl lv → ∀ acc, levels_of jl acc = Ok (BinanceFacts.loaded lv acc).
Proof.
  induction 1 as [|j l jl lv (p & a & -> & Hp & Ha) _ IH]; intros acc.
  - reflexivity.
  - cbn [levels_of]. rewrite Hp, Ha. cbn [res_bind]. rewrite IH.
    reflexivity.
Qed.

(** A book that no snapshot has delivered skips every update. *)
Lemma level2_unsynced msg sym ob st :
  level2_of sym msg →
  _l2_book st !! sym = Some ob → sequence_number ob = None →
  _book _reset msg st = (Ok tt, st).
Proof.
  intros (topic & data & Ht & Hs & Hd) Hb Hn.
  erewrite book_known by eassumption.
  unfold bind at 1, _check_update_id. unfold bind at 1, l2_book_getitem.
  rewrite Hb. cbn [fst snd]. rewrite Hn. reflexivity.
Qed.

Lemma snapshot_raise_unsynced symbol sym res tl data e st :
  rest st = res :: tl →
  getitem res "data" = Ok data →
  to_std symbol = Ok sym →
  fst (_snapshot symbol st) = Raise e →
  (∃ ob, _l2_book (snd (_snapshot symbol st)) !! sym = Some ob ∧
         sequence_number ob = None) ∧
  events (snd (_snapshot symbol st)) = events st.
Proof.
  intros Hr Hd Hs Hfail.
  destruct (_snapshot symbol st) as [r s'] eqn:Hrun. cbn [fst snd] in *.
  subst r.
  unfold _snapshot, book_callback, l2_book_update, l2_book_getitem, callback,
    bind, gets, http_read, lift, modify in Hrun.
  rewrite Hr, Hd, Hs in Hrun. simpl in Hrun.
  repeat
    (simpl in Hrun;
     first
       [ rewrite lookup_insert_eq in Hrun
       | match type of Hrun with
         | context [match ?x with _ => _ end] =>
             lazymatch x with
             | context [match _ with _ => _ end] => fail
             | _ !! _ => fail
             | _ => destruct x eqn:?
             end
         end ]);
    simpl in Hrun;
    try discriminate Hrun;
    injection Hrun as <- <-; simpl; rewrite lookup_insert_eq;
    (split; [eexists; split; reflexivity|reflexivity]).
Qed.

(** X12. A snapshot that fails after its reply arrived leaves the symbol
    stuck. When [_snapshot] raises on a reply that has its [data], the book
    of the symbol exists but was never delivered, nothing was called back,
    and from then on every level-2 frame of the symbol is dropped: the feed
    stays as it is, with no new snapshot, no callback and no warning. *)
Theorem failed_snapshot_wedges (symbol sym : string) (res : JSON)
    (tl : list JSON) (data : JSON) (e : Exn) (st : Feed) :
  rest st = res :: tl →
  getitem res "data" = Ok data →
  to_std symbol = Ok sym →
  fst (_snapshot symbol st) = Raise e →
  is_Some (_l2_book (snd (_snapshot symbol st)) !! sym) ∧
  events (snd (_snapshot symbol st)) = events st ∧
  ∀ msgs, Forall (level2_of sym) msgs →
    booked _reset msgs (snd (_snapshot symbol st)) =
      snd (_snapshot symbol st).
Proof.
  intros Hr Hd Hs Hfail.
  destruct (snapshot_raise_unsynced symbol sym res tl data e st Hr Hd Hs Hfail)
    as ((ob & Hb & Hn) & Hev).
  split; [rewrite Hb; eauto|]. split; [exact Hev|].
  intros msgs Hall. induction Hall as [|m msgs Hm _ IH]; [reflexivity|].
  unfold booked in *. cbn [fold_left].
  rewrite (level2_unsynced m sym ob _ Hm Hb Hn). exact IH.
Qed.

(** X13. An accepted update whose time stamp or change cannot be read is
    lost without a trace. When the next update of a symbol in step has a
    time stamp that cannot be normalised, or a time stamp that can and a
    [change] that does not have three parts, [_book] raises, with the error
    of the normalisation or with [ValueError], after the sequence number of
    the symbol has moved to the update: the book is as it was and nothing
    is delivered, and the update that follows will be taken for the next
    one. *)
Theorem unreadable_change_is_lost (msg : JSON) (topic symbol : string)
    (data : JSON) (ob : OrderBook) (seq last : Z) (t : JSON) (st : Feed) :
  getitem msg "topic" = Ok (JStr topic) →
  to_std (List.last (split ":" topic) "") = Ok symbol →
  getitem msg "data" = Ok data →
  _l2_book st !! symbol = Some ob → is_Some (sequence_number ob) →
  seq_no st !! symbol = Some last →
  getitem data "sequence" = Ok (JInt seq) →
  seq = last + 1 →
  getitem data "timestamp" = Ok t →
  let moved :=
    mkFeed (max_depth st) (_l2_book st) (<[symbol := seq]> (seq_no st))
      (rest st) (requests st) (events st) (logged st) in
  (∀ e, self_timestamp_normalize t = Raise e →
     _book _reset msg st = (Raise e, moved)) ∧
  (∀ ts text,
     self_timestamp_normalize t = Ok ts →
     getitem data "change" = Ok (JStr text) →
     length (split "," text) ≠ 3%nat →
     _book _reset msg st = (Raise ValueError, moved)).
Proof.
  intros Ht Hs Hd Hb Hsync Hl Hq He Hts moved.
  split; [intros e Hn|intros ts text Hn Hc Hparts];
    erewrite book_known by eassumption;
    unfold bind at 1; erewrite check_next by eassumption;
    unfold bind at 1, lift; rewrite Hts;
    unfold bind at 1; rewrite Hn; [reflexivity|].
  unfold bind at 1. rewrite Hc.
  unfold bind at 1, as_str.
  destruct (split "," text) as [|a [|b [|c [|d l]]]]; try reflexivity.
  simpl in Hparts. lia.
Qed.

(** X14. The book that a snapshot delivers holds the levels of the reply
    alone: on each side a price has the size of the last level of the reply
    at that price, a size of zero included. The book is stored under the
    standard symbol with the sequence number of the reply, and it is the
    book that the callback gets. *)
Theorem level2_snapshot_levels (symbol sym : string) (res : JSON)
    (tl : list JSON) (data : JSON) (n : Z) (jb ja : list JSON)
    (bids asks : list (Qc * Qc)) (st : Feed) :
  rest st = res :: tl →
  getitem res "data" = Ok data →
  to_std symbol = Ok sym →
  getitem data "sequence" = Ok (JInt n) →
  getitem data "bids" = Ok (JList jb) → converted jb bids →
  getitem data "asks" = Ok (JList ja) → converted ja asks →
  ∃ ob,
    fst (_snapshot symbol st) = Ok tt ∧
    _l2_book (snd (_snapshot symbol st)) !! sym = Some ob ∧
    events (snd (_snapshot symbol st)) = events st ++ [BookEvent sym ob] ∧
    sequence_number ob = Some n ∧
    ∀ price,
      bid (book ob) !! price = BinanceLevels.last_for price bids ∧
      ask (book ob) !! price = BinanceLevels.last_for price asks.
Proof.
  intros Hr Hd Hs Hn Hb Hbids Ha Hasks.
  rewrite (level2_snapshot_run symbol sym res tl data n jb ja _ _ st
             Hr Hd Hs Hn Hb (levels_of_loaded jb bids Hbids ∅)
             Ha (levels_of_loaded ja asks Hasks ∅)).
  eexists. split; [reflexivity|]. split; [simpl; apply lookup_insert_eq|].
  split; [reflexivity|]. split; [reflexivity|].
  intros price. simpl. rewrite !BinanceLevels.loaded_lookup, !lookup_empty.
  split; destruct (BinanceLevels.last_for price _); reflexivity.
Qed.

End Runs.

(** X12 at work: the reply has no bids; the two updates that follow are
    dropped. *)
Lemma failed_snapshot_wedges_witness :
  booked (H := Samples.imports) __reset
    [Samples.level2 8 "100,buy,5"; Samples.level2 9 "100,buy,0"]
    (snd (_snapshot (H := Samples.imports) "BTCUSDTPERP"
            (Samples.poloniex
               [JDict [("data"%string,
                        JDict [("sequence"%string, JInt 7)])]]))) =
  snd (_snapshot (H := Samples.imports) "BTCUSDTPERP"
         (Samples.poloniex
            [JDict [("data"%string, JDict [("sequence"%string, JInt 7)])]])).
Proof.
  destruct (failed_snapshot_wedges (H := Samples.imports) __reset
              "BTCUSDTPERP" "BTCUSDTPERP"
              (JDict [("data"%string, JDict [("sequence"%string, JInt 7)])])
              [] (JDict [("sequence"%string, JInt 7)]) (KeyError "bids")
              (Samples.poloniex
                 [JDict [("data"%string,
                          JDict [("sequence"%string, JInt 7)])]])
              eq_refl eq_refl eq_refl eq_refl)
    as (_ & _ & Hdrop).
  apply Hdrop. repeat constructor; eexists _, _; repeat split; reflexivity.
Defined.

(** X13 at work: the change of update 8 has two parts. *)
Lemma unreadable_change_is_lost_witness :
  fst (_book (H := Samples.imports) __reset (Samples.level2 8 "100,buy")
         Samples.poloniex_7) = Raise ValueError ∧
  seq_no
    (snd (_book (H := Samples.imports) __reset (Samples.level2 8 "100,buy")
            Samples.poloniex_7)) !! "BTCUSDTPERP"%string = Some 8.
Proof.
  destruct (unreadable_change_is_lost (H := Samples.imports) __reset
              (Samples.level2 8 "100,buy")
              "/contractMarket/level2:BTCUSDTPERP" "BTCUSDTPERP"
              (JDict [("sequence"%string, JInt 8);
                      ("change"%string, JStr "100,buy");
                      ("timestamp"%string, JInt 1666544751415)])
              _ 8 7 (JInt 1666544751415) Samples.poloniex_7
              eq_refl eq_refl eq_refl eq_refl (ex_intro _ 7 eq_refl) eq_refl
              eq_refl eq_refl eq_refl) as (_ & Hchange).
  rewrite (Hchange (JDec (Q2Qc (1666544751415 # 1000))) "100,buy"%string
             ltac:(vm_compute; reflexivity) eq_refl ltac:(vm_compute; lia)).
  split; reflexivity.
Defined.

(** X14 at work: the reply names the price 101 twice on the bid side. *)
Lemma level2_snapshot_levels_witness :
  ∃ ob,
    _l2_book
      (snd (_snapshot (H := Samples.imports) "BTCUSDTPERP"
              (Samples.poloniex
                 [Samples.poloniex_reply 7
                    [Samples.level "101" "2"; Samples.level "101" "0"]
                    [Samples.level "102" "1"]]))) !! "BTCUSDTPERP"%string =
      Some ob ∧
    bid (book ob) !! Q2Qc 101 = Some (Q2Qc 0).
Proof.
  destruct (level2_snapshot_levels (H := Samples.imports)
              "BTCUSDTPERP" "BTCUSDTPERP"
              (Samples.poloniex_reply 7
                 [Samples.level "101" "2"; Samples.level "101" "0"]
                 [Samples.level "102" "1"])
              []
              (JDict [("symbol"%string, JStr "BTCUSDTPERP");
                      ("sequence"%string, JInt 7);
                      ("asks"%string, JList [Samples.level "102" "1"]);
                      ("bids"%string,
                       JList [Samples.level "101" "2";
                              Samples.level "101" "0"])])
              7 [Samples.level "101" "2"; Samples.level "101" "0"]
              [Samples.level "102" "1"]
              [(Q2Qc 101, Q2Qc 2); (Q2Qc 101, Q2Qc 0)] [(Q2Qc 102, Q2Qc 1)]
              (Samples.poloniex
                 [Samples.poloniex_reply 7
                    [Samples.level "101" "2"; Samples.level "101" "0"]
                    [Samples.level "102" "1"]])
              eq_refl eq_refl eq_refl eq_refl eq_refl
              ltac:(repeat constructor; eexists _, _; repeat split; reflexivity)
              eq_refl
              ltac:(repeat constructor; eexists _, _; repeat split; reflexivity))
    as (ob & _ & Hb & _ & _ & Hlook).
  exists ob. split; [exact Hb|].
  rewrite (proj1 (Hlook (Q2Qc 101))). reflexivity.
Defined.

End PoloniexRuns.

(** ** Subscription and symbol table of the PoloniexFutures feed *)

Module PoloniexSetup.
Import Py PoloniexFutures.
Local Open Scope py_scope.

(** [for entry in v]: the items of a list, the keys of a dict, the
    characters of a string. *)
Definition iterate (v : JSON) : Res (list JSON) :=
  match v with
  | JList l => Ok l
  | JDict d => Ok (map (fun kv => JStr (fst kv)) d)
  | JStr s => Ok (map (fun c => JStr (String c EmptyString))
                    (list_ascii_of_string s))
  | _ => Raise TypeError
  end.

Section Symbols.

(** [Symbol(base, quote, PERPETUAL)] of [cryptofeed.symbols], which is not
    in the module: the [normalized] name of the object, and its [type]. *)
Variable normalized : JSON → JSON → string.
Variable PERPETUAL : JSON.

(** The body of the loop of [_parse_symbol_data], on [ret] and
    [info['instrument_type']]. *)
Definition parse_entry (acc : list (string * JSON) * list (string * JSON))
    (entry : JSON) : Res (list (string * JSON) * list (string * JSON)) :=
  res_bind (getitem entry "symbol") (fun symbol =>
  res_bind (getitem entry "baseCurrency") (fun base =>
  res_bind (getitem entry "quoteCurrency") (fun quote =>
  let s := normalized base quote in
  Ok (dict_set s symbol (fst acc), dict_set s PERPETUAL (snd acc))))).

Fixpoint parse_entries (entries : list JSON)
    (acc : list (string * JSON) * list (string * JSON))
  : Res (list (string * JSON) * list (string * JSON)) :=
  match entries with
  | [] => Ok acc
  | entry :: r => res_bind (parse_entry acc entry) (parse_entries r)
  end.

Definition _parse_symbol_data (data : JSON)
  : Res (list (string * JSON) * JSON) :=
  res_bind (getitem data "data") (fun d =>
  res_bind (iterate d) (fun entries =>
  res_bind (parse_entries entries ([], [])) (fun r =>
  Ok (fst r, JDict [("instrument_type"%string, JDict (snd r))])))).

(** An entry of the reply with the three fields that are read: the symbol
    of the exchange, the base and the quote. *)
Definition row_of (entry : JSON) (row : JSON * JSON * JSON) : Prop :=
  getitem entry "symbol" = Ok (fst (fst row)) ∧
  getitem entry "baseCurrency" = Ok (snd (fst row)) ∧
  getitem entry "quoteCurrency" = Ok (snd row).

(** The symbol of the last row whose normalized name is [k]. *)
Fixpoint last_symbol (k : string) (rows : list (JSON * JSON * JSON))
  : option JSON :=
  match rows with
  | [] => None
  | row :: r =>
      match last_symbol k r with
      | Some s => Some s
      | None =>
          if String.eqb k (normalized (snd (fst row)) (snd row))
          then Some (fst (fst row)) else None
      end
  end.

Lemma dict_get_set {V} k k' (v : V) d :
  dict_get k (dict_set k' v d) =
    if String.eqb k k' then Some v else dict_get k d.
Proof.
  induction d as [|[k0 v0] d IH]; simpl.
  - reflexivity.
  - destruct (String.eqb_spec k' k0) as [->|Hne]; simpl.
    + destruct (String.eqb k k0); reflexivity.
    + rewrite IH. destruct (String.eqb_spec k k0) as [->|Hne'].
      * destruct (String.eqb_spec k0 k'); [congruence|reflexivity].
      * reflexivity.
Qed.

Lemma dict_set_keys {V W} k (v : V) (w : W) d e :
  map fst d = map fst e →
  map fst (dict_set k v d) = map fst (dict_set k w e).
Proof.
  revert e. induction d as [|[k0 v0] d IH]; intros [|[k1 w1] e] E;
    simpl in *; try discriminate; [reflexivity|].
  injection E as -> E.
  destruct (String.eqb k k1); simpl; [now rewrite E|].
  f_equal. now apply IH.
Qed.

Lemma dict_set_all {V} (P : V → Prop) k v (d : list (string * V)) :
  P v → Forall (fun kv => P (snd kv)) d →
  Forall (fun kv => P (snd kv)) (dict_set k v d).
Proof.
  intros Hv. induction 1 as [|[k0 v0] d H0 Hd IH]; simpl.
  - constructor; [exact Hv|constructor].
  - destruct (String.eqb k k0); constructor; simpl in *; auto.
Qed.

Lemma parse_entries_run entries rows :
  Forall2 row_of entries rows →
  ∀ acc, map fst (fst acc) = map fst (snd acc) →
    Forall (fun kv => snd kv = PERPETUAL) (snd acc) →
    ∃ r,
      parse_entries entries acc = Ok r ∧
      map fst (fst r) = map fst (snd r) ∧
      Forall (fun kv => snd kv = PERPETUAL) (snd r) ∧
      ∀ k, dict_get k (fst r) =
             match last_symbol k rows with
             | Some s => Some s
             | None => dict_get k (fst acc)
             end.
Proof.
  induction 1 as [|entry row entries rows (Hs & Hb & Hq) _ IH];
    intros acc Hkeys Hall.
  - exists acc. repeat split; auto.
  - cbn [parse_entries]. unfold parse_entry. rewrite Hs, Hb, Hq.
    cbn [res_bind].
    destruct (IH (dict_set (normalized (snd (fst row)) (snd row))
                    (fst (fst row)) (fst acc),
                  dict_set (normalized (snd (fst row)) (snd row))
                    PERPETUAL (snd acc)))
      as (r & Hrun & Hk & Ha & Hget).
    + cbn [fst snd]. now apply dict_set_keys.
    + cbn [fst snd].
      now apply (dict_set_all (fun v => v = PERPETUAL)).
    + exists r. split; [exact Hrun|]. split; [exact Hk|]. split; [exact Ha|].
      intros k. rewrite Hget. cbn [last_symbol fst snd].
      destruct (last_symbol k rows); [reflexivity|].
      rewrite dict_get_set.
      now destruct (String.eqb k (normalized (snd (fst row)) (snd row))).
Qed.

(** X16. [_parse_symbol_data] on a reply whose entries have a symbol, a
    base and a quote returns the table from normalized names to symbols of
    the exchange: a name is in the table exactly when an entry has it, and
    it leads to the symbol of the last such entry. The instrument types are
    listed under the same names, in the same order, and all are
    perpetual. *)
Theorem symbol_table (data : JSON) (entries : list JSON)
    (rows : list (JSON * JSON * JSON)) :
  getitem data "data" = Ok (JList entries) →
  Forall2 row_of entries rows →
  ∃ ret types,
    _parse_symbol_data data =
      Ok (ret, JDict [("instrument_type"%string, JDict types)]) ∧
    (∀ k, dict_get k ret = last_symbol k rows) ∧
    map fst types = map fst ret ∧
    Forall (fun kv => snd kv = PERPETUAL) types.
Proof.
  intros Hd Hrows. unfold _parse_symbol_data. rewrite Hd.
  cbn [res_bind iterate].
  destruct (parse_entries_run entries rows Hrows ([], []) eq_refl
              ltac:(constructor)) as (r & -> & Hk & Ha & Hget).
  cbn [res_bind]. exists (fst r), (snd r).
  split; [reflexivity|]. split; [|split; [now symmetry|exact Ha]].
  intros k. rewrite Hget. simpl. now destruct (last_symbol k rows).
Qed.

End Symbols.

(** *** [subscribe] *)

(** [subscribe] works on the feed and on the connection it is given: the
    documents written to the connection, oldest first. *)
Abbreviation Wire := (Feed * list JSON)%type.

Definition write (doc : JSON) : M Wire unit :=
  modify (fun s => (fst s, snd s ++ [doc])).

Definition subscription_doc (id : Z) (chan sym : string) : JSON :=
  JDict [("id"%string, JInt id); ("type"%string, JStr "subscribe");
         ("topic"%string, JStr ("/contractMarket/" +:+ chan +:+ ":" +:+ sym));
         ("privateChannel"%string, JBool false);
         ("response"%string, JBool true)].

Section Subscribe.

(** [int(time.time() * 1000)] when [k] documents are on the connection. *)
Variable clock : nat → Z.

Definition subscribe (subscription : list (string * list string))
  : M Wire unit :=
  modify (fun s => (snd (__reset (fst s)), snd s)) ;;
  for_each subscription (fun item =>
    for_each (snd item) (fun sym =>
      k <- gets (fun s => length (snd s)) ;;
      write (subscription_doc (clock k) (fst item) sym))).









End Subscribe.


(** X16 at work: a reply with one contract. *)
Lemma symbol_table_witness :
  ∃ ret types,
    _parse_symbol_data
      (fun base quote =>
         match base, quote with
         | JStr b, JStr q => b +:+ "-" +:+ q +:+ "-PERP"
         | _, _ => ""%string
         end)
      (JStr "perpetual")
      (JDict [("code"%string, JStr "200000");
              ("data"%string,
               JList [JDict [("symbol"%string, JStr "BTCUSDTPERP");
                             ("baseCurrency"%string, JStr "BTC");
                             ("quoteCurrency"%string, JStr "USDT")]])]) =
      Ok (ret, JDict [("instrument_type"%string, JDict types)]) ∧
    dict_get "BTC-USDT-PERP" ret = Some (JStr "BTCUSDTPERP").
Proof.
  destruct (symbol_table
              (fun base quote =>
                 match base, quote with
                 | JStr b, JStr q => b +:+ "-" +:+ q +:+ "-PERP"
                 | _, _ => ""%string
                 end)
              (JStr "perpetual")
              (JDict [("code"%string, JStr "200000");
                      ("data"%string,
                       JList [JDict [("symbol"%string, JStr "BTCUSDTPERP");
                                     ("baseCurrency"%string, JStr "BTC");
                                     ("quoteCurrency"%string, JStr "USDT")]])])
              [JDict [("symbol"%string, JStr "BTCUSDTPERP");
                      ("baseCurrency"%string, JStr "BTC");
                      ("quoteCurrency"%string, JStr "USDT")]]
              [(JStr "BTCUSDTPERP", JStr "BTC", JStr "USDT")]
              eq_refl ltac:(repeat constructor))
    as (ret & types & Hrun & Hget & _).
  exists ret, types. split; [exact Hrun|]. rewrite Hget. reflexivity.
Defined.

End PoloniexSetup.
